(** * ProfileMonitor: the cache-backed fetch-with-fallback scripts

    A shallow embedding of the two menu-bar plugins [github.1h.py] and
    [scholar.4h.py].  Both scripts are single-shot: read a JSON cache
    file, maybe call a web API, maybe rewrite the cache file, print menu
    lines.  The embedding threads an explicit [state] (cache file, number
    of clock readings, request log, printed lines) through a small
    state-and-exception monad; everything the scripts cannot control (the
    wall clock, the network, whether the disk accepts a write, the Python
    library routines for dates and text conversion) is collected in an
    environment record [env].

    Conventions of the embedding:
    - Python values that flow through the scripts are JSON-shaped and are
      modelled by [json]; [JNull] is Python's [None].  Numbers (epoch
      seconds, counters) are integers of [Z] and their arithmetic is
      exact: the rounding of floating point is outside the model, and a
      statement about a timestamp read from an arbitrary file bounds it
      by [float_range], the integers that Python converts to a float.
      A [dict] is an association list in insertion order, looked up by
      first match.
    - [json.load] and [response.json()] are library parsers: a file or a
      body either parses to a [json] value or it does not, and that is
      what [cache_file] and [http_body] record.
    - A string is a sequence of characters with code points below 256.
    - The icon glyphs that open some menu lines are written as the named
      constants of [Module Icon]. *)

From Stdlib Require Import ZArith List String Ascii Bool Lia Arith DecimalString.
Import ListNotations.
Open Scope string_scope.
Open Scope Z_scope.
#[local] Set Warnings "-register-all".

(** ** Values *)

Inductive json : Type :=
| JNull
| JBool (b : bool)
| JNum (n : Z)
| JStr (s : string)
| JArr (l : list json)
| JObj (kvs : list (string * json)).

(** A [datetime] is kept as the integer reading it was built from; its
    calendar fields and its text come from the library functions of [env]. *)
Definition datetime := Z.

(** ** HTTP *)

Record request := {
  url : string;
  params : option (list (string * json));
  req_headers : list (string * string)
}.

Inductive http_body :=
| BodyJson (j : json)      (* the body parses as JSON to [j] *)
| BodyText (s : string).   (* the body is not JSON *)

Record response := {
  status_code : Z;
  resp_headers : list (string * string);
  body : http_body
}.

Inductive http_outcome :=
| ConnFail (why : string)  (* connection error or the 30 s timeout *)
| Response (r : response).

(** ** Exceptions and results *)

Inductive exn :=
| KeyError (k : string)                 (* the missing key, as text *)
| IndexError
| TypeError
| AttributeError
| ValueError
| OverflowError
| OSError
| JSONDecodeError
| RequestException (why : string)
| HTTPError (r : response)              (* [response.raise_for_status()] *)
| Exception (msg : string).             (* [raise Exception(f"...")] *)

Inductive res (A : Type) :=
| Ok (a : A)
| Raise (e : exn)
| Diverge.                              (* a loop that ran out of fuel *)
Arguments Ok {A} a.
Arguments Raise {A} e.
Arguments Diverge {A}.

(** how [datetime.fromtimestamp] rejects a value *)
Inductive stamp_error :=
| YearOutOfRange          (* [ValueError]: year outside 1..9999 *)
| PlatformRange           (* [OverflowError]: outside the platform's range *)
| LocaltimeFailure.       (* [OSError]: the C library call failed *)

Definition exn_of_stamp_error (e : stamp_error) : exn :=
  match e with
  | YearOutOfRange => ValueError
  | PlatformRange => OverflowError
  | LocaltimeFailure => OSError
  end.

(** ** The cache file and the disk *)

Inductive cache_file :=
| Absent                    (* [os.path.exists] is false *)
| Unreadable                (* exists, [open(..., 'r')] raises *)
| Garbage                   (* readable, [json.load] raises *)
| FJson (j : json).         (* [json.load] returns [j] *)

Inductive write_mode :=
| WriteOk                   (* [open(..., 'w')] and [json.dump] succeed *)
| OpenFails                 (* [open(..., 'w')] raises, file untouched *)
| DumpFails.                (* file truncated, [json.dump] raises *)

(** ** The environment of one invocation *)

Record env := {
  clock : nat -> Z;                          (* i-th reading of the wall clock *)
  network : nat -> request -> http_outcome;  (* outcome of the i-th request *)
  disk : write_mode;
  py_str : json -> string;                   (* [str(v)], as in an f-string *)
  str_exn : exn -> string;                   (* [str(e)] of a library exception *)
  py_int : string -> option Z;               (* [int(s)] *)
  fromtimestamp : Z -> option datetime;      (* [datetime.fromtimestamp] *)
  fromtimestamp_error : Z -> stamp_error;    (* how it rejects a value *)
  str_datetime : datetime -> string;         (* [str(dt)] *)
  str_int : Z -> string;                     (* [str(n)] of an integer *)
  strftime : datetime -> string;             (* ["%Y-%m-%d %H:%M"] *)
  year : datetime -> Z;                      (* [dt.year] *)
  strptime : string -> option datetime       (* ["%Y-%m-%dT%H:%M:%SZ"] *)
}.

Record state := {
  file : cache_file;
  ticks : nat;                (* clock readings taken so far *)
  requests : list request;    (* requests issued so far, oldest first *)
  stdout : list string        (* lines printed so far, oldest first *)
}.

(** ** The monad *)

Definition M (A : Type) : Type := state -> res A * state.

Definition ret {A} (a : A) : M A := fun s => (Ok a, s).

Definition bind {A B} (m : M A) (k : A -> M B) : M B :=
  fun s =>
    match m s with
    | (Ok a, s') => k a s'
    | (Raise e, s') => (Raise e, s')
    | (Diverge, s') => (Diverge, s')
    end.

Definition raise {A} (e : exn) : M A := fun s => (Raise e, s).

Definition lift {A} (r : res A) : M A := fun s => (r, s).

(** [try: m except Exception as e: h e]; effects of [m] are kept. *)
Definition try_except {A} (m : M A) (h : exn -> M A) : M A :=
  fun s =>
    match m s with
    | (Raise e, s') => h e s'
    | other => other
    end.

Declare Scope py_scope.
Delimit Scope py_scope with py.
Notation "x <- m ;; k" := (bind m (fun x => k))
  (at level 61, m at next level, right associativity) : py_scope.
Notation "m >> k" := (bind m (fun _ => k))
  (at level 61, right associativity) : py_scope.

(** sequencing of effect-free steps that may raise *)
Definition rbind {A B} (r : res A) (k : A -> res B) : res B :=
  match r with
  | Ok a => k a
  | Raise e => Raise e
  | Diverge => Diverge
  end.
Notation "x <~ r ;; k" := (rbind r (fun x => k))
  (at level 61, r at next level, right associativity) : py_scope.
Open Scope py_scope.

(** ** Python operations on values *)

Fixpoint lookup (k : string) (kvs : list (string * json)) : option json :=
  match kvs with
  | [] => None
  | (k', v) :: rest => if String.eqb k k' then Some v else lookup k rest
  end.

(** [bool(v)] *)
Definition truthy (v : json) : bool :=
  match v with
  | JNull => false
  | JBool b => b
  | JNum n => negb (n =? 0)
  | JStr s => negb (String.eqb s "")
  | JArr l => match l with [] => false | _ => true end
  | JObj kvs => match kvs with [] => false | _ => true end
  end.

(** [d.get(k, default)] *)
Definition py_get (d : json) (k : string) (default : json) : res json :=
  match d with
  | JObj kvs => Ok (match lookup k kvs with Some v => v | None => default end)
  | _ => Raise AttributeError
  end.

(** [d[k]] with a string key *)
Definition py_getitem (d : json) (k : string) : res json :=
  match d with
  | JObj kvs => match lookup k kvs with Some v => Ok v | None => Raise (KeyError k) end
  | _ => Raise TypeError
  end.

(** the text of an integer key in a [KeyError] *)
Definition index_key (i : nat) : string :=
  DecimalString.NilZero.string_of_uint (Nat.to_uint i).

(** [v[i]] with a literal index [i] *)
Definition py_index (v : json) (i : nat) : res json :=
  match v with
  | JArr l => match nth_error l i with Some x => Ok x | None => Raise IndexError end
  | JStr s => match String.get i s with
              | Some c => Ok (JStr (String c EmptyString))
              | None => Raise IndexError
              end
  | JObj _ => Raise (KeyError (index_key i))
  | _ => Raise TypeError
  end.

(** [len(v)] *)
Definition py_len (v : json) : res Z :=
  match v with
  | JArr l => Ok (Z.of_nat (List.length l))
  | JObj kvs => Ok (Z.of_nat (List.length kvs))
  | JStr s => Ok (Z.of_nat (String.length s))
  | _ => Raise TypeError
  end.

Definition is_str (s : string) (v : json) : bool :=
  match v with JStr s' => String.eqb s s' | _ => false end.

Definition substring_of (s t : string) : bool :=
  match String.index 0 s t with Some _ => true | None => false end.

(** [k in v] with a string [k] *)
Definition py_in (k : string) (v : json) : res bool :=
  match v with
  | JObj kvs => Ok (match lookup k kvs with Some _ => true | None => false end)
  | JArr l => Ok (existsb (is_str k) l)
  | JStr s => Ok (substring_of k s)
  | _ => Raise TypeError
  end.

Fixpoint chars (s : string) : list json :=
  match s with
  | EmptyString => []
  | String c rest => JStr (String c EmptyString) :: chars rest
  end.

(** the items a [for] loop (or [list.extend]) draws from [v] *)
Definition py_iter (v : json) : res (list json) :=
  match v with
  | JArr l => Ok l
  | JObj kvs => Ok (map (fun kv => JStr (fst kv)) kvs)
  | JStr s => Ok (chars s)
  | _ => Raise TypeError
  end.

(** a value used as a number: [bool] is a subtype of [int] *)
Definition num_of (v : json) : option Z :=
  match v with
  | JNum n => Some n
  | JBool b => Some (if b then 1 else 0)
  | _ => None
  end.

(** [v == n] for an integer [n] *)
Definition py_eq_int (v : json) (n : Z) : bool :=
  match num_of v with Some m => m =? n | None => false end.

(** [s.strip()]: the characters below 256 that [str.isspace] accepts *)
Definition is_space (c : ascii) : bool :=
  let n := nat_of_ascii c in
  (Nat.eqb n 32
   || (Nat.leb 9 n && Nat.leb n 13)
   || (Nat.leb 28 n && Nat.leb n 31)
   || Nat.eqb n 133
   || Nat.eqb n 160)%bool.

Fixpoint lstrip (s : string) : string :=
  match s with
  | EmptyString => EmptyString
  | String c rest => if is_space c then lstrip rest else s
  end.

Fixpoint rstrip (s : string) : string :=
  match s with
  | EmptyString => EmptyString
  | String c rest =>
      match rstrip rest with
      | EmptyString => if is_space c then EmptyString else String c EmptyString
      | r => String c r
      end
  end.

Definition strip (s : string) : string := rstrip (lstrip s).

(** header names compare without case ([requests]' header dictionary) *)
Definition lower_ascii (c : ascii) : ascii :=
  let n := nat_of_ascii c in
  if (Nat.leb 65 n && Nat.leb n 90)%bool then ascii_of_nat (n + 32) else c.

Fixpoint lower (s : string) : string :=
  match s with
  | EmptyString => EmptyString
  | String c rest => String (lower_ascii c) (lower rest)
  end.

Fixpoint header (name : string) (hs : list (string * string)) : option string :=
  match hs with
  | [] => None
  | (n, v) :: rest =>
      if String.eqb (lower name) (lower n) then Some v else header name rest
  end.

(** ** Effects *)

Section Effects.
Variable E : env.

(** [time.time()] and [datetime.now()] both read the wall clock *)
Definition time_time : M Z :=
  fun s => (Ok (clock E (ticks s)),
            {| file := file s; ticks := S (ticks s);
               requests := requests s; stdout := stdout s |}).

Definition datetime_now : M datetime := time_time.

(** [requests.get(...)]: one request, logged, answered by the network *)
Definition requests_get (r : request) : M response :=
  fun s =>
    let s' := {| file := file s; ticks := ticks s;
                 requests := requests s ++ [r]; stdout := stdout s |} in
    match network E (List.length (requests s)) r with
    | ConnFail why => (Raise (RequestException why), s')
    | Response resp => (Ok resp, s')
    end.

Definition print (line : string) : M unit :=
  fun s => (Ok tt,
            {| file := file s; ticks := ticks s;
               requests := requests s; stdout := stdout s ++ [line] |}).

(** [os.path.exists(CACHE_FILE)] *)
Definition path_exists : M bool :=
  fun s => (Ok (match file s with Absent => false | _ => true end), s).

(** [with open(CACHE_FILE, 'r') as f: json.load(f)] *)
Definition read_json_file : M json :=
  fun s =>
    match file s with
    | Absent => (Raise OSError, s)
    | Unreadable => (Raise OSError, s)
    | Garbage => (Raise JSONDecodeError, s)
    | FJson j => (Ok j, s)
    end.

(** [with open(CACHE_FILE, 'w') as f: json.dump(v, f)] *)
Definition write_json_file (v : json) : M unit :=
  fun s =>
    let put f := {| file := f; ticks := ticks s;
                    requests := requests s; stdout := stdout s |} in
    match disk E with
    | WriteOk => (Ok tt, put (FJson v))
    | OpenFails => (Raise OSError, s)
    | DumpFails => (Raise OSError, put Garbage)
    end.

(** [str(e)]: the message of a plain [Exception], the library's text
    for the others *)
Definition str_of_exn (e : exn) : string :=
  match e with
  | Exception msg => msg
  | _ => str_exn E e
  end.

(** *** The cache helpers, identical in both scripts up to
    [CACHE_EXPIRATION] *)

Definition load_cache (CACHE_EXPIRATION : Z) : M json :=
  ex <- path_exists ;;
  if negb ex then ret JNull else
  try_except
    (cache_data <- read_json_file ;;
     now <- time_time ;;
     ts <- lift (py_get cache_data "timestamp" (JNum 0)) ;;
     match num_of ts with
     | None => raise TypeError
     | Some t =>
         if now - t >? CACHE_EXPIRATION then ret JNull
         else lift (py_get cache_data "data" JNull)
     end)
    (fun _ => ret JNull).

Definition save_cache (data : json) : M unit :=
  try_except
    (now <- time_time ;;
     write_json_file (JObj [("timestamp", JNum now); ("data", data)]))
    (fun _ => ret tt).
End Effects.

(** [response.raise_for_status()]: client and server error statuses *)
Definition raise_for_status (r : response) : res unit :=
  if ((400 <=? status_code r) && (status_code r <? 600))%bool
  then Raise (HTTPError r) else Ok tt.

(** [response.json()] *)
Definition response_json (r : response) : res json :=
  match body r with
  | BodyJson j => Ok j
  | BodyText _ => Raise JSONDecodeError
  end.

(** ["\n".join(lines)] *)
Definition nl : string := String (ascii_of_nat 10) EmptyString.

Fixpoint join (sep : string) (lines : list string) : string :=
  match lines with
  | [] => EmptyString
  | [l] => l
  | l :: rest => l ++ sep ++ join sep rest
  end.

(** the status the host sees: 0 after a normal end, 1 after an uncaught
    exception *)
Definition exit_code {A} (r : res A) : option Z :=
  match r with
  | Ok _ => Some 0
  | Raise _ => Some 1
  | Diverge => None
  end.

Module Icon.
Definition star : string := "[star]".
Definition person : string := "[person]".
Definition chart : string := "[chart]".
Definition people : string := "[people]".
Definition folders : string := "[folders]".
Definition pin : string := "[pin]".
Definition bullet : string := "[bullet]".
Definition bell : string := "[bell]".
Definition arrow : string := "[arrow]".
Definition clock : string := "[clock]".
Definition magnifier : string := "[magnifier]".
Definition refresh : string := "[refresh]".
Definition warning : string := "[warning]".
Definition cross : string := "[cross]".
Definition books : string := "[books]".
End Icon.

(** * github.1h.py *)

Module Github.

Record config := {
  GITHUB_USERNAME : string;
  GITHUB_TOKEN : string;
  MONITORED_REPOS : list string      (* the variable, split at commas *)
}.

Definition GITHUB_API : string := "https://api.github.com".

(** cache expiration in seconds *)
Definition CACHE_EXPIRATION : Z := 60 * 60.

Section Script.
Variable E : env.
Variable C : config.

Definition USER_ENDPOINT : string :=
  GITHUB_API ++ "/users/" ++ GITHUB_USERNAME C.
Definition REPOS_ENDPOINT : string :=
  GITHUB_API ++ "/users/" ++ GITHUB_USERNAME C ++ "/repos".
Definition RECEIVED_EVENTS_ENDPOINT : string :=
  GITHUB_API ++ "/users/" ++ GITHUB_USERNAME C ++ "/received_events".

Definition load_cache : M json := load_cache E CACHE_EXPIRATION.
Definition save_cache : json -> M unit := save_cache E.

(** the exception of line 71 *)
Definition RateLimited (reset_time : datetime) : exn :=
  Exception ("GitHub API rate limit exceeded. Resets at "
             ++ str_datetime E reset_time).

Definition make_github_request
    (url : string) (params : option (list (string * json))) : M json :=
  let headers :=
    ("Accept", "application/vnd.github.v3+json") ::
    (if truthy (JStr (GITHUB_TOKEN C))
     then [("Authorization", "token " ++ GITHUB_TOKEN C)] else []) in
  response <- requests_get E
    {| url := url; params := params; req_headers := headers |} ;;
  (if (status_code response =? 403)%Z then
     match header "X-RateLimit-Remaining" (resp_headers response) with
     | Some remaining =>
         if String.eqb remaining "0" then
           match header "X-RateLimit-Reset" (resp_headers response) with
           | None => raise (KeyError "x-ratelimit-reset")
           | Some reset =>
               match py_int E reset with
               | None => raise ValueError
               | Some n =>
                   match fromtimestamp E n with
                   | None =>
                       raise (exn_of_stamp_error (fromtimestamp_error E n))
                   | Some reset_time => raise (RateLimited reset_time)
                   end
               end
           end
         else ret tt
     | None => ret tt
     end
   else ret tt) >>
  lift (raise_for_status response) >>
  lift (response_json response).

Definition fetch_user_data : M json :=
  make_github_request USER_ENDPOINT None.

(** the [while True] loop of [fetch_repos_data], by fuel *)
Fixpoint fetch_repos_loop (fuel : nat) (all_repos : list json) (page : Z)
  : M (list json) :=
  match fuel with
  | O => lift Diverge
  | S fuel' =>
      repos <- make_github_request REPOS_ENDPOINT
                 (Some [("page", JNum page); ("per_page", JNum 100)]) ;;
      if negb (truthy repos) then ret all_repos
      else
        items <- lift (py_iter repos) ;;
        fetch_repos_loop fuel' (all_repos ++ items)%list (page + 1)
  end.

Definition fetch_repos_data (fuel : nat) : M (list json) :=
  fetch_repos_loop fuel [] 1.

(** [sum(repo["stargazers_count"] for repo in repos)] *)
Fixpoint sum_stars (acc : Z) (repos : list json) : res json :=
  match repos with
  | [] => Ok (JNum acc)
  | repo :: rest =>
      match py_getitem repo "stargazers_count" with
      | Ok v =>
          match num_of v with
          | Some n => sum_stars (acc + n) rest
          | None => Raise TypeError
          end
      | Raise e => Raise e
      | Diverge => Diverge
      end
  end.

Definition fetch_stars_received (fuel : nat) : M json :=
  repos <- fetch_repos_data fuel ;;
  lift (sum_stars 0 repos).

Fixpoint monitored_loop (names : list string) (result : list json)
  : M (list json) :=
  match names with
  | [] => ret result
  | repo_full_name :: rest =>
      if negb (truthy (JStr (strip repo_full_name)))
      then monitored_loop rest result
      else
        result' <-
          try_except
            (repo_data <- make_github_request
                 (GITHUB_API ++ "/repos/" ++ strip repo_full_name) None ;;
             name <- lift (py_getitem repo_data "name") ;;
             full_name <- lift (py_getitem repo_data "full_name") ;;
             html_url <- lift (py_getitem repo_data "html_url") ;;
             stars <- lift (py_getitem repo_data "stargazers_count") ;;
             forks <- lift (py_getitem repo_data "forks_count") ;;
             ret (result ++ [JObj [("name", name);
                                   ("full_name", full_name);
                                   ("url", html_url);
                                   ("stars", stars);
                                   ("forks", forks)]])%list)
            (fun _ => ret result) ;;
        monitored_loop rest result'
  end.

Definition fetch_monitored_repos_data : M (list json) :=
  monitored_loop (MONITORED_REPOS C) [].

Fixpoint star_loop (events : list json) (star_events : list json)
  : M (list json) :=
  match events with
  | [] => ret star_events
  | event :: rest =>
      ty <- lift (py_getitem event "type") ;;
      if is_str "WatchEvent" ty then
        actor <- lift (py_getitem event "actor") ;;
        login <- lift (py_getitem actor "login") ;;
        repo <- lift (py_getitem event "repo") ;;
        repo_name <- lift (py_getitem repo "name") ;;
        created_at <- lift (py_getitem event "created_at") ;;
        let star_events' :=
          (star_events ++
           [JObj [("actor", login);
                  ("repo_name", repo_name);
                  ("repo_url",
                   JStr ("https://github.com/" ++ py_str E repo_name));
                  ("time", created_at)]])%list in
        if (5 <=? List.length star_events')%nat then ret star_events'
        else star_loop rest star_events'
      else star_loop rest star_events
  end.

Definition fetch_recent_stars_by_following : M (list json) :=
  events <- make_github_request RECEIVED_EVENTS_ENDPOINT
              (Some [("per_page", JNum 30)]) ;;
  items <- lift (py_iter events) ;;
  star_loop items [].

(** lines 175-191: the live fetch and the assembly of the record *)
Definition fetch_from_api (fuel : nat) : M json :=
  user_data <- fetch_user_data ;;
  stars_received <- fetch_stars_received fuel ;;
  monitored_repos <- fetch_monitored_repos_data ;;
  recent_stars <- fetch_recent_stars_by_following ;;
  login <- lift (py_getitem user_data "login") ;;
  login' <- lift (py_getitem user_data "login") ;;
  name <- lift (py_get user_data "name" login') ;;
  avatar_url <- lift (py_getitem user_data "avatar_url") ;;
  followers <- lift (py_getitem user_data "followers") ;;
  following <- lift (py_getitem user_data "following") ;;
  public_repos <- lift (py_getitem user_data "public_repos") ;;
  now <- datetime_now E ;;
  ret (JObj [("username", login);
             ("name", name);
             ("avatar_url", avatar_url);
             ("followers", followers);
             ("following", following);
             ("public_repos", public_repos);
             ("stars_received", stars_received);
             ("monitored_repos", JArr monitored_repos);
             ("recent_stars", JArr recent_stars);
             ("last_updated", JStr (strftime E now))]).

Definition fetch_github_data (fuel : nat) : M json :=
  cached_data <- load_cache ;;
  if truthy cached_data then ret cached_data
  else
    result <- fetch_from_api fuel ;;
    save_cache result >>
    ret result.

Fixpoint monitored_lines (repos : list json) (dropdown : list string)
  : M (list string) :=
  match repos with
  | [] => ret dropdown
  | repo :: rest =>
      name <- lift (py_getitem repo "name") ;;
      stars <- lift (py_getitem repo "stars") ;;
      url <- lift (py_getitem repo "url") ;;
      monitored_lines rest
        (app dropdown
         [Icon.bullet ++ " " ++ py_str E name ++ ": " ++ Icon.star ++ " "
          ++ py_str E stars ++ " | href=" ++ py_str E url
          ++ " color=#0969DA"])
  end.

(** [datetime.strptime(v, "%Y-%m-%dT%H:%M:%SZ")] *)
Definition parse_time (v : json) : res datetime :=
  match v with
  | JStr t => match strptime E t with
              | Some d => Ok d
              | None => Raise ValueError
              end
  | _ => Raise TypeError
  end.

(** the age text of a star event; [time_diff] in seconds, its [days]
    and [seconds] fields as [timedelta] normalises them *)
Definition time_str (time_diff : Z) : string :=
  let days := time_diff / 86400 in
  let seconds := time_diff mod 86400 in
  if days >? 0 then str_int E days ++ "d ago"
  else if seconds / 3600 >? 0 then str_int E (seconds / 3600) ++ "h ago"
  else str_int E (seconds / 60) ++ "m ago".

Fixpoint star_lines (stars : list json) (dropdown : list string)
  : M (list string) :=
  match stars with
  | [] => ret dropdown
  | star :: rest =>
      t <- lift (py_getitem star "time") ;;
      timestamp <- lift (parse_time t) ;;
      now <- datetime_now E ;;
      actor <- lift (py_getitem star "actor") ;;
      repo_name <- lift (py_getitem star "repo_name") ;;
      repo_url <- lift (py_getitem star "repo_url") ;;
      star_lines rest
        (app dropdown
         [Icon.bullet ++ " " ++ py_str E actor ++ " " ++ Icon.arrow ++ " "
          ++ py_str E repo_name ++ " (" ++ time_str (now - timestamp)
          ++ ") | href=" ++ py_str E repo_url ++ " color=#0969DA"])
  end.

Definition format_xbar_output (github_data : json) : M string :=
  username <- lift (py_getitem github_data "username") ;;
  name <- lift (py_getitem github_data "name") ;;
  stars_received <- lift (py_getitem github_data "stars_received") ;;
  followers <- lift (py_getitem github_data "followers") ;;
  monitored_repos <- lift (py_getitem github_data "monitored_repos") ;;
  recent_stars <- lift (py_getitem github_data "recent_stars") ;;
  last_updated <-
    lift (py_get github_data "last_updated" (JStr "Unknown")) ;;
  let top_line :=
    Icon.star ++ " " ++ py_str E name ++ ": " ++ py_str E stars_received
    ++ " | color=#6e5494 size=14" in
  public_repos <- lift (py_getitem github_data "public_repos") ;;
  let dropdown :=
    [ "---";
      Icon.person ++ " " ++ py_str E name ++ " (@" ++ py_str E username
        ++ ") | color=#000000 size=14";
      "---";
      Icon.chart ++ " GitHub Statistics:";
      Icon.star ++ " Total Stars Received: " ++ py_str E stars_received
        ++ " | color=#E3B341";
      Icon.people ++ " Followers: " ++ py_str E followers
        ++ " | color=#6e5494";
      Icon.folders ++ " Public Repositories: " ++ py_str E public_repos
        ++ " | color=#238636";
      "---";
      Icon.pin ++ " Monitored Repositories:" ] in
  repos <- lift (py_iter monitored_repos) ;;
  dropdown <- monitored_lines repos dropdown ;;
  dropdown <-
    (if truthy recent_stars then
       stars <- lift (py_iter recent_stars) ;;
       star_lines stars
         (app dropdown
          ["---";
           Icon.bell ++ " Recently Starred by People You Follow:"])
     else ret dropdown) ;;
  let dropdown :=
    app dropdown
     [ "---";
       Icon.clock ++ " Last Updated: " ++ py_str E last_updated
         ++ " | color=#7F7F7F size=12";
       "---";
       Icon.magnifier ++ " View Profile | href=https://github.com/"
         ++ py_str E username;
       "---";
       Icon.refresh ++ " Refresh Data | refresh=true" ] in
  ret (join nl (top_line :: dropdown)).

(** the [__main__] block *)
Definition main (fuel : nat) : M unit :=
  try_except
    (github_data <- fetch_github_data fuel ;;
     out <- format_xbar_output github_data ;;
     print out)
    (fun e =>
       cached_data <- load_cache ;;
       if truthy cached_data then
         name <- lift (py_getitem cached_data "name") ;;
         stars_received <-
           lift (py_getitem cached_data "stars_received") ;;
         print (Icon.star ++ " " ++ py_str E name ++ ": "
                ++ py_str E stars_received
                ++ " (cached) | color=#F4B400 size=14") >>
         print "---" >>
         print (Icon.warning ++ " Using cached data | color=#F4B400") >>
         out <- format_xbar_output cached_data ;;
         print out >>
         print "---" >>
         print (Icon.cross ++ " Error: " ++ str_of_exn E e
                ++ " | color=#DB4437")
       else
         print (Icon.cross ++ " GitHub | color=red") >>
         print "---" >>
         print ("API Error: " ++ str_of_exn E e ++ " | color=#DB4437") >>
         print "Please check your configuration and network | color=#7F7F7F" >>
         print "---" >>
         print (Icon.refresh ++ " Try Again | refresh=true")).
End Script.
End Github.

(** * scholar.4h.py *)

Module Scholar.

Record config := {
  SERP_API_KEY : string;
  SCHOLAR_ID : string
}.

(** cache expiration in seconds *)
Definition CACHE_EXPIRATION : Z := 4 * 60 * 60.

(** lines 112-113: the author's name, ["Unknown"] by default *)
Definition author_name (data : json) : res json :=
  has_author <~ py_in "author" data ;;
  if has_author then
    author <~ py_getitem data "author" ;;
    has_name <~ py_in "name" author ;;
    if has_name then
      author <~ py_getitem data "author" ;;
      py_getitem author "name"
    else Ok (JStr "Unknown")
  else Ok (JStr "Unknown").

(** lines 120-129: row [i] of the citation table, statistic [key] *)
Definition table_stat (citation_table : json) (i : nat) (key : string)
  : res json :=
  n <~ py_len citation_table ;;
  if n >? Z.of_nat i then
    row <~ py_index citation_table i ;;
    has_key <~ py_in key row ;;
    if has_key then
      row <~ py_index citation_table i ;;
      stat <~ py_getitem row key ;;
      py_getitem stat "all"
    else Ok (JNum 0)
  else Ok (JNum 0).

(** lines 116-129: the three statistics of the citation table *)
Definition table_stats (data : json) : res (json * json * json) :=
  has_cited_by <~ py_in "cited_by" data ;;
  if has_cited_by then
    cited_by <~ py_getitem data "cited_by" ;;
    has_table <~ py_in "table" cited_by ;;
    if has_table then
      cited_by <~ py_getitem data "cited_by" ;;
      citation_table <~ py_getitem cited_by "table" ;;
      citations <~ table_stat citation_table 0 "citations" ;;
      h_index <~ table_stat citation_table 1 "h_index" ;;
      i10_index <~ table_stat citation_table 2 "i10_index" ;;
      Ok (citations, h_index, i10_index)
    else Ok (JNum 0, JNum 0, JNum 0)
  else Ok (JNum 0, JNum 0, JNum 0).

(** lines 134-137: the first entry of the graph for the current year *)
Fixpoint graph_loop (current_year : Z) (graph : list json) : res json :=
  match graph with
  | [] => Ok (JNum 0)
  | year_data :: rest =>
      y <~ py_get year_data "year" JNull ;;
      if py_eq_int y current_year
      then py_get year_data "citations" (JNum 0)
      else graph_loop current_year rest
  end.

(** lines 133-137 *)
Definition current_year_citations (current_year : Z) (data : json)
  : res json :=
  has_cited_by <~ py_in "cited_by" data ;;
  if has_cited_by then
    cited_by <~ py_getitem data "cited_by" ;;
    has_graph <~ py_in "graph" cited_by ;;
    if has_graph then
      cited_by <~ py_getitem data "cited_by" ;;
      graph <~ py_getitem cited_by "graph" ;;
      items <~ py_iter graph ;;
      graph_loop current_year items
    else Ok (JNum 0)
  else Ok (JNum 0).

Section Script.
Variable E : env.
Variable C : config.

Definition load_cache : M json := load_cache E CACHE_EXPIRATION.
Definition save_cache : json -> M unit := save_cache E.

(** the request of line 95 *)
Definition scholar_request : request :=
  {| url := "https://serpapi.com/search";
     params := Some [("engine", JStr "google_scholar_author");
                     ("author_id", JStr (SCHOLAR_ID C));
                     ("api_key", JStr (SERP_API_KEY C))];
     req_headers := [] |}.

(** lines 95-137: the live fetch and the assembly of the record *)
Definition fetch_from_api : M json :=
  response <- requests_get E scholar_request ;;
  data <- lift (response_json response) ;;
  has_error <- lift (py_in "error" data) ;;
  (if has_error then
     err <- lift (py_getitem data "error") ;;
     raise (Exception ("SERP API Error: " ++ py_str E err))
   else ret tt) >>
  now <- datetime_now E ;;
  name <- lift (author_name data) ;;
  stats <- lift (table_stats data) ;;
  now' <- datetime_now E ;;
  let current_year := year E now' in
  this_year <- lift (current_year_citations current_year data) ;;
  let '(citations, h_index, i10_index) := stats in
  ret (JObj [("name", name);
             ("citations", citations);
             ("h_index", h_index);
             ("i10_index", i10_index);
             ("current_year_citations", this_year);
             ("last_updated", JStr (strftime E now))]).

Definition fetch_scholar_data : M json :=
  cached_data <- load_cache ;;
  if truthy cached_data then ret cached_data
  else
    result <- fetch_from_api ;;
    save_cache result >>
    ret result.

Definition format_xbar_output (scholar_data : json) : M string :=
  name <- lift (py_getitem scholar_data "name") ;;
  citations <- lift (py_getitem scholar_data "citations") ;;
  h_index <- lift (py_getitem scholar_data "h_index") ;;
  i10_index <- lift (py_getitem scholar_data "i10_index") ;;
  this_year <- lift (py_getitem scholar_data "current_year_citations") ;;
  last_updated <-
    lift (py_get scholar_data "last_updated" (JStr "Unknown")) ;;
  let top_line :=
    Icon.books ++ " " ++ py_str E name ++ ": " ++ py_str E citations
    ++ " | color=#4285F4 size=14" in
  let dropdown :=
    [ "---";
      Icon.person ++ " " ++ py_str E name ++ " | color=#000000 size=14";
      "---";
      Icon.chart ++ " Citation Statistics:";
      "Total Citations: " ++ py_str E citations ++ " | color=#0F9D58";
      "Citations This Year: " ++ py_str E this_year
        ++ " | color=#F4B400";
      "h-index: " ++ py_str E h_index ++ " | color=#DB4437";
      "i10-index: " ++ py_str E i10_index ++ " | color=#4285F4";
      "---";
      Icon.clock ++ " Last Updated: " ++ py_str E last_updated
        ++ " | color=#7F7F7F size=12";
      "---";
      Icon.magnifier
        ++ " View on Google Scholar | href=https://scholar.google.com/citations?user="
        ++ SCHOLAR_ID C;
      "---";
      Icon.refresh ++ " Refresh Data | refresh=true" ] in
  ret (join nl (top_line :: dropdown)).

(** the [__main__] block *)
Definition main : M unit :=
  try_except
    (scholar_data <- fetch_scholar_data ;;
     out <- format_xbar_output scholar_data ;;
     print out)
    (fun e =>
       cached_data <- load_cache ;;
       if truthy cached_data then
         name <- lift (py_getitem cached_data "name") ;;
         citations <- lift (py_getitem cached_data "citations") ;;
         print (Icon.person ++ " " ++ py_str E name ++ ": " ++ Icon.books
                ++ " " ++ py_str E citations
                ++ " (cached) | color=#F4B400 size=14") >>
         print "---" >>
         print (Icon.warning ++ " Using cached data | color=#F4B400") >>
         out <- format_xbar_output cached_data ;;
         print out >>
         print "---" >>
         print (Icon.cross ++ " Error: " ++ str_of_exn E e
                ++ " | color=#DB4437")
       else
         print (Icon.cross ++ " Error | color=red") >>
         print "---" >>
         print ("API Error: " ++ str_of_exn E e ++ " | color=#DB4437") >>
         print "Please Check Your Network | color=#7F7F7F" >>
         print "---" >>
         print (Icon.refresh ++ " Try Again | refresh=true")).
End Script.
End Scholar.

(** * A reference environment for concrete runs *)

Module Sample.
Definition show_int (n : Z) : string :=
  DecimalString.NilZero.string_of_int (Z.to_int n).

Definition read_int (s : string) : option Z :=
  option_map Z.of_int (DecimalString.NilZero.int_of_string s).

Definition show_value (v : json) : string :=
  match v with
  | JNull => "None"
  | JBool true => "True"
  | JBool false => "False"
  | JNum n => show_int n
  | JStr s => s
  | JArr _ => "[...]"
  | JObj _ => "{...}"
  end.

Definition show_exn (e : exn) : string :=
  match e with
  | KeyError k => "'" ++ k ++ "'"
  | RequestException why => why
  | HTTPError r => show_int (status_code r) ++ " Error"
  | Exception msg => msg
  | _ => "error"
  end.

Definition in_range (n : Z) : option datetime :=
  if ((0 <=? n) && (n <=? 253402300799))%bool then Some n else None.

(** an environment from a clock, a network and a disk *)
Definition mk_env (clock : nat -> Z)
    (network : nat -> request -> http_outcome) (disk : write_mode) : env :=
  {| clock := clock; network := network; disk := disk;
     py_str := show_value; str_exn := show_exn; py_int := read_int;
     fromtimestamp := in_range;
     fromtimestamp_error :=
       (fun n => if n <? 0 then PlatformRange else YearOutOfRange);
     str_datetime := show_int;
     str_int := show_int; strftime := show_int;
     year := fun d => 1970 + d / 31556952;
     strptime := read_int |}.

(** a clock that starts at [t0] and advances one second per reading *)
Definition ticking (t0 : Z) : nat -> Z := fun i => t0 + Z.of_nat i.

Definition offline : nat -> request -> http_outcome :=
  fun _ _ => ConnFail "Connection refused".

(** every request is answered by the same response *)
Definition always (r : response) : nat -> request -> http_outcome :=
  fun _ _ => Response r.

Definition start (f : cache_file) : state :=
  {| file := f; ticks := 0; requests := []; stdout := [] |}.

Definition entry (timestamp : Z) (data : json) : cache_file :=
  FJson (JObj [("timestamp", JNum timestamp); ("data", data)]).

Definition github_config : Github.config :=
  {| Github.GITHUB_USERNAME := "octocat";
     Github.GITHUB_TOKEN := "t0ken";
     Github.MONITORED_REPOS := ["octocat/Hello-World"] |}.

Definition scholar_config : Scholar.config :=
  {| Scholar.SERP_API_KEY := "k3y"; Scholar.SCHOLAR_ID := "abc123" |}.

(** a record as [fetch_github_data] writes it *)
Definition github_record : json :=
  JObj [("username", JStr "octocat");
        ("name", JStr "The Octocat");
        ("avatar_url", JStr "https://example.org/a.png");
        ("followers", JNum 10);
        ("following", JNum 2);
        ("public_repos", JNum 8);
        ("stars_received", JNum 42);
        ("monitored_repos", JArr []);
        ("recent_stars", JArr []);
        ("last_updated", JStr "2024-01-01 10:00")].

(** a record as [fetch_scholar_data] writes it *)
Definition scholar_record : json :=
  JObj [("name", JStr "A. Author");
        ("citations", JNum 120);
        ("h_index", JNum 6);
        ("i10_index", JNum 4);
        ("current_year_citations", JNum 17);
        ("last_updated", JStr "2024-01-01 10:00")].
End Sample.

(** * Vocabulary of the statements *)

(** the state after one more reading of the clock *)
Definition tick (s : state) : state :=
  {| file := file s; ticks := S (ticks s);
     requests := requests s; stdout := stdout s |}.

(** the timestamp of a cache entry as [load_cache] reads it: the field,
    or 0 when the field is missing *)
Definition entry_timestamp (kvs : list (string * json)) : json :=
  match lookup "timestamp" kvs with Some v => v | None => JNum 0 end.

(** the payload of a cache entry as [load_cache] reads it: the field, or
    [None] when the field is missing *)
Definition entry_data (kvs : list (string * json)) : json :=
  match lookup "data" kvs with Some v => v | None => JNull end.

(** the file holds a well-formed entry: an object with a numeric
    timestamp [t] and a payload [d] *)
Definition well_formed_entry (f : cache_file) (t : Z) (d : json) : Prop :=
  exists kvs, f = FJson (JObj kvs)
              /\ (exists v, lookup "timestamp" kvs = Some v /\ num_of v = Some t)
              /\ lookup "data" kvs = Some d.

(** the integers that convert to a float: beyond them Python's
    [float - int] raises [OverflowError] *)
Definition FLOAT_LIMIT : Z := 2 ^ 1024 - 2 ^ 970.

Definition float_range (t : Z) : Prop := - FLOAT_LIMIT < t < FLOAT_LIMIT.

(** a clock that never runs backwards *)
Definition monotone (clock : nat -> Z) : Prop :=
  forall i j, (i <= j)%nat -> clock i <= clock j.

(** the state after request [r] has been issued *)
Definition logged (s : state) (r : request) : state :=
  {| file := file s; ticks := ticks s;
     requests := requests s ++ [r]; stdout := stdout s |}.

(** the request that [make_github_request url params] issues *)
Definition github_request (C : Github.config)
    (url : string) (params : option (list (string * json))) : request :=
  {| url := url; params := params;
     req_headers :=
       ("Accept", "application/vnd.github.v3+json") ::
       (if truthy (JStr (Github.GITHUB_TOKEN C))
        then [("Authorization", "token " ++ Github.GITHUB_TOKEN C)]
        else []) |}.

(** the rate-limit case: status 403 with the remaining quota at "0" *)
Definition rate_limit_case (r : response) : Prop :=
  status_code r = 403
  /\ header "X-RateLimit-Remaining" (resp_headers r) = Some "0".

(** [e] is not the error that [raise_for_status] raises *)
Definition not_http_error (e : exn) : Prop :=
  forall r, e <> HTTPError r.

(** the state after the requests [rs] have been issued in order *)
Definition logged_all (s : state) (rs : list request) : state :=
  {| file := file s; ticks := ticks s;
     requests := requests s ++ rs; stdout := stdout s |}.

(** the request for page [p] of the repository listing *)
Definition page_request (C : Github.config) (p : nat) : request :=
  github_request C (Github.REPOS_ENDPOINT C)
    (Some [("page", JNum (Z.of_nat p)); ("per_page", JNum 100)]).

(** page [p] (counted from 1) of the list [l] cut into pages of 100 *)
Definition page_of (l : list json) (p : nat) : list json :=
  firstn 100 (skipn (100 * (p - 1)) l).

(** the network serves the repository list [l] in pages of 100: the
    request for page [p] is answered, at any moment, by a success response
    whose body is page [p] of [l] *)
Definition serves_pages (E : env) (C : Github.config) (l : list json)
  : Prop :=
  forall i p, (1 <= p)%nat ->
    exists r, network E i (page_request C p) = Response r
              /\ 200 <= status_code r < 300
              /\ body r = BodyJson (JArr (page_of l p)).

(** the number of non-empty pages of a list of [n] items *)
Definition full_pages (n : nat) : nat := ((n + 99) / 100)%nat.

(** a network that serves [l] in pages of 100 and nothing else *)
Definition paged_network (l : list json) : nat -> request -> http_outcome :=
  fun _ r =>
    match params r with
    | Some (("page", JNum p) :: _) =>
        Response {| status_code := 200; resp_headers := [];
                    body := BodyJson (JArr (page_of l (Z.to_nat p))) |}
    | _ => ConnFail "Connection refused"
    end.

(** 250 repositories, one star each *)
Definition repos_250 : list json :=
  repeat (JObj [("stargazers_count", JNum 1)]) 250.

(** [s'] comes after [s] in a run that neither writes the cache file nor
    prints: the clock may have been read, and the requests [rs] issued,
    all of them satisfying [P] *)
Definition frame (P : request -> Prop) (s s' : state) : Prop :=
  file s' = file s
  /\ stdout s' = stdout s
  /\ (ticks s <= ticks s')%nat
  /\ exists rs, requests s' = (requests s ++ rs)%list /\ Forall P rs.

(** the same, with the request [r] issued first and every later request
    satisfying [P] *)
Definition frame_after (r : request) (P : request -> Prop) (s s' : state)
  : Prop :=
  file s' = file s
  /\ stdout s' = stdout s
  /\ (ticks s <= ticks s')%nat
  /\ exists rs, requests s' = (requests s ++ r :: rs)%list /\ Forall P rs.

(** every run of [m] stays within [frame P] *)
Definition preserves {A} (P : request -> Prop) (m : M A) : Prop :=
  forall s, frame P s (snd (m s)).

(** the request for the user's profile, the first of a live fetch *)
Definition user_request (C : Github.config) : request :=
  github_request C (Github.USER_ENDPOINT C) None.

(** a request other than the one for the user's profile *)
Definition other_than_user (C : Github.config) (r : request) : Prop :=
  r <> user_request C.

(** the menu that [github.1h.py] prints when the fetch failed with [e]
    and no cached payload is served *)
Definition github_error_view (E : env) (e : exn) : list string :=
  [ Icon.cross ++ " GitHub | color=red";
    "---";
    "API Error: " ++ str_of_exn E e ++ " | color=#DB4437";
    "Please check your configuration and network | color=#7F7F7F";
    "---";
    Icon.refresh ++ " Try Again | refresh=true" ].

(** the state after the lines [ls] have been printed *)
Definition printed (s : state) (ls : list string) : state :=
  {| file := file s; ticks := ticks s;
     requests := requests s; stdout := stdout s ++ ls |}.

(** the live path of the code-hosting orchestrator: fetch, write through,
    return (lines 175-196) *)
Definition github_live (E : env) (C : Github.config) (fuel : nat) : M json :=
  result <- Github.fetch_from_api E C fuel ;;
  Github.save_cache E result >>
  ret result.

(** the live path of the citation orchestrator (lines 81-142) *)
Definition scholar_live (E : env) (C : Scholar.config) : M json :=
  result <- Scholar.fetch_from_api E C ;;
  Scholar.save_cache E result >>
  ret result.

(** the cache entry that [save_cache data] writes at clock reading [now] *)
Definition written_entry (now : Z) (data : json) : cache_file :=
  FJson (JObj [("timestamp", JNum now); ("data", data)]).

(** a property that no request has: used for runs that issue none *)
Definition no_request (r : request) : Prop := False.

(** a cache entry that is fresh but whose payload is not a record of
    either script *)
Definition foreign_entry : cache_file :=
  Sample.entry 1000 (JObj [("foo", JNum 1)]).

(** an effect-free step that never fails with [HTTPError] *)
Definition quiet {A} (r : res A) : Prop :=
  forall e, r = Raise e -> not_http_error e.

(** a program that never fails with [HTTPError] *)
Definition never_http {A} (m : M A) : Prop :=
  forall s e, fst (m s) = Raise e -> not_http_error e.

(** *** The record of the citation script, read off the response

    A second description of the record, by paths into the response: a
    field is the value found at its path, or its default when any step
    of the path is absent. *)

Inductive step :=
| Key (k : string)      (* member [k] of an object *)
| Idx (i : nat).        (* element [i] of an array *)

Fixpoint follow (path : list step) (v : json) : option json :=
  match path with
  | [] => Some v
  | Key k :: rest =>
      match v with
      | JObj kvs =>
          match lookup k kvs with
          | Some x => follow rest x
          | None => None
          end
      | _ => None
      end
  | Idx i :: rest =>
      match v with
      | JArr l =>
          match nth_error l i with
          | Some x => follow rest x
          | None => None
          end
      | _ => None
      end
  end.

Definition field_or (default : json) (path : list step) (v : json) : json :=
  match follow path v with Some x => x | None => default end.

(** the citations of the first graph entry for [current_year], 0 when the
    graph or such an entry or its count is absent *)
Definition this_year_or_zero (current_year : Z) (data : json) : json :=
  match follow [Key "cited_by"; Key "graph"] data with
  | Some (JArr graph) =>
      match find (fun year_data =>
                    py_eq_int (field_or JNull [Key "year"] year_data)
                      current_year) graph with
      | Some year_data => field_or (JNum 0) [Key "citations"] year_data
      | None => JNum 0
      end
  | _ => JNum 0
  end.

(** the complete record: [now] is the clock reading that dates it,
    [now'] the one that gives the current year *)
Definition expected_record (E : env) (now now' : Z) (data : json) : json :=
  JObj [("name", field_or (JStr "Unknown") [Key "author"; Key "name"] data);
        ("citations",
         field_or (JNum 0)
           [Key "cited_by"; Key "table"; Idx 0; Key "citations"; Key "all"]
           data);
        ("h_index",
         field_or (JNum 0)
           [Key "cited_by"; Key "table"; Idx 1; Key "h_index"; Key "all"]
           data);
        ("i10_index",
         field_or (JNum 0)
           [Key "cited_by"; Key "table"; Idx 2; Key "i10_index"; Key "all"]
           data);
        ("current_year_citations", this_year_or_zero (year E now') data);
        ("last_updated", JStr (strftime E now))].

(** *** The shape of a response of the citation API: the fields that are
    present are of the kind the API documents *)

Definition is_obj (v : json) : bool :=
  match v with JObj _ => true | _ => false end.

(** a row of the citation table: an object that holds its statistic
    [key] as an object with an "all" member, or not at all *)
Definition shaped_row (key : string) (row : option json) : bool :=
  match row with
  | None => true
  | Some (JObj kvs) =>
      match lookup key kvs with
      | None => true
      | Some (JObj stat) =>
          match lookup "all" stat with Some _ => true | None => false end
      | Some _ => false
      end
  | Some _ => false
  end.

Definition shaped_table (table : json) : bool :=
  match table with
  | JArr rows =>
      shaped_row "citations" (nth_error rows 0)
      && shaped_row "h_index" (nth_error rows 1)
      && shaped_row "i10_index" (nth_error rows 2)
  | _ => false
  end.

Definition shaped_graph (graph : json) : bool :=
  match graph with
  | JArr entries => forallb is_obj entries
  | _ => false
  end.

Definition shaped_cited_by (cited_by : json) : bool :=
  match cited_by with
  | JObj kvs =>
      match lookup "table" kvs with
      | None => true
      | Some table => shaped_table table
      end
      && match lookup "graph" kvs with
         | None => true
         | Some graph => shaped_graph graph
         end
  | _ => false
  end.

Definition well_shaped (data : json) : bool :=
  match data with
  | JObj kvs =>
      match lookup "author" kvs with
      | None => true
      | Some author => is_obj author
      end
      && match lookup "cited_by" kvs with
         | None => true
         | Some cited_by => shaped_cited_by cited_by
         end
  | _ => false
  end.

(** *** Concrete runs *)

(** no network, a clock that starts at [t0], a disk that accepts writes *)
Definition offline_env (t0 : Z) : env :=
  Sample.mk_env (Sample.ticking t0) Sample.offline WriteOk.

(** the same with every request answered by [r] *)
Definition answering_env (t0 : Z) (r : response) : env :=
  Sample.mk_env (Sample.ticking t0) (Sample.always r) WriteOk.

(** a success response with the JSON body [j] *)
Definition ok_response (j : json) : response :=
  {| status_code := 200; resp_headers := []; body := BodyJson j |}.

(** a rate-limit response as the code-hosting API sends it *)
Definition rate_limit_response : response :=
  {| status_code := 403;
     resp_headers := [("X-RateLimit-Remaining", "0");
                      ("X-RateLimit-Reset", "1700000000")];
     body := BodyJson (JObj [("message", JStr "API rate limit exceeded")]) |}.

(** the same without the header that tells the reset time *)
Definition bare_rate_limit_response : response :=
  {| status_code := 403;
     resp_headers := [("X-RateLimit-Remaining", "0")];
     body := BodyJson (JObj [("message", JStr "API rate limit exceeded")]) |}.

Definition not_found_response : response :=
  {| status_code := 404; resp_headers := [];
     body := BodyJson (JObj [("message", JStr "Not Found")]) |}.

(** a server error whose body is an empty JSON object *)
Definition server_error_response : response :=
  {| status_code := 500; resp_headers := []; body := BodyJson (JObj []) |}.

(** a body in which the citation count lacks its "all" member *)
Definition body_without_all : json :=
  JObj [("cited_by",
         JObj [("table", JArr [JObj [("citations", JObj [])]])])].

(** a body as the citation API sends it, without an i10-index row *)
Definition author_body : json :=
  JObj [("author", JObj [("name", JStr "A. Author")]);
        ("cited_by",
         JObj [("table",
                JArr [JObj [("citations", JObj [("all", JNum 120)])];
                      JObj [("h_index", JObj [("all", JNum 6)])]]);
               ("graph",
                JArr [JObj [("year", JNum 1969); ("citations", JNum 5)];
                      JObj [("year", JNum 1970); ("citations", JNum 17)]])])].

(** *** The activity feed and the monitored repositories *)

(** the request for the feed of received events *)
Definition events_request (C : Github.config) : request :=
  github_request C (Github.RECEIVED_EVENTS_ENDPOINT C)
    (Some [("per_page", JNum 30)]).

(** the event is a star: its "type" member is "WatchEvent" *)
Definition is_watch_event (event : json) : bool :=
  match follow [Key "type"] event with
  | Some ty => is_str "WatchEvent" ty
  | None => false
  end.

(** the entry that a star event contributes, when the event names its
    actor, its repository and its date *)
Definition star_event (E : env) (event : json) : option json :=
  match follow [Key "actor"; Key "login"] event,
        follow [Key "repo"; Key "name"] event,
        follow [Key "created_at"] event with
  | Some login, Some repo_name, Some created_at =>
      Some (JObj [("actor", login);
                  ("repo_name", repo_name);
                  ("repo_url",
                   JStr ("https://github.com/" ++ py_str E repo_name));
                  ("time", created_at)])
  | _, _, _ => None
  end.

(** an event as the feed documents it: an object with a "type", and for a
    star the members its entry is built from *)
Definition feed_shaped (E : env) (event : json) : bool :=
  match follow [Key "type"] event with
  | None => false
  | Some ty =>
      if is_str "WatchEvent" ty
      then match star_event E event with Some _ => true | None => false end
      else true
  end.

(** the entries of all the star events of a feed, in feed order *)
Fixpoint star_events (E : env) (events : list json) : list json :=
  match events with
  | [] => []
  | event :: rest =>
      if is_watch_event event then
        match star_event E event with
        | Some entry => entry :: star_events E rest
        | None => star_events E rest
        end
      else star_events E rest
  end.

(** a monitored name that is not blank *)
Definition nonblank (name : string) : bool := truthy (JStr (strip name)).

(** the request for the monitored repository [name] *)
Definition repo_request (C : Github.config) (name : string) : request :=
  github_request C (Github.GITHUB_API ++ "/repos/" ++ strip name) None.

(** the JSON body of a response that [make_github_request] returns:
    the status is outside 400..599 and the body is JSON *)
Definition passed_body (r : response) : option json :=
  if ((400 <=? status_code r) && (status_code r <? 600))%bool then None
  else match body r with
       | BodyJson j => Some j
       | BodyText _ => None
       end.

(** the entry of a monitored repository, when the answer holds the five
    members it is built from *)
Definition monitored_entry (repo_data : json) : option json :=
  match follow [Key "name"] repo_data,
        follow [Key "full_name"] repo_data,
        follow [Key "html_url"] repo_data,
        follow [Key "stargazers_count"] repo_data,
        follow [Key "forks_count"] repo_data with
  | Some name, Some full_name, Some html_url, Some stars, Some forks =>
      Some (JObj [("name", name);
                  ("full_name", full_name);
                  ("url", html_url);
                  ("stars", stars);
                  ("forks", forks)])
  | _, _, _, _, _ => None
  end.

(** the entry that the outcome of a request gives, if any *)
Definition answered_entry (o : http_outcome) : option json :=
  match o with
  | ConnFail _ => None
  | Response r =>
      match passed_body r with
      | Some repo_data => monitored_entry repo_data
      | None => None
      end
  end.

(** the entries of the monitored names, in order: one for each name that
    is not blank and whose request, the [i]-th and following of the run,
    gives an entry *)
Fixpoint monitored_entries (E : env) (C : Github.config) (i : nat)
    (names : list string) : list json :=
  match names with
  | [] => []
  | name :: rest =>
      if nonblank name then
        match answered_entry (network E i (repo_request C name)) with
        | Some entry => entry :: monitored_entries E C (S i) rest
        | None => monitored_entries E C (S i) rest
        end
      else monitored_entries E C i rest
  end.

(** the object has no member [k] *)
Definition lacks_member (k : string) (v : json) : bool :=
  match v with
  | JObj kvs => match lookup k kvs with Some _ => false | None => true end
  | _ => false
  end.

(** a feed event of the given type, by actor [who] on repository [what] *)
Definition feed_event (type who what : string) : json :=
  JObj [("type", JStr type);
        ("actor", JObj [("login", JStr who)]);
        ("repo", JObj [("name", JStr what)]);
        ("created_at", JStr "1700000000")].

(** a feed with seven stars and two other events *)
Definition sample_feed : list json :=
  [ feed_event "WatchEvent" "ann" "a/one";
    feed_event "PushEvent" "bob" "b/two";
    feed_event "WatchEvent" "cat" "c/three";
    feed_event "WatchEvent" "dan" "d/four";
    feed_event "ForkEvent" "eve" "e/five";
    feed_event "WatchEvent" "fay" "f/six";
    feed_event "WatchEvent" "gus" "g/seven";
    feed_event "WatchEvent" "hal" "h/eight";
    feed_event "WatchEvent" "ian" "i/nine" ].

(** the star count of a repository, when it has a numeric one *)
Definition star_count (repo : json) : option Z :=
  match follow [Key "stargazers_count"] repo with
  | Some v => num_of v
  | None => None
  end.

(** the stars of a list of repositories *)
Fixpoint total_stars (repos : list json) : Z :=
  match repos with
  | [] => 0
  | repo :: rest =>
      match star_count repo with Some n => n | None => 0 end
      + total_stars rest
  end.

(** a repository with [n] stars *)
Definition repo_with_stars (n : Z) : json :=
  JObj [("name", JStr "repo"); ("stargazers_count", JNum n)].

(** a network that answers every request with the same non-empty page *)
Definition same_page_network : nat -> request -> http_outcome :=
  Sample.always (ok_response (JArr [repo_with_stars 1])).

(** *** Rendering the citation record *)

(** the fields that the renderer of the citation script indexes *)
Definition scholar_fields : list string :=
  ["name"; "citations"; "h_index"; "i10_index"; "current_year_citations"].

(** the first of [keys] that the object lacks *)
Fixpoint first_missing (keys : list string) (kvs : list (string * json))
  : option string :=
  match keys with
  | [] => None
  | k :: rest =>
      match lookup k kvs with
      | Some _ => first_missing rest kvs
      | None => Some k
      end
  end.

(** the menu that [scholar.4h.py] prints when the fetch failed with [e]
    and no cached payload is served *)
Definition scholar_error_view (E : env) (e : exn) : list string :=
  [ Icon.cross ++ " Error | color=red";
    "---";
    "API Error: " ++ str_of_exn E e ++ " | color=#DB4437";
    "Please Check Your Network | color=#7F7F7F";
    "---";
    Icon.refresh ++ " Try Again | refresh=true" ].

(** a disk that refuses to open the cache file for writing *)
Definition readonly_env (t0 : Z) : env :=
  Sample.mk_env (Sample.ticking t0) Sample.offline OpenFails.

(** a disk that fails in the middle of the dump *)
Definition full_disk_env (t0 : Z) : env :=
  Sample.mk_env (Sample.ticking t0) Sample.offline DumpFails.


(** *** The record of the code-hosting script *)

(** an entry of "monitored_repos" as [fetch_monitored_repos_data] builds
    it *)
Definition repo_entry (entry : json) : Prop :=
  exists name full_name url stars forks,
    entry = JObj [("name", name);
                  ("full_name", full_name);
                  ("url", url);
                  ("stars", stars);
                  ("forks", forks)].

(** an entry of "recent_stars" as [fetch_recent_stars_by_following]
    builds it *)
Definition star_entry (entry : json) : Prop :=
  exists actor repo_name repo_url time,
    entry = JObj [("actor", actor);
                  ("repo_name", repo_name);
                  ("repo_url", repo_url);
                  ("time", time)].

(** the date of a star entry is a string that [strptime] parses *)
Definition dated (E : env) (entry : json) : Prop :=
  exists t d, follow [Key "time"] entry = Some (JStr t)
              /\ strptime E t = Some d.

(** the state after [n] more readings of the clock *)
Definition ticked (n : nat) (s : state) : state :=
  {| file := file s; ticks := n + ticks s;
     requests := requests s; stdout := stdout s |}.

(** the fields that the renderer of the code-hosting script indexes
    before it builds a line *)
Definition github_fields : list string :=
  ["username"; "name"; "stars_received"; "followers"; "monitored_repos";
   "recent_stars"; "public_repos"].

(** the number of lines of the menu for [m] monitored repositories and
    [k] recent stars *)
Definition menu_lines (m k : nat) : nat :=
  (16 + m + match k with O => 0 | S _ => 2 + k end)%nat.


(** the fields of the record of the code-hosting script, in order *)
Definition github_record_fields : list string :=
  ["username"; "name"; "avatar_url"; "followers"; "following";
   "public_repos"; "stars_received"; "monitored_repos"; "recent_stars";
   "last_updated"].

(** a record of the code-hosting script with the lists [repos] and
    [stars] *)
Definition github_record_with (repos stars : list json) : json :=
  JObj [("username", JStr "octocat");
        ("name", JStr "The Octocat");
        ("avatar_url", JStr "https://example.org/a.png");
        ("followers", JNum 10);
        ("following", JNum 2);
        ("public_repos", JNum 8);
        ("stars_received", JNum 42);
        ("monitored_repos", JArr repos);
        ("recent_stars", JArr stars);
        ("last_updated", JStr "2024-01-01 10:00")].

Definition sample_repo_entry : json :=
  JObj [("name", JStr "Hello-World");
        ("full_name", JStr "octocat/Hello-World");
        ("url", JStr "https://github.com/octocat/Hello-World");
        ("stars", JNum 7);
        ("forks", JNum 3)].

Definition sample_star_entry : json :=
  JObj [("actor", JStr "ann");
        ("repo_name", JStr "a/one");
        ("repo_url", JStr "https://github.com/a/one");
        ("time", JStr "1700000000")].

(** *** A code-hosting API for concrete runs *)

Definition sample_user : json :=
  JObj [("login", JStr "octocat");
        ("name", JStr "The Octocat");
        ("avatar_url", JStr "https://example.org/a.png");
        ("followers", JNum 10);
        ("following", JNum 2);
        ("public_repos", JNum 3)].

Definition sample_repo : json :=
  JObj [("name", JStr "Hello-World");
        ("full_name", JStr "octocat/Hello-World");
        ("html_url", JStr "https://github.com/octocat/Hello-World");
        ("stargazers_count", JNum 7);
        ("forks_count", JNum 3)].

(** three repositories with 7, 0 and 35 stars *)
Definition sample_repos : list json :=
  [sample_repo; repo_with_stars 0; repo_with_stars 35].

(** the profile, the repository list in pages, one repository and the
    feed, told apart by the parameters and the address of the request *)
Definition github_server : nat -> request -> http_outcome :=
  fun _ r =>
    match params r with
    | Some (("page", JNum p) :: _) =>
        Response (ok_response (JArr (page_of sample_repos (Z.to_nat p))))
    | Some _ => Response (ok_response (JArr sample_feed))
    | None =>
        if String.eqb (url r) "https://api.github.com/users/octocat"
        then Response (ok_response sample_user)
        else Response (ok_response sample_repo)
    end.

Definition github_env (t0 : Z) : env :=
  Sample.mk_env (Sample.ticking t0) github_server WriteOk.

(** a first run of the code-hosting script against that API, from an
    absent cache file *)
Definition first_github_run : res json * state :=
  Eval vm_compute in
    Github.fetch_github_data (github_env 1700003600) Sample.github_config 5
      (Sample.start Absent).

Definition first_github_record : json :=
  match fst first_github_run with Ok r => r | _ => JNull end.

(** a first run of the citation script, from an absent cache file *)
Definition first_scholar_run : res json * state :=
  Eval vm_compute in
    Scholar.fetch_scholar_data
      (answering_env 1000 (ok_response author_body)) Sample.scholar_config
      (Sample.start Absent).

Definition first_scholar_record : json :=
  match fst first_scholar_run with Ok r => r | _ => JNull end.

(** the feed request of a first run *)
Definition first_feed_run : res (list json) * state :=
  Eval vm_compute in
    Github.fetch_recent_stars_by_following (github_env 1700003600)
      Sample.github_config (Sample.start Absent).

Definition first_feed_stars : list json :=
  match fst first_feed_run with Ok stars => stars | _ => [] end.

(** a live fetch of the citation script answered by a server error with
    an empty object *)
Definition defaults_run : res json * state :=
  Eval vm_compute in
    Scholar.fetch_from_api (answering_env 1000 server_error_response)
      Sample.scholar_config (Sample.start Absent).

Definition defaults_record : json :=
  match fst defaults_run with Ok r => r | _ => JNull end.

(** the state that the live fetch of the first run leaves *)
Definition first_api_state : state :=
  Eval vm_compute in
    snd (Github.fetch_from_api (github_env 1700003600) Sample.github_config
           5 (Sample.start Absent)).

(** *** Monitored names for a concrete run *)

(** an API that knows one repository only *)
Definition one_repo_server : nat -> request -> http_outcome :=
  fun _ r =>
    if String.eqb (url r) "https://api.github.com/repos/octocat/Hello-World"
    then Response (ok_response sample_repo)
    else Response not_found_response.

(** an unknown name, a name of spaces, a name that is one file
    separator (code 28), and the known name between spaces *)
Definition mixed_names_config : Github.config :=
  {| Github.GITHUB_USERNAME := "octocat";
     Github.GITHUB_TOKEN := "t0ken";
     Github.MONITORED_REPOS :=
       ["ghost/none"; "  "; String (ascii_of_nat 28) EmptyString;
        " octocat/Hello-World "] |}.


(** * Properties *)

(** ** The monad *)

Lemma bind_ok {A B} (m : M A) (k : A -> M B) s a s' :
  m s = (Ok a, s') -> bind m k s = k a s'.
Proof. intros H. unfold bind. now rewrite H. Qed.

Lemma bind_raise {A B} (m : M A) (k : A -> M B) s e s' :
  m s = (Raise e, s') -> bind m k s = (Raise e, s').
Proof. intros H. unfold bind. now rewrite H. Qed.

Lemma bind_diverge {A B} (m : M A) (k : A -> M B) s s' :
  m s = (Diverge, s') -> bind m k s = (Diverge, s').
Proof. intros H. unfold bind. now rewrite H. Qed.

Lemma try_raise {A} (m : M A) h s e s' :
  m s = (Raise e, s') -> try_except m h s = h e s'.
Proof. intros H. unfold try_except. now rewrite H. Qed.

(** ** The cache helpers *)

Section CacheFacts.
Variable E : env.
Variable W : Z.

Ltac run_cache s H :=
  destruct s as [f t rq out]; cbn in H; subst f;
  unfold load_cache, save_cache, bind, path_exists, try_except,
    read_json_file, write_json_file, time_time, lift, tick; cbn.

Lemma load_cache_absent s :
  file s = Absent -> load_cache E W s = (Ok JNull, s).
Proof. intros H. run_cache s H. reflexivity. Qed.

Lemma load_cache_unreadable s :
  file s = Unreadable -> load_cache E W s = (Ok JNull, s).
Proof. intros H. run_cache s H. reflexivity. Qed.

Lemma load_cache_garbage s :
  file s = Garbage -> load_cache E W s = (Ok JNull, s).
Proof. intros H. run_cache s H. reflexivity. Qed.

Lemma load_cache_not_object s j :
  file s = FJson j -> (forall kvs, j <> JObj kvs) ->
  load_cache E W s = (Ok JNull, tick s).
Proof.
  intros H Hj. run_cache s H.
  destruct j; try reflexivity. now destruct (Hj kvs).
Qed.

(** the whole of [load_cache] on a JSON object *)
Lemma load_cache_object s kvs :
  file s = FJson (JObj kvs) ->
  load_cache E W s =
    (Ok (match num_of (entry_timestamp kvs) with
         | None => JNull
         | Some t =>
             if clock E (ticks s) - t >? W then JNull else entry_data kvs
         end),
     tick s).
Proof.
  intros H. run_cache s H. unfold entry_timestamp, entry_data.
  destruct (num_of _); cbn; [|reflexivity].
  destruct (_ >? W); reflexivity.
Qed.

(** [load_cache] always returns, touches neither the file, the request
    log nor the output, and reads the clock at most once *)
Lemma load_cache_returns s :
  exists v s', load_cache E W s = (Ok v, s')
               /\ (s' = s \/ s' = tick s).
Proof.
  destruct (file s) as [| | |j] eqn:Hf.
  - eexists _, _. split; [now apply load_cache_absent|now left].
  - eexists _, _. split; [now apply load_cache_unreadable|now left].
  - eexists _, _. split; [now apply load_cache_garbage|now left].
  - destruct j;
      try (eexists _, _; split;
           [apply (load_cache_not_object s _ Hf); intros ? Hc; discriminate Hc
           |now right]).
    exists (match num_of (entry_timestamp kvs) with
            | None => JNull
            | Some t =>
                if clock E (ticks s) - t >? W then JNull else entry_data kvs
            end), (tick s).
    split; [now apply load_cache_object|now right].
Qed.

Lemma save_cache_written s d :
  disk E = WriteOk ->
  save_cache E d s =
    (Ok tt,
     {| file := FJson (JObj [("timestamp", JNum (clock E (ticks s)));
                             ("data", d)]);
        ticks := S (ticks s);
        requests := requests s; stdout := stdout s |}).
Proof.
  intros H. destruct s as [f t rq out].
  unfold save_cache, try_except, bind, time_time, write_json_file.
  cbn. now rewrite H.
Qed.

(** [save_cache] swallows every failure *)
Lemma save_cache_returns s d :
  exists s', save_cache E d s = (Ok tt, s')
             /\ requests s' = requests s /\ stdout s' = stdout s
             /\ ticks s' = S (ticks s).
Proof.
  destruct s as [f t rq out].
  unfold save_cache, try_except, bind, time_time, write_json_file, ret.
  cbn. destruct (disk E); cbn; eexists; repeat split.
Qed.

(** a failed write is swallowed: the file keeps its old contents when
    it cannot be opened, and is left truncated when the dump fails *)
Lemma save_cache_failed s d :
  disk E <> WriteOk ->
  exists s', save_cache E d s = (Ok tt, s')
             /\ (file s' = file s \/ file s' = Garbage).
Proof.
  intros H. destruct s as [f t rq out].
  unfold save_cache, try_except, bind, time_time, write_json_file, ret.
  cbn. destruct (disk E); cbn; [contradiction| |]; eexists; split;
    try reflexivity; cbn; auto.
Qed.
End CacheFacts.


(** C4 (as amended). When the write goes through, [save_cache d]
    followed at once by [load_cache], with the two clock readings no
    further apart than the expiration window, returns exactly [d]; this
    holds for every payload made of JSON values and in both scripts. *)
Theorem save_then_load (E : env) (W : Z) (s : state) (d : json) :
  disk E = WriteOk ->
  clock E (S (ticks s)) - clock E (ticks s) <= W ->
  exists s1 s2,
    save_cache E d s = (Ok tt, s1) /\ load_cache E W s1 = (Ok d, s2).
Proof.
  intros Hdisk Hnear.
  eexists _, _. split; [now apply save_cache_written|].
  erewrite load_cache_object by reflexivity.
  cbn.
  destruct (Z.gtb_spec (clock E (S (ticks s)) - clock E (ticks s)) W);
    [lia|reflexivity].
Qed.

(** ** Requests to the code-hosting API *)

Section GithubRequests.
Variable E : env.
Variable C : Github.config.

(** a request that meets a connection failure *)
Lemma make_github_request_offline url params s why :
  network E (List.length (requests s)) (github_request C url params)
    = ConnFail why ->
  Github.make_github_request E C url params s
    = (Raise (RequestException why),
       logged s (github_request C url params)).
Proof.
  intros H.
  unfold Github.make_github_request, bind, requests_get.
  fold (github_request C url params). now rewrite H.
Qed.

(** a request that is answered: what becomes of the response *)
Lemma make_github_request_answered url params s r :
  network E (List.length (requests s)) (github_request C url params)
    = Response r ->
  Github.make_github_request E C url params s
    = ((if status_code r =? 403 then
          match header "X-RateLimit-Remaining" (resp_headers r) with
          | Some remaining =>
              if String.eqb remaining "0" then
                match header "X-RateLimit-Reset" (resp_headers r) with
                | None => Raise (KeyError "x-ratelimit-reset")
                | Some reset =>
                    match py_int E reset with
                    | None => Raise ValueError
                    | Some n =>
                        match fromtimestamp E n with
                        | None =>
                            Raise (exn_of_stamp_error
                                     (fromtimestamp_error E n))
                        | Some reset_time =>
                            Raise (Github.RateLimited E reset_time)
                        end
                    end
                end
              else _ <~ raise_for_status r ;; response_json r
          | None => _ <~ raise_for_status r ;; response_json r
          end
        else _ <~ raise_for_status r ;; response_json r),
       logged s (github_request C url params)).
Proof.
  intros H.
  unfold Github.make_github_request, bind, requests_get.
  fold (github_request C url params). rewrite H.
  fold (logged s (github_request C url params)).
  unfold lift, ret, raise, rbind.
  destruct (status_code r =? 403);
    [destruct (header "X-RateLimit-Remaining" _) as [rem|];
     [destruct (String.eqb rem "0");
      [destruct (header "X-RateLimit-Reset" _) as [reset|];
       [destruct (py_int E reset) as [n|];
        [destruct (fromtimestamp E n)|]|]|]|]|];
    try reflexivity;
    destruct (raise_for_status r) as [[]| |]; reflexivity.
Qed.

(** every request is logged, whatever its outcome, and nothing else of
    the state changes *)
Lemma make_github_request_logs url params s :
  snd (Github.make_github_request E C url params s)
    = logged s (github_request C url params).
Proof.
  destruct (network E (List.length (requests s))
              (github_request C url params)) as [why|r] eqn:H.
  - now rewrite (make_github_request_offline _ _ _ _ H).
  - now rewrite (make_github_request_answered _ _ _ _ H).
Qed.
End GithubRequests.

(** C6 (as amended). When the response has status 403 and its
    X-RateLimit-Remaining header reads "0", [make_github_request] fails,
    and never with the [HTTPError] of [raise_for_status].  The failure is
    [KeyError] when the response has no X-RateLimit-Reset header and
    [ValueError] when that header does not hold an integer; when it
    holds an integer that [fromtimestamp] turns into [reset_time], the
    failure is the exception whose message is "GitHub API rate limit
    exceeded. Resets at " followed by the text of [reset_time]. *)
Theorem rate_limit_detected (E : env) (C : Github.config)
    (url : string) (params : option (list (string * json)))
    (s : state) (r : response) :
  network E (List.length (requests s)) (github_request C url params)
    = Response r ->
  status_code r = 403 ->
  header "X-RateLimit-Remaining" (resp_headers r) = Some "0" ->
  (exists e, fst (Github.make_github_request E C url params s) = Raise e
             /\ not_http_error e)
  /\ (header "X-RateLimit-Reset" (resp_headers r) = None ->
      Github.make_github_request E C url params s
        = (Raise (KeyError "x-ratelimit-reset"),
           logged s (github_request C url params)))
  /\ (forall reset,
        header "X-RateLimit-Reset" (resp_headers r) = Some reset ->
        py_int E reset = None ->
        Github.make_github_request E C url params s
          = (Raise ValueError, logged s (github_request C url params)))
  /\ (forall reset n reset_time,
        header "X-RateLimit-Reset" (resp_headers r) = Some reset ->
        py_int E reset = Some n ->
        fromtimestamp E n = Some reset_time ->
        Github.make_github_request E C url params s
          = (Raise (Exception
                      ("GitHub API rate limit exceeded. Resets at "
                       ++ str_datetime E reset_time)),
             logged s (github_request C url params))).
Proof.
  intros Hnet Hstatus Hremaining.
  rewrite (make_github_request_answered E C url params s r Hnet).
  rewrite Hstatus, Hremaining. cbn. repeat split.
  - destruct (header "X-RateLimit-Reset" _) as [reset|];
      [destruct (py_int E reset) as [n|];
       [destruct (fromtimestamp E n);
        [|destruct (fromtimestamp_error E n)]|]|];
      eexists; (split; [reflexivity|]); intros r' Hr'; discriminate Hr'.
  - intros Hreset. now rewrite Hreset.
  - intros reset Hreset Hn. now rewrite Hreset, Hn.
  - intros reset n reset_time Hreset Hn Ht. now rewrite Hreset, Hn, Ht.
Qed.

(** ** Pagination of the repository listing *)

Section Pagination.
Variable E : env.
Variable C : Github.config.
Variable l : list json.
Hypothesis Hserved : serves_pages E C l.

Lemma logged_all_cons s r rs :
  logged_all (logged s r) rs = logged_all s (r :: rs).
Proof.
  unfold logged_all, logged. cbn. now rewrite <- app_assoc.
Qed.

Lemma full_pages_step n :
  (0 < n)%nat -> full_pages n = S (full_pages (n - 100)).
Proof.
  intros Hn. unfold full_pages.
  destruct (Nat.le_gt_cases 100 n) as [Hbig|Hsmall].
  - replace (n + 99)%nat with ((n - 100 + 99) + 1 * 100)%nat by lia.
    rewrite Nat.div_add by lia. lia.
  - replace (n - 100)%nat with 0%nat by lia. cbn [Nat.add].
    rewrite (Nat.div_small 99 100) by lia.
    replace (n + 99)%nat with ((n - 1) + 1 * 100)%nat by lia.
    rewrite Nat.div_add by lia. rewrite Nat.div_small by lia. lia.
Qed.

(** one turn of the loop: the answer to the request for page [p] *)
Lemma page_fetched s p :
  (1 <= p)%nat ->
  Github.make_github_request E C (Github.REPOS_ENDPOINT C)
    (Some [("page", JNum (Z.of_nat p)); ("per_page", JNum 100)]) s
  = (Ok (JArr (page_of l p)), logged s (page_request C p)).
Proof.
  intros Hp.
  destruct (Hserved (List.length (requests s)) p Hp)
    as (r & Hnet & Hstatus & Hbody).
  unfold page_request in Hnet.
  rewrite (make_github_request_answered E C _ _ s r Hnet).
  fold (page_request C p).
  replace (status_code r =? 403) with false by (symmetry; lia).
  unfold raise_for_status, response_json, rbind.
  replace (400 <=? status_code r) with false by (symmetry; lia).
  cbn. now rewrite Hbody.
Qed.

(** the loop started at page [p] with [rest] still to come returns the
    accumulated items followed by [rest], after one request per
    non-empty page and one more for the empty page that ends it *)
Lemma fetch_repos_loop_pages fuel :
  forall rest acc p s,
    (1 <= p)%nat ->
    skipn (100 * (p - 1)) l = rest ->
    (full_pages (List.length rest) < fuel)%nat ->
    Github.fetch_repos_loop E C fuel acc (Z.of_nat p) s
    = (Ok (acc ++ rest)%list,
       logged_all s (map (page_request C)
                       (seq p (S (full_pages (List.length rest)))))).
Proof.
  induction fuel as [|fuel IH]; intros rest acc p s Hp Hrest Hfuel;
    [lia|].
  cbn [Github.fetch_repos_loop].
  rewrite (bind_ok _ _ _ _ _ (page_fetched s p Hp)).
  unfold page_of. rewrite Hrest.
  destruct rest as [|x rest'] eqn:Hx.
  - cbn. unfold ret, logged_all, logged. now rewrite app_nil_r.
  - rewrite <- Hx in *.
    assert (Hpos : (0 < List.length rest)%nat) by (rewrite Hx; cbn; lia).
    replace (negb (truthy (JArr (firstn 100 rest)))) with false
      by (rewrite Hx; reflexivity).
    unfold lift, bind. cbn [py_iter].
    replace (Z.of_nat p + 1) with (Z.of_nat (S p)) by lia.
    rewrite (IH (skipn 100 rest)).
    + rewrite <- app_assoc, firstn_skipn, logged_all_cons.
      rewrite length_skipn.
      rewrite (full_pages_step (List.length rest) Hpos).
      reflexivity.
    + lia.
    + rewrite <- Hrest, skipn_skipn. f_equal. lia.
    + rewrite length_skipn.
      rewrite (full_pages_step (List.length rest) Hpos) in Hfuel. lia.
Qed.
End Pagination.

(** C5 (as amended). When the repository list [l] is served in pages of
    100 starting at page 1, [fetch_repos_data] with enough fuel returns
    exactly [l], all pages in order, after one request per non-empty
    page plus the request that meets the empty page: pages 1, 2, ...,
    [full_pages n + 1].  With 250 items that is 4 requests and 250
    items. *)
Theorem fetch_repos_data_pages (E : env) (C : Github.config)
    (l : list json) (fuel : nat) (s : state) :
  serves_pages E C l ->
  (full_pages (List.length l) < fuel)%nat ->
  Github.fetch_repos_data E C fuel s
  = (Ok l,
     logged_all s (map (page_request C)
                     (seq 1 (S (full_pages (List.length l))))))
  /\ (List.length l = 250%nat ->
      exists rs, snd (Github.fetch_repos_data E C fuel s) = logged_all s rs
                 /\ List.length rs = 4%nat).
Proof.
  intros Hserved Hfuel.
  pose proof (fetch_repos_loop_pages E C l Hserved fuel l [] 1 s
                (le_n 1) eq_refl Hfuel) as Hrun.
  cbn [app Z.of_nat Pos.of_succ_nat] in Hrun.
  unfold Github.fetch_repos_data. split; [exact Hrun|].
  intros H250. rewrite Hrun. cbn [snd].
  eexists. split; [reflexivity|].
  rewrite length_map, length_seq, H250. reflexivity.
Qed.

(** ** Runs that leave the cache file and the output alone *)

Section Frames.
Variable E : env.
Variable P : request -> Prop.

Lemma frame_refl s : frame P s s.
Proof.
  repeat split; auto. exists []. now rewrite app_nil_r.
Qed.

Lemma frame_trans s1 s2 s3 :
  frame P s1 s2 -> frame P s2 s3 -> frame P s1 s3.
Proof.
  intros (Hf1 & Ho1 & Ht1 & rs1 & Hr1 & HP1)
         (Hf2 & Ho2 & Ht2 & rs2 & Hr2 & HP2).
  repeat split; try congruence; try lia.
  exists (rs1 ++ rs2)%list. split.
  - now rewrite Hr2, Hr1, app_assoc.
  - now apply Forall_app.
Qed.

Lemma frame_tick s : frame P s (tick s).
Proof.
  repeat split; cbn; auto. exists []. now rewrite app_nil_r.
Qed.

Lemma preserves_ret {A} (a : A) : preserves P (ret a).
Proof. intros s. apply frame_refl. Qed.

Lemma preserves_raise {A} e : preserves P (@raise A e).
Proof. intros s. apply frame_refl. Qed.

Lemma preserves_lift {A} (r : res A) : preserves P (lift r).
Proof. intros s. apply frame_refl. Qed.

Lemma preserves_bind {A B} (m : M A) (k : A -> M B) :
  preserves P m -> (forall a, preserves P (k a)) ->
  preserves P (bind m k).
Proof.
  intros Hm Hk s. specialize (Hm s). unfold bind.
  destruct (m s) as [[a|e|] s']; cbn in *; auto.
  eapply frame_trans; [exact Hm|apply Hk].
Qed.

Lemma preserves_try {A} (m : M A) (h : exn -> M A) :
  preserves P m -> (forall e, preserves P (h e)) ->
  preserves P (try_except m h).
Proof.
  intros Hm Hh s. specialize (Hm s). unfold try_except.
  destruct (m s) as [[a|e|] s']; cbn in *; auto.
  eapply frame_trans; [exact Hm|apply Hh].
Qed.

Lemma preserves_time : preserves P (time_time E).
Proof. intros s. apply frame_tick. Qed.

Lemma preserves_requests_get r : P r -> preserves P (requests_get E r).
Proof.
  intros Hr s. unfold requests_get.
  assert (frame P s (logged s r)) as Hframe.
  { repeat split; cbn; auto. exists [r]. auto. }
  destruct (network E _ r); exact Hframe.
Qed.

(** a program whose first step issues exactly [r] *)
Lemma bind_frame_after {A B} (m : M A) (k : A -> M B) r s :
  snd (m s) = logged s r ->
  (forall a, preserves P (k a)) ->
  frame_after r P s (snd (bind m k s)).
Proof.
  intros Hm Hk. unfold bind.
  destruct (m s) as [[a|e|] s0]; cbn [snd] in Hm; subst s0; cbn [snd].
  - destruct (Hk a (logged s r)) as (Hf & Ho & Ht & rs & Hr & HP).
    split; [exact Hf|]. split; [exact Ho|]. split; [exact Ht|].
    exists rs. split; [|exact HP].
    rewrite Hr. cbn. now rewrite <- app_assoc.
  - split; [reflexivity|]. split; [reflexivity|]. split; [apply le_n|].
    exists []. split; [reflexivity|constructor].
  - split; [reflexivity|]. split; [reflexivity|]. split; [apply le_n|].
    exists []. split; [reflexivity|constructor].
Qed.

Lemma preserves_load_cache W : preserves P (load_cache E W).
Proof.
  intros s.
  destruct (load_cache_returns E W s) as (v & s' & H & [Hs|Hs]);
    rewrite H; cbn; subst s'; [apply frame_refl|apply frame_tick].
Qed.
End Frames.

(** splits a monadic program along its binds and branches *)
Ltac frames :=
  repeat first
    [ apply preserves_bind; [|intros ?]
    | apply preserves_try; [|intros ?]
    | apply preserves_ret
    | apply preserves_raise
    | apply preserves_lift
    | apply preserves_time
    | apply preserves_load_cache
    | match goal with
      | |- preserves _ (if ?b then _ else _) => destruct b
      | |- preserves _ (match ?x with _ => _ end) => destruct x
      | |- preserves _ (let '(_, _) := ?x in _) => destruct x
      end ].

Section GithubFrames.
Variable E : env.
Variable C : Github.config.
Variable P : request -> Prop.

Lemma preserves_make_github_request url params :
  P (github_request C url params) ->
  preserves P (Github.make_github_request E C url params).
Proof.
  intros HP. unfold Github.make_github_request.
  fold (github_request C url params).
  apply preserves_bind; [now apply preserves_requests_get|].
  intros response. frames.
Qed.

Lemma preserves_fetch_repos_loop fuel :
  (forall p, P (github_request C (Github.REPOS_ENDPOINT C) (Some p))) ->
  forall acc page, preserves P (Github.fetch_repos_loop E C fuel acc page).
Proof.
  intros HP. induction fuel as [|fuel IH]; intros acc page; cbn.
  - frames.
  - apply preserves_bind; [apply preserves_make_github_request, HP|].
    intros repos. frames. apply IH.
Qed.

Lemma preserves_monitored_loop names :
  (forall name, P (github_request C
                    (Github.GITHUB_API ++ "/repos/" ++ name) None)) ->
  forall result, preserves P (Github.monitored_loop E C names result).
Proof.
  intros HP. induction names as [|name rest IH]; intros result;
    cbn [Github.monitored_loop].
  - frames.
  - destruct (negb _); [apply IH|].
    apply preserves_bind; [|intros ?; apply IH].
    apply preserves_try; [|intros ?; frames].
    apply preserves_bind; [apply preserves_make_github_request, HP|].
    intros repo_data. frames.
Qed.

Lemma preserves_star_loop events :
  forall star_events, preserves P (Github.star_loop E events star_events).
Proof.
  induction events as [|event rest IH]; intros star_events;
    cbn [Github.star_loop].
  - frames.
  - apply preserves_bind; [frames|]. intros ty.
    destruct (is_str _ ty); [|apply IH].
    repeat (apply preserves_bind; [frames|intros ?]).
    destruct (_ <=? _)%nat; [frames|apply IH].
Qed.
End GithubFrames.

(** ** The live fetch of the code-hosting script *)

Section GithubLive.
Variable E : env.
Variable C : Github.config.

Lemma paged_is_other url p :
  other_than_user C (github_request C url (Some p)).
Proof. intros H. discriminate H. Qed.

Lemma repo_is_other name :
  other_than_user C
    (github_request C (Github.GITHUB_API ++ "/repos/" ++ name) None).
Proof.
  intros H. unfold user_request, github_request, Github.USER_ENDPOINT in H.
  cbn in H. discriminate H.
Qed.

(** a live fetch leaves the cache file and the output alone, asks for
    the user's profile first and never again *)
Lemma fetch_from_api_frame fuel s :
  frame_after (user_request C) (other_than_user C) s
    (snd (Github.fetch_from_api E C fuel s)).
Proof.
  unfold Github.fetch_from_api, Github.fetch_user_data.
  apply bind_frame_after.
  { apply make_github_request_logs. }
  intros user_data. apply preserves_bind.
  { unfold Github.fetch_stars_received, Github.fetch_repos_data.
    apply preserves_bind; [|intros ?; frames].
    apply preserves_fetch_repos_loop. intros p. apply paged_is_other. }
  intros stars_received. apply preserves_bind.
  { apply preserves_monitored_loop. apply repo_is_other. }
  intros monitored_repos. apply preserves_bind.
  { unfold Github.fetch_recent_stars_by_following.
    apply preserves_bind;
      [apply preserves_make_github_request, paged_is_other|].
    intros events. apply preserves_bind; [frames|].
    intros items. apply preserves_star_loop. }
  intros recent_stars. unfold datetime_now. frames.
Qed.
End GithubLive.

(** ** The live fetch of the citation script *)

Section ScholarLive.
Variable E : env.
Variable C : Scholar.config.

Lemma scholar_request_logs s :
  snd (requests_get E (Scholar.scholar_request C) s)
    = logged s (Scholar.scholar_request C).
Proof.
  unfold requests_get. now destruct (network E _ _).
Qed.

Lemma scholar_fetch_frame s :
  frame_after (Scholar.scholar_request C) no_request s
    (snd (Scholar.fetch_from_api E C s)).
Proof.
  unfold Scholar.fetch_from_api.
  apply bind_frame_after; [apply scholar_request_logs|].
  intros response. unfold datetime_now. frames.
Qed.

(** a live fetch issues exactly one request *)
Lemma scholar_fetch_one_request s :
  let s' := snd (Scholar.fetch_from_api E C s) in
  file s' = file s /\ stdout s' = stdout s /\ (ticks s <= ticks s')%nat
  /\ requests s' = (requests s ++ [Scholar.scholar_request C])%list.
Proof.
  destruct (scholar_fetch_frame s) as (Hf & Ho & Ht & rs & Hr & HP).
  cbn zeta. repeat split; auto.
  destruct rs as [|r rs]; [exact Hr|].
  inversion HP as [|? ? Hfalse]. destruct Hfalse.
Qed.
End ScholarLive.

(** ** The orchestrators *)

Section Orchestrators.
Variable E : env.
Variable GC : Github.config.
Variable SC : Scholar.config.
Variable fuel : nat.

Lemma github_hit s d s1 :
  Github.load_cache E s = (Ok d, s1) -> truthy d = true ->
  Github.fetch_github_data E GC fuel s = (Ok d, s1).
Proof.
  intros Hload Hd. unfold Github.fetch_github_data.
  rewrite (bind_ok _ _ _ _ _ Hload). now rewrite Hd.
Qed.

Lemma github_miss s d s1 :
  Github.load_cache E s = (Ok d, s1) -> truthy d = false ->
  Github.fetch_github_data E GC fuel s = github_live E GC fuel s1.
Proof.
  intros Hload Hd. unfold Github.fetch_github_data.
  rewrite (bind_ok _ _ _ _ _ Hload). now rewrite Hd.
Qed.

Lemma scholar_hit s d s1 :
  Scholar.load_cache E s = (Ok d, s1) -> truthy d = true ->
  Scholar.fetch_scholar_data E SC s = (Ok d, s1).
Proof.
  intros Hload Hd. unfold Scholar.fetch_scholar_data.
  rewrite (bind_ok _ _ _ _ _ Hload). now rewrite Hd.
Qed.

Lemma scholar_miss s d s1 :
  Scholar.load_cache E s = (Ok d, s1) -> truthy d = false ->
  Scholar.fetch_scholar_data E SC s = scholar_live E SC s1.
Proof.
  intros Hload Hd. unfold Scholar.fetch_scholar_data.
  rewrite (bind_ok _ _ _ _ _ Hload). now rewrite Hd.
Qed.

(** what the live path does with the outcome of the fetch *)
Lemma live_outcome (fetch : M json) s :
  let live := (result <- fetch ;; save_cache E result >> ret result) in
  (forall e s2, fetch s = (Raise e, s2) -> live s = (Raise e, s2))
  /\ (fetch s = (Diverge, snd (fetch s)) ->
      live s = (Diverge, snd (fetch s)))
  /\ (forall r s2, fetch s = (Ok r, s2) ->
      live s = (Ok r, snd (save_cache E r s2))).
Proof.
  cbn zeta. repeat split.
  - intros e s2 H. now apply bind_raise.
  - intros H. now apply bind_diverge.
  - intros r s2 H. rewrite (bind_ok _ _ _ _ _ H).
    destruct (save_cache_returns E s2 r) as (s3 & Hsave & _).
    rewrite (bind_ok _ _ _ _ _ Hsave). now rewrite Hsave.
Qed.


Lemma load_cache_keeps_requests W s :
  requests (snd (load_cache E W s)) = requests s
  /\ file (snd (load_cache E W s)) = file s.
Proof.
  destruct (load_cache_returns E W s) as (v & s' & H & [Hs|Hs]);
    rewrite H; subst s'; split; reflexivity.
Qed.
End Orchestrators.

Section ReadThrough.
Variable E : env.
Variable GC : Github.config.
Variable SC : Scholar.config.
Variable fuel : nat.



Lemma written_through r s2 :
  disk E = WriteOk ->
  file (snd (save_cache E r s2)) = written_entry (clock E (ticks s2)) r.
Proof.
  intros Hdisk. now rewrite (save_cache_written E s2 r Hdisk).
Qed.
End ReadThrough.



(** ** The entry point of the code-hosting script *)

Section Fallback.
Variable E : env.
Variable C : Github.config.
Hypothesis Hclock : monotone (clock E).

(** a cache file that yields nothing now yields nothing later *)
Lemma load_cache_still_falsy W s s' d s1 :
  load_cache E W s = (Ok d, s1) -> truthy d = false ->
  file s' = file s -> (ticks s <= ticks s')%nat ->
  exists d', load_cache E W s' = (Ok d', snd (load_cache E W s'))
             /\ truthy d' = false.
Proof.
  intros Hload Hd Hfile Hticks.
  destruct (file s) as [| | |j] eqn:Hf.
  - rewrite (load_cache_absent E W s' Hfile). now exists JNull.
  - rewrite (load_cache_unreadable E W s' Hfile). now exists JNull.
  - rewrite (load_cache_garbage E W s' Hfile). now exists JNull.
  - destruct j;
      try (rewrite (load_cache_not_object E W s' _ Hfile);
           [now exists JNull|intros ? Hc; discriminate Hc]).
    rewrite (load_cache_object E W s kvs Hf) in Hload.
    rewrite (load_cache_object E W s' kvs Hfile).
    eexists. split; [reflexivity|].
    injection Hload as Hval _. subst d.
    destruct (num_of (entry_timestamp kvs)) as [t|]; [|reflexivity].
    pose proof (Hclock _ _ Hticks) as Hlater.
    destruct (Z.gtb_spec (clock E (ticks s') - t) W); [reflexivity|].
    destruct (Z.gtb_spec (clock E (ticks s) - t) W); [lia|exact Hd].
Qed.

(** a failed run of the orchestrator was a miss followed by a failed
    live fetch, which left the cache file and the output alone *)
Lemma failed_fetch_was_miss fuel s e s1 :
  Github.fetch_github_data E C fuel s = (Raise e, s1) ->
  exists d s0,
    Github.load_cache E s = (Ok d, s0) /\ truthy d = false
    /\ file s1 = file s /\ stdout s1 = stdout s
    /\ (ticks s <= ticks s1)%nat.
Proof.
  intros Hfetch.
  destruct (load_cache_returns E Github.CACHE_EXPIRATION s)
    as (d & s0 & Hload & Hs0).
  exists d, s0. split; [exact Hload|].
  destruct (truthy d) eqn:Hd.
  - rewrite (github_hit E C fuel s d s0 Hload Hd) in Hfetch.
    discriminate Hfetch.
  - split; [reflexivity|].
    rewrite (github_miss E C fuel s d s0 Hload Hd) in Hfetch.
    destruct (live_outcome E (Github.fetch_from_api E C fuel) s0)
      as (Hraise & Hdiv & Hok).
    destruct (fetch_from_api_frame E C fuel s0) as (Hf & Ho & Ht & _).
    unfold github_live, Github.save_cache in Hfetch.
    destruct (Github.fetch_from_api E C fuel s0) as [[r|e'|] s2] eqn:Hapi;
      cbn [snd] in *.
    + rewrite (Hok r s2 eq_refl) in Hfetch. discriminate Hfetch.
    + rewrite (Hraise e' s2 eq_refl) in Hfetch.
      injection Hfetch as _ Hs. subst s2.
      destruct Hs0 as [Hs0|Hs0]; subst s0; cbn in *;
        repeat split; auto; lia.
    + rewrite (Hdiv eq_refl) in Hfetch. discriminate Hfetch.
Qed.
End Fallback.

(** C1 (what the code does instead). On a clock that does not run
    backwards, whenever the orchestrator fails, the entry point prints
    the error menu: the fallback reads the cache through [load_cache],
    which applies the expiration window again, so a cache file that gave
    no payload before the fetch gives none after it, however well formed
    its stale entry is.  The output is the error menu, not the cached
    view. *)
Theorem failed_fetch_shows_no_cache (E : env) (C : Github.config)
    (fuel : nat) (s : state) (e : exn) (s1 : state) :
  monotone (clock E) ->
  Github.fetch_github_data E C fuel s = (Raise e, s1) ->
  exists s2,
    Github.main E C fuel s = (Ok tt, printed s2 (github_error_view E e))
    /\ file s2 = file s /\ stdout s2 = stdout s.
Proof.
  intros Hclock Hfetch.
  destruct (failed_fetch_was_miss E C fuel s e s1 Hfetch)
    as (d & s0 & Hload & Hd & Hfile & Hout & Hticks).
  destruct (load_cache_still_falsy E Hclock Github.CACHE_EXPIRATION
              s s1 d s0 Hload Hd Hfile Hticks) as (d' & Hload' & Hd').
  exists (snd (load_cache E Github.CACHE_EXPIRATION s1)).
  destruct (load_cache_keeps_requests E Github.CACHE_EXPIRATION s1)
    as [_ Hfile'].
  split; [|split].
  - unfold Github.main.
    rewrite (try_raise _ _ _ _ _ (bind_raise _ _ _ _ _ Hfetch)).
    unfold Github.load_cache.
    rewrite (bind_ok _ _ _ _ _ Hload'), Hd'.
    unfold bind, print, printed, github_error_view. cbn.
    repeat rewrite <- app_assoc. reflexivity.
  - congruence.
  - destruct (load_cache_returns E Github.CACHE_EXPIRATION s1)
      as (v & s' & H & [Hs|Hs]); rewrite H; subst s'; cbn; exact Hout.
Qed.

(** C8 (failing input). With a fresh cache entry whose payload is a
    non-empty object without the fields of a record, both entry points
    end in an uncaught [KeyError]: the orchestrator returns the payload,
    the renderer raises on the first missing field, and the handler,
    which finds the same truthy payload, raises again while building its
    first line.  The exit status is 1 and nothing has been printed. *)
Theorem foreign_payload_exit_status :
  let E := Sample.mk_env (Sample.ticking 1000) Sample.offline WriteOk in
  let s := Sample.start foreign_entry in
  Github.main E Sample.github_config 5 s
    = (Raise (KeyError "name"), tick (tick s))
  /\ exit_code (fst (Github.main E Sample.github_config 5 s)) = Some 1
  /\ Scholar.main E Sample.scholar_config s
       = (Raise (KeyError "name"), tick (tick s))
  /\ exit_code (fst (Scholar.main E Sample.scholar_config s)) = Some 1.
Proof.
  cbn zeta. repeat split; vm_compute; reflexivity.
Qed.

(** ** Failures of the citation fetcher *)

Section Quiet.
Variable E : env.

Lemma quiet_ok {A} (a : A) : quiet (Ok a).
Proof. intros e H. discriminate H. Qed.

Lemma quiet_raise {A} e : not_http_error e -> quiet (@Raise A e).
Proof. intros He e' H. now injection H as <-. Qed.

Lemma quiet_rbind {A B} (r : res A) (k : A -> res B) :
  quiet r -> (forall a, quiet (k a)) -> quiet (rbind r k).
Proof.
  intros Hr Hk. destruct r as [a|e|]; cbn.
  - apply Hk.
  - intros e' H. injection H as <-. now apply (Hr e).
  - intros e' H. discriminate H.
Qed.

Ltac quiet_op :=
  intros e H;
  repeat match type of H with
         | context [match ?x with _ => _ end] => destruct x
         end;
  try discriminate H; injection H as <-; intros ? Hhttp;
  discriminate Hhttp.

Lemma quiet_py_in k v : quiet (py_in k v).
Proof. unfold py_in. quiet_op. Qed.

Lemma quiet_py_getitem d k : quiet (py_getitem d k).
Proof. unfold py_getitem. quiet_op. Qed.

Lemma quiet_py_get d k v : quiet (py_get d k v).
Proof. unfold py_get. quiet_op. Qed.

Lemma quiet_py_index v i : quiet (py_index v i).
Proof. unfold py_index. quiet_op. Qed.

Lemma quiet_py_len v : quiet (py_len v).
Proof. unfold py_len. quiet_op. Qed.

Lemma quiet_py_iter v : quiet (py_iter v).
Proof. unfold py_iter. quiet_op. Qed.

Lemma quiet_response_json r : quiet (response_json r).
Proof. unfold response_json. quiet_op. Qed.

Ltac quiet_steps :=
  repeat first
    [ apply quiet_ok
    | apply quiet_py_in | apply quiet_py_getitem | apply quiet_py_get
    | apply quiet_py_index | apply quiet_py_len | apply quiet_py_iter
    | apply quiet_rbind; [|intros ?]
    | match goal with
      | |- quiet (if ?b then _ else _) => destruct b
      end ].

Lemma quiet_author_name data : quiet (Scholar.author_name data).
Proof. unfold Scholar.author_name. quiet_steps. Qed.

Lemma quiet_table_stat t i k : quiet (Scholar.table_stat t i k).
Proof. unfold Scholar.table_stat. quiet_steps. Qed.

Lemma quiet_table_stats data : quiet (Scholar.table_stats data).
Proof.
  unfold Scholar.table_stats.
  repeat first [ apply quiet_table_stat | progress quiet_steps ].
Qed.

Lemma quiet_graph_loop y graph : quiet (Scholar.graph_loop y graph).
Proof.
  induction graph as [|year_data rest IH]; cbn; [apply quiet_ok|].
  apply quiet_rbind; [apply quiet_py_get|]. intros v.
  destruct (py_eq_int v y); [apply quiet_py_get|exact IH].
Qed.

Lemma quiet_current_year_citations y data :
  quiet (Scholar.current_year_citations y data).
Proof.
  unfold Scholar.current_year_citations.
  repeat first [ apply quiet_graph_loop | progress quiet_steps ].
Qed.

Lemma never_http_ret {A} (a : A) : never_http (ret a).
Proof. intros s e H. discriminate H. Qed.

Lemma never_http_raise {A} e : not_http_error e -> never_http (@raise A e).
Proof. intros He s e' H. cbn in H. now injection H as <-. Qed.

Lemma never_http_lift {A} (r : res A) : quiet r -> never_http (lift r).
Proof. intros Hr s e H. now apply Hr. Qed.

Lemma never_http_bind {A B} (m : M A) (k : A -> M B) :
  never_http m -> (forall a, never_http (k a)) -> never_http (bind m k).
Proof.
  intros Hm Hk s e. specialize (Hm s). unfold bind.
  destruct (m s) as [[a|e'|] s']; cbn in *.
  - apply Hk.
  - intros H. injection H as <-. now apply Hm.
  - intros H. discriminate H.
Qed.

Lemma never_http_time : never_http (time_time E).
Proof. intros s e H. discriminate H. Qed.

Lemma never_http_requests_get r : never_http (requests_get E r).
Proof.
  intros s e. unfold requests_get.
  destruct (network E _ r); cbn; intros H; [|discriminate H].
  injection H as <-. intros r' Hr'. discriminate Hr'.
Qed.

Lemma never_http_save_cache d : never_http (save_cache E d).
Proof.
  intros s e H. destruct (save_cache_returns E s d) as (s' & Hs & _).
  rewrite Hs in H. discriminate H.
Qed.

Lemma never_http_load_cache W : never_http (load_cache E W).
Proof.
  intros s e H. destruct (load_cache_returns E W s) as (v & s' & Hs & _).
  rewrite Hs in H. discriminate H.
Qed.

(** whatever the response, the citation fetcher never fails with the
    error of [raise_for_status] *)
Lemma scholar_fetch_never_http C :
  never_http (Scholar.fetch_from_api E C).
Proof.
  unfold Scholar.fetch_from_api.
  apply never_http_bind; [apply never_http_requests_get|]. intros response.
  apply never_http_bind;
    [apply never_http_lift, quiet_response_json|]. intros data.
  apply never_http_bind; [apply never_http_lift, quiet_py_in|].
  intros has_error.
  apply never_http_bind.
  { destruct has_error; [|apply never_http_ret].
    apply never_http_bind; [apply never_http_lift, quiet_py_getitem|].
    intros err. apply never_http_raise. intros r Hr. discriminate Hr. }
  intros _. unfold datetime_now.
  apply never_http_bind; [apply never_http_time|]. intros now.
  apply never_http_bind; [apply never_http_lift, quiet_author_name|].
  intros name.
  apply never_http_bind; [apply never_http_lift, quiet_table_stats|].
  intros [[citations h_index] i10_index].
  apply never_http_bind; [apply never_http_time|]. intros now'.
  apply never_http_bind;
    [apply never_http_lift, quiet_current_year_citations|].
  intros this_year. apply never_http_ret.
Qed.

Lemma scholar_never_http C : never_http (Scholar.fetch_scholar_data E C).
Proof.
  unfold Scholar.fetch_scholar_data.
  apply never_http_bind; [apply never_http_load_cache|]. intros d.
  destruct (truthy d); [apply never_http_ret|].
  apply never_http_bind; [apply scholar_fetch_never_http|]. intros result.
  apply never_http_bind; [apply never_http_save_cache|]. intros _.
  apply never_http_ret.
Qed.

(** the answer of the citation API when the body is not JSON or holds
    an "error" member: the status plays no part *)
Lemma scholar_fetch_rejected C s r :
  network E (List.length (requests s)) (Scholar.scholar_request C)
    = Response r ->
  (forall t, body r = BodyText t ->
     Scholar.fetch_from_api E C s
       = (Raise JSONDecodeError, logged s (Scholar.scholar_request C)))
  /\ (forall kvs err, body r = BodyJson (JObj kvs) ->
        lookup "error" kvs = Some err ->
        Scholar.fetch_from_api E C s
          = (Raise (Exception ("SERP API Error: " ++ py_str E err)),
             logged s (Scholar.scholar_request C))).
Proof.
  intros Hnet. split.
  - intros t Hbody.
    unfold Scholar.fetch_from_api, bind, requests_get, lift, response_json.
    now rewrite Hnet, Hbody.
  - intros kvs err Hbody Herr.
    unfold Scholar.fetch_from_api, bind, requests_get, lift, response_json.
    rewrite Hnet, Hbody. cbn. now rewrite Herr.
Qed.
End Quiet.

(** C7 (as amended). The code-hosting fetcher turns every response with a
    client- or server-error status (400 to 599) that is not the
    rate-limit case into an [HTTPError] carrying the response, status and
    body included.  The citation fetcher does not look at the status: it
    never fails with [HTTPError]; it fails with a decoding error when the
    body is not JSON and with the "SERP API Error" exception, carrying
    the body's "error" member, when the body is an object with that
    member. *)
Theorem error_status_handling (E : env) (GC : Github.config)
    (SC : Scholar.config) (s : state) (r : response) :
  (forall url params,
     network E (List.length (requests s)) (github_request GC url params)
       = Response r ->
     400 <= status_code r < 600 ->
     ~ rate_limit_case r ->
     Github.make_github_request E GC url params s
       = (Raise (HTTPError r), logged s (github_request GC url params)))
  /\ (network E (List.length (requests s)) (Scholar.scholar_request SC)
        = Response r ->
      (forall e, fst (Scholar.fetch_from_api E SC s) = Raise e ->
                 not_http_error e)
      /\ (forall t, body r = BodyText t ->
            Scholar.fetch_from_api E SC s
              = (Raise JSONDecodeError,
                 logged s (Scholar.scholar_request SC)))
      /\ (forall kvs err, body r = BodyJson (JObj kvs) ->
            lookup "error" kvs = Some err ->
            Scholar.fetch_from_api E SC s
              = (Raise (Exception ("SERP API Error: " ++ py_str E err)),
                 logged s (Scholar.scholar_request SC)))).
Proof.
  split.
  - intros url params Hnet Hstatus Hcase.
    rewrite (make_github_request_answered E GC url params s r Hnet).
    assert (raise_for_status r = Raise (HTTPError r)) as Hraise.
    { unfold raise_for_status.
      replace (400 <=? status_code r) with true by (symmetry; lia).
      replace (status_code r <? 600) with true by (symmetry; lia).
      reflexivity. }
    rewrite Hraise. cbn [rbind].
    destruct (Z.eqb_spec (status_code r) 403) as [H403|]; [|reflexivity].
    destruct (header "X-RateLimit-Remaining" _) as [rem|] eqn:Hrem;
      [|reflexivity].
    destruct (String.eqb_spec rem "0") as [->|]; [|reflexivity].
    destruct Hcase. now split.
  - intros Hnet. split; [apply scholar_fetch_never_http|].
    apply scholar_fetch_rejected, Hnet.
Qed.

(** ** The record of the citation script *)

Section ScholarRecord.
Variable E : env.
Variable C : Scholar.config.

Lemma author_name_shaped kvs :
  match lookup "author" kvs with
  | None => true
  | Some author => is_obj author
  end = true ->
  Scholar.author_name (JObj kvs)
    = Ok (field_or (JStr "Unknown") [Key "author"; Key "name"] (JObj kvs)).
Proof.
  unfold Scholar.author_name, field_or. cbn [py_in py_getitem rbind follow].
  destruct (lookup "author" kvs) as [author|]; [|reflexivity].
  destruct author as [| | | | |akvs]; try discriminate. intros _.
  cbn [py_in py_getitem rbind follow].
  destruct (lookup "name" akvs); reflexivity.
Qed.

Lemma table_stat_shaped rows i key :
  shaped_row key (nth_error rows i) = true ->
  Scholar.table_stat (JArr rows) i key
    = Ok (field_or (JNum 0) [Idx i; Key key; Key "all"] (JArr rows)).
Proof.
  unfold Scholar.table_stat, field_or, shaped_row.
  cbn [py_len py_index rbind follow].
  destruct (nth_error rows i) as [row|] eqn:Hrow.
  - assert (i < List.length rows)%nat as Hlt
        by (apply nth_error_Some; congruence).
    replace (Z.of_nat (List.length rows) >? Z.of_nat i) with true
      by (symmetry; apply Z.gtb_lt; lia).
    destruct row as [| | | | |rkvs]; try discriminate.
    cbn [py_in py_getitem rbind].
    destruct (lookup key rkvs) as [stat|]; [|reflexivity].
    destruct stat as [| | | | |skvs]; try discriminate.
    cbn [py_getitem rbind].
    destruct (lookup "all" skvs); [reflexivity|discriminate].
  - intros _.
    assert (List.length rows <= i)%nat as Hge by now apply nth_error_None.
    destruct (Z.gtb_spec (Z.of_nat (List.length rows)) (Z.of_nat i));
      [lia|reflexivity].
Qed.

Lemma table_stats_shaped kvs :
  match lookup "cited_by" kvs with
  | None => true
  | Some cited_by => shaped_cited_by cited_by
  end = true ->
  Scholar.table_stats (JObj kvs)
    = Ok (field_or (JNum 0)
            [Key "cited_by"; Key "table"; Idx 0; Key "citations"; Key "all"]
            (JObj kvs),
          field_or (JNum 0)
            [Key "cited_by"; Key "table"; Idx 1; Key "h_index"; Key "all"]
            (JObj kvs),
          field_or (JNum 0)
            [Key "cited_by"; Key "table"; Idx 2; Key "i10_index"; Key "all"]
            (JObj kvs)).
Proof.
  unfold Scholar.table_stats, field_or.
  cbn [py_in py_getitem rbind follow].
  destruct (lookup "cited_by" kvs) as [cited_by|]; [|reflexivity].
  destruct cited_by as [| | | | |ckvs]; try discriminate.
  cbn [shaped_cited_by py_in py_getitem rbind follow].
  destruct (lookup "table" ckvs) as [table|]; [|reflexivity].
  intros Hshape. apply andb_prop in Hshape as [Htable _].
  destruct table as [| | | |rows|]; try discriminate.
  cbn [shaped_table] in Htable.
  apply andb_prop in Htable as [Htable H2].
  apply andb_prop in Htable as [H0 H1].
  cbn [rbind].
  rewrite (table_stat_shaped rows 0 "citations" H0).
  rewrite (table_stat_shaped rows 1 "h_index" H1).
  rewrite (table_stat_shaped rows 2 "i10_index" H2).
  reflexivity.
Qed.

Lemma graph_loop_shaped y entries :
  forallb is_obj entries = true ->
  Scholar.graph_loop y entries
    = Ok match find (fun year_data =>
                       py_eq_int (field_or JNull [Key "year"] year_data) y)
                 entries with
         | Some year_data => field_or (JNum 0) [Key "citations"] year_data
         | None => JNum 0
         end.
Proof.
  induction entries as [|year_data rest IH]; [reflexivity|].
  cbn [forallb]. intros H. apply andb_prop in H as [Hobj Hrest].
  destruct year_data as [| | | | |ykvs]; try discriminate.
  cbn [Scholar.graph_loop find py_get rbind].
  unfold field_or at 1. cbn [follow].
  destruct (lookup "year" ykvs) as [v|].
  - destruct (py_eq_int v y); [|now apply IH].
    unfold field_or. cbn [follow].
    destruct (lookup "citations" ykvs); reflexivity.
  - destruct (py_eq_int JNull y); [|now apply IH].
    unfold field_or. cbn [follow].
    destruct (lookup "citations" ykvs); reflexivity.
Qed.

Lemma current_year_citations_shaped y kvs :
  match lookup "cited_by" kvs with
  | None => true
  | Some cited_by => shaped_cited_by cited_by
  end = true ->
  Scholar.current_year_citations y (JObj kvs)
    = Ok (this_year_or_zero y (JObj kvs)).
Proof.
  unfold Scholar.current_year_citations, this_year_or_zero.
  cbn [py_in py_getitem rbind follow].
  destruct (lookup "cited_by" kvs) as [cited_by|]; [|reflexivity].
  destruct cited_by as [| | | | |ckvs]; try discriminate.
  cbn [shaped_cited_by py_in py_getitem rbind follow].
  destruct (lookup "graph" ckvs) as [graph|]; [|reflexivity].
  intros Hshape. apply andb_prop in Hshape as [_ Hgraph].
  destruct graph as [| | | |entries|]; try discriminate.
  cbn [shaped_graph] in Hgraph. cbn [py_iter rbind].
  now apply graph_loop_shaped.
Qed.

(** the live fetch on a well-shaped body without an "error" member *)
Lemma scholar_fetch_shaped s r kvs :
  network E (List.length (requests s)) (Scholar.scholar_request C)
    = Response r ->
  body r = BodyJson (JObj kvs) ->
  lookup "error" kvs = None ->
  well_shaped (JObj kvs) = true ->
  Scholar.fetch_from_api E C s
    = (Ok (expected_record E (clock E (ticks s)) (clock E (S (ticks s)))
             (JObj kvs)),
       tick (tick (logged s (Scholar.scholar_request C)))).
Proof.
  intros Hnet Hbody Herr Hshape.
  cbn [well_shaped] in Hshape. apply andb_prop in Hshape as [Ha Hc].
  unfold Scholar.fetch_from_api, bind, requests_get, lift, response_json,
    datetime_now, time_time, ret.
  rewrite Hnet, Hbody. cbn [py_in]. rewrite Herr.
  rewrite (author_name_shaped kvs Ha), (table_stats_shaped kvs Hc).
  cbn [ticks logged].
  rewrite (current_year_citations_shaped _ kvs Hc).
  reflexivity.
Qed.
End ScholarRecord.

(** C10 (as amended). On a cache miss, when the citation API answers with
    a JSON object that has no "error" member and whose present fields
    are of the documented shape ([well_shaped]), [fetch_scholar_data]
    returns the complete record, with "Unknown" for an absent name and 0
    for every absent statistic.  It raises when the body is not JSON and
    when the object has an "error" member. *)
Theorem scholar_record_defaults (E : env) (C : Scholar.config)
    (s : state) (d : json) (s1 : state) (r : response) :
  Scholar.load_cache E s = (Ok d, s1) ->
  truthy d = false ->
  network E (List.length (requests s1)) (Scholar.scholar_request C)
    = Response r ->
  (forall kvs, body r = BodyJson (JObj kvs) ->
     lookup "error" kvs = None ->
     well_shaped (JObj kvs) = true ->
     fst (Scholar.fetch_scholar_data E C s)
       = Ok (expected_record E (clock E (ticks s1))
               (clock E (S (ticks s1))) (JObj kvs)))
  /\ (forall t, body r = BodyText t ->
        fst (Scholar.fetch_scholar_data E C s) = Raise JSONDecodeError)
  /\ (forall kvs err, body r = BodyJson (JObj kvs) ->
        lookup "error" kvs = Some err ->
        fst (Scholar.fetch_scholar_data E C s)
          = Raise (Exception ("SERP API Error: " ++ py_str E err))).
Proof.
  intros Hload Hd Hnet.
  rewrite (scholar_miss E C s d s1 Hload Hd).
  destruct (live_outcome E (Scholar.fetch_from_api E C) s1)
    as (Hraise & _ & Hok).
  unfold scholar_live, Scholar.save_cache.
  destruct (scholar_fetch_rejected E C s1 r Hnet) as [Htext Herror].
  repeat split.
  - intros kvs Hbody Herr Hshape.
    now rewrite (Hok _ _ (scholar_fetch_shaped E C s1 r kvs
                            Hnet Hbody Herr Hshape)).
  - intros t Hbody. now rewrite (Hraise _ _ (Htext t Hbody)).
  - intros kvs err Hbody Herr.
    now rewrite (Hraise _ _ (Herror kvs err Hbody Herr)).
Qed.

(** ** Concrete runs *)

Lemma ticking_monotone t0 : monotone (Sample.ticking t0).
Proof. intros i j Hij. unfold Sample.ticking. lia. Qed.

Lemma paged_network_serves clock d C l :
  serves_pages (Sample.mk_env clock (paged_network l) d) C l.
Proof.
  intros i p Hp. eexists. cbn. rewrite Nat2Z.id.
  split; [reflexivity|]. cbn. split; [lia|reflexivity].
Qed.



Lemma save_then_load_witness :
  let E := offline_env 5000 in
  let s := Sample.start Absent in
  disk E = WriteOk
  /\ clock E (S (ticks s)) - clock E (ticks s) <= Github.CACHE_EXPIRATION
  /\ exists s1 s2,
       save_cache E Sample.github_record s = (Ok tt, s1)
       /\ load_cache E Github.CACHE_EXPIRATION s1
            = (Ok Sample.github_record, s2).
Proof.
  intros E s.
  assert (clock E (S (ticks s)) - clock E (ticks s)
          <= Github.CACHE_EXPIRATION) as Hnear
      by (vm_compute; discriminate).
  split; [reflexivity|]. split; [exact Hnear|].
  exact (save_then_load E Github.CACHE_EXPIRATION s Sample.github_record
           eq_refl Hnear).
Defined.

(** C4 (counterexample). The cache file holds a fresh record and cannot
    be opened for writing: [save_cache d] returns as if nothing had
    happened, and the [load_cache] that follows at once returns the old
    record, not [d]. *)
Lemma refused_write_keeps_old_payload :
  let E := readonly_env 5000 in
  let s := Sample.start (Sample.entry 4000 Sample.scholar_record) in
  let d := Sample.github_record in
  save_cache E d s = (Ok tt, tick s)
  /\ clock E (S (ticks s)) - clock E (ticks s) <= Github.CACHE_EXPIRATION
  /\ load_cache E Github.CACHE_EXPIRATION (tick s)
     = (Ok Sample.scholar_record, tick (tick s))
  /\ Sample.scholar_record <> d.
Proof.
  cbn zeta. repeat split; try (vm_compute; reflexivity);
    vm_compute; discriminate.
Qed.

(** C5 (counterexample). 250 repositories served in pages of 100: the
    loop returns the 250 items after 4 requests, not 3; the fourth meets
    the empty page that ends the loop. *)
Lemma three_requests_refuted :
  let E := Sample.mk_env (Sample.ticking 5000) (paged_network repos_250)
             WriteOk in
  let run := Github.fetch_repos_data E Sample.github_config 10
               (Sample.start Absent) in
  fst run = Ok repos_250
  /\ List.length repos_250 = 250%nat
  /\ requests (snd run) = map (page_request Sample.github_config) [1; 2; 3; 4]%nat
  /\ List.length (requests (snd run)) <> 3%nat.
Proof.
  cbn zeta. repeat split; try (vm_compute; reflexivity).
  vm_compute. discriminate.
Qed.

Lemma fetch_repos_data_pages_witness :
  let E := Sample.mk_env (Sample.ticking 5000) (paged_network repos_250)
             WriteOk in
  let s := Sample.start Absent in
  serves_pages E Sample.github_config repos_250
  /\ (full_pages (List.length repos_250) < 10)%nat
  /\ Github.fetch_repos_data E Sample.github_config 10 s
     = (Ok repos_250,
        logged_all s (map (page_request Sample.github_config)
                        (seq 1 (S (full_pages (List.length repos_250))))))
  /\ exists rs,
       snd (Github.fetch_repos_data E Sample.github_config 10 s)
         = logged_all s rs
       /\ List.length rs = 4%nat.
Proof.
  intros E s.
  assert (full_pages (List.length repos_250) < 10)%nat as Hfuel
      by (vm_compute; lia).
  pose proof (paged_network_serves (Sample.ticking 5000) WriteOk
                Sample.github_config repos_250) as Hserved.
  destruct (fetch_repos_data_pages E Sample.github_config repos_250 10 s
              Hserved Hfuel) as [Hrun H250].
  split; [exact Hserved|]. split; [exact Hfuel|]. split; [exact Hrun|].
  apply H250. reflexivity.
Defined.

Lemma rate_limit_detected_witness :
  let E := answering_env 5000 rate_limit_response in
  let s := Sample.start Absent in
  let C := Sample.github_config in
  network E (List.length (requests s))
    (github_request C (Github.USER_ENDPOINT C) None)
    = Response rate_limit_response
  /\ status_code rate_limit_response = 403
  /\ header "X-RateLimit-Remaining" (resp_headers rate_limit_response)
       = Some "0"
  /\ header "X-RateLimit-Reset" (resp_headers rate_limit_response)
       = Some "1700000000"
  /\ py_int E "1700000000" = Some 1700000000
  /\ fromtimestamp E 1700000000 = Some 1700000000
  /\ Github.make_github_request E C (Github.USER_ENDPOINT C) None s
     = (Raise (Exception
                 "GitHub API rate limit exceeded. Resets at 1700000000"),
        logged s (github_request C (Github.USER_ENDPOINT C) None)).
Proof.
  intros E s C.
  destruct (rate_limit_detected E C (Github.USER_ENDPOINT C) None s
              rate_limit_response eq_refl eq_refl eq_refl)
    as (_ & _ & _ & H).
  do 6 (split; [reflexivity|]).
  exact (H "1700000000" 1700000000 1700000000 eq_refl eq_refl eq_refl).
Defined.

(** C6 (counterexample). A 403 response whose remaining quota reads "0"
    and that carries no X-RateLimit-Reset header: the request fails with
    [KeyError], which is not the rate-limit exception of any reset
    time. *)
Lemma rate_limit_without_reset :
  let E := answering_env 5000 bare_rate_limit_response in
  let s := Sample.start Absent in
  let C := Sample.github_config in
  status_code bare_rate_limit_response = 403
  /\ header "X-RateLimit-Remaining" (resp_headers bare_rate_limit_response)
       = Some "0"
  /\ Github.make_github_request E C (Github.USER_ENDPOINT C) None s
     = (Raise (KeyError "x-ratelimit-reset"),
        logged s (github_request C (Github.USER_ENDPOINT C) None))
  /\ forall reset_time,
       KeyError "x-ratelimit-reset" <> Github.RateLimited E reset_time.
Proof.
  cbn zeta. repeat split; try (vm_compute; reflexivity).
  intros reset_time H. discriminate H.
Qed.

(** a stale, well-formed entry and no network: the error menu *)
Lemma failed_fetch_shows_no_cache_witness :
  let E := offline_env 1000000 in
  let C := Sample.github_config in
  let s := Sample.start (Sample.entry 0 Sample.github_record) in
  let e := RequestException "Connection refused" in
  monotone (clock E)
  /\ Github.fetch_github_data E C 5 s
       = (Raise e, logged (tick s) (user_request C))
  /\ exists s2,
       Github.main E C 5 s = (Ok tt, printed s2 (github_error_view E e))
       /\ file s2 = file s /\ stdout s2 = stdout s.
Proof.
  intros E C s e.
  split; [apply ticking_monotone|]. split; [reflexivity|].
  exact (failed_fetch_shows_no_cache E C 5 s e
           (logged (tick s) (user_request C))
           (ticking_monotone 1000000) eq_refl).
Defined.



(** C7 (counterexample). The citation API answers with status 500 and an
    empty JSON object: the citation fetcher does not fail, the
    orchestrator returns a record of defaults. *)
Lemma citation_fetcher_ignores_status :
  let E := answering_env 1000 server_error_response in
  status_code server_error_response = 500
  /\ fst (Scholar.fetch_scholar_data E Sample.scholar_config
            (Sample.start Absent))
     = Ok (JObj [("name", JStr "Unknown");
                 ("citations", JNum 0);
                 ("h_index", JNum 0);
                 ("i10_index", JNum 0);
                 ("current_year_citations", JNum 0);
                 ("last_updated", JStr "1000")]).
Proof.
  cbn zeta. split; vm_compute; reflexivity.
Qed.

Lemma error_status_handling_witness :
  let GC := Sample.github_config in
  let SC := Sample.scholar_config in
  let s := Sample.start Absent in
  let E := answering_env 1000 not_found_response in
  let E' := answering_env 1000 server_error_response in
  (400 <= status_code not_found_response < 600
   /\ ~ rate_limit_case not_found_response
   /\ Github.make_github_request E GC (Github.USER_ENDPOINT GC) None s
      = (Raise (HTTPError not_found_response), logged s (user_request GC)))
  /\ (forall e, fst (Scholar.fetch_from_api E' SC s) = Raise e ->
                not_http_error e).
Proof.
  intros GC SC s E E'.
  assert (400 <= status_code not_found_response < 600) as Hstatus
      by (cbn; lia).
  assert (~ rate_limit_case not_found_response) as Hcase
      by (intros [H _]; discriminate H).
  split.
  - destruct (error_status_handling E GC SC s not_found_response) as [H _].
    split; [exact Hstatus|]. split; [exact Hcase|].
    exact (H (Github.USER_ENDPOINT GC) None eq_refl Hstatus Hcase).
  - destruct (error_status_handling E' GC SC s server_error_response)
      as [_ H].
    destruct (H eq_refl) as [Hnever _]. exact Hnever.
Defined.


(** C10 (counterexample). The body is a JSON object without an "error"
    member, but its citation count has no "all" member: the fetch raises
    [KeyError] instead of returning a record with the default 0. *)
Lemma missing_all_member_raises :
  let E := answering_env 1000 (ok_response body_without_all) in
  py_in "error" body_without_all = Ok false
  /\ fst (Scholar.fetch_scholar_data E Sample.scholar_config
            (Sample.start Absent))
     = Raise (KeyError "all").
Proof.
  cbn zeta. split; vm_compute; reflexivity.
Qed.

Lemma scholar_record_defaults_witness :
  let E := answering_env 1000 (ok_response author_body) in
  let C := Sample.scholar_config in
  let s := Sample.start Absent in
  Scholar.load_cache E s = (Ok JNull, s)
  /\ truthy JNull = false
  /\ well_shaped author_body = true
  /\ fst (Scholar.fetch_scholar_data E C s)
     = Ok (JObj [("name", JStr "A. Author");
                 ("citations", JNum 120);
                 ("h_index", JNum 6);
                 ("i10_index", JNum 0);
                 ("current_year_citations", JNum 17);
                 ("last_updated", JStr "1000")]).
Proof.
  intros E C s.
  destruct (scholar_record_defaults E C s JNull s (ok_response author_body)
              eq_refl eq_refl eq_refl) as [H _].
  split; [reflexivity|]. split; [reflexivity|]. split; [reflexivity|].
  exact (H _ eq_refl eq_refl eq_refl).
Defined.

(** * Further properties of the code-hosting script *)

(** ** Reading a run backwards *)

Lemma bind_ok_inv {A B} (m : M A) (k : A -> M B) s b s' :
  bind m k s = (Ok b, s') ->
  exists a s1, m s = (Ok a, s1) /\ k a s1 = (Ok b, s').
Proof.
  unfold bind. destruct (m s) as [[a|e|] s1]; intros H;
    try discriminate H. now exists a, s1.
Qed.

Lemma lift_ok_inv {A} (r : res A) s a s' :
  lift r s = (Ok a, s') -> r = Ok a /\ s' = s.
Proof. unfold lift. intros H. injection H as -> ->. now split. Qed.

Section GithubAnswers.
Variable E : env.
Variable C : Github.config.

(** a response below status 400 passes the status checks *)
Lemma request_passes url params s r :
  network E (List.length (requests s)) (github_request C url params)
    = Response r ->
  status_code r < 400 ->
  Github.make_github_request E C url params s
    = (response_json r, logged s (github_request C url params)).
Proof.
  intros Hnet Hstatus.
  rewrite (make_github_request_answered E C url params s r Hnet).
  replace (status_code r =? 403) with false by (symmetry; lia).
  unfold raise_for_status.
  replace (400 <=? status_code r) with false by (symmetry; lia).
  reflexivity.
Qed.

(** a request returns or raises: it holds no loop *)
Lemma request_ends url params s :
  fst (Github.make_github_request E C url params s) <> Diverge.
Proof.
  destruct (network E (List.length (requests s))
              (github_request C url params)) as [why|r] eqn:Hnet.
  - rewrite (make_github_request_offline E C _ _ _ _ Hnet). discriminate.
  - rewrite (make_github_request_answered E C _ _ _ _ Hnet). cbn [fst].
    unfold raise_for_status, response_json.
    repeat match goal with
           | |- context [match ?x with _ => _ end] => destruct x
           | |- context [if ?b then _ else _] => destruct b
           end; cbn; discriminate.
Qed.
End GithubAnswers.

(** ** The feed of recent stars *)

Section RecentStars.
Variable E : env.
Variable C : Github.config.

(** the loop leaves the state alone and keeps at most five entries *)
Lemma star_loop_bound events :
  forall acc result s s',
    Github.star_loop E events acc s = (Ok result, s') ->
    (List.length acc < 5)%nat ->
    Forall star_entry acc ->
    (List.length result <= 5)%nat /\ s' = s /\ Forall star_entry result.
Proof.
  induction events as [|event rest IH]; intros acc result s s' H Hacc Hall;
    cbn [Github.star_loop] in H.
  - injection H as <- <-. split; [lia|split; [reflexivity|exact Hall]].
  - unfold bind, lift in H.
    destruct (py_getitem event "type") as [ty| |]; try discriminate H.
    destruct (is_str "WatchEvent" ty); [|now apply (IH acc)].
    destruct (py_getitem event "actor") as [actor| |]; try discriminate H.
    destruct (py_getitem actor "login") as [login| |]; try discriminate H.
    destruct (py_getitem event "repo") as [repo| |]; try discriminate H.
    destruct (py_getitem repo "name") as [repo_name| |];
      try discriminate H.
    destruct (py_getitem event "created_at") as [created_at| |];
      try discriminate H.
    match type of H with
    | context [(5 <=? List.length ?l)%nat] =>
        assert (List.length l = S (List.length acc)) as Hlen
            by (rewrite length_app; cbn; lia);
          destruct (Nat.leb_spec 5 (List.length l))
    end.
    + injection H as <- <-.
      split; [rewrite length_app; cbn [List.length]; lia|].
      split; [reflexivity|].
      apply Forall_app. split; [exact Hall|].
      constructor; [now eexists _, _, _, _|constructor].
    + apply IH in H; [exact H|lia|].
      apply Forall_app. split; [exact Hall|].
      constructor; [now eexists _, _, _, _|constructor].
Qed.

(** on a feed of the documented shape the loop returns the entries of
    the first five stars *)
Lemma star_loop_shaped events :
  forall acc s,
    Forall (fun event => feed_shaped E event = true) events ->
    (List.length acc < 5)%nat ->
    Github.star_loop E events acc s
      = (Ok (firstn 5 (acc ++ star_events E events)), s).
Proof.
  induction events as [|event rest IH]; intros acc s Hshape Hacc;
    cbn [Github.star_loop star_events].
  - rewrite app_nil_r, firstn_all2 by lia. reflexivity.
  - inversion Hshape as [|? ? Hevent Hrest]; subst.
    unfold feed_shaped in Hevent. unfold is_watch_event.
    cbn [follow] in Hevent |- *.
    destruct event as [| | | | |kvs]; try discriminate Hevent.
    unfold bind, lift. cbn [py_getitem].
    destruct (lookup "type" kvs) as [ty|]; [|discriminate Hevent].
    destruct (is_str "WatchEvent" ty); [|now apply IH].
    unfold star_event in Hevent |- *. cbn [follow] in Hevent |- *.
    destruct (lookup "actor" kvs) as [actor|]; [|discriminate Hevent].
    destruct actor as [| | | | |akvs]; try discriminate Hevent.
    cbn [py_getitem].
    destruct (lookup "login" akvs) as [login|]; [|discriminate Hevent].
    destruct (lookup "repo" kvs) as [repo|]; [|discriminate Hevent].
    destruct repo as [| | | | |rkvs]; try discriminate Hevent.
    cbn [py_getitem].
    destruct (lookup "name" rkvs) as [repo_name|]; [|discriminate Hevent].
    destruct (lookup "created_at" kvs) as [created_at|];
      [|discriminate Hevent].
    match goal with
    | |- context [(5 <=? List.length ?l)%nat] =>
        assert (List.length l = S (List.length acc)) as Hlen
            by (rewrite length_app; cbn; lia);
          destruct (Nat.leb_spec 5 (List.length l))
    end.
    + unfold ret. f_equal. f_equal.
      change (?x :: star_events E rest) with ([x] ++ star_events E rest)%list.
      rewrite app_assoc, firstn_app.
      replace (5 - _)%nat with 0%nat by lia.
      rewrite firstn_all2 by lia. cbn. now rewrite app_nil_r.
    + rewrite IH by (auto; lia). now rewrite <- app_assoc.
Qed.
End RecentStars.

(** X1. Whatever the feed holds, [fetch_recent_stars_by_following]
    returns at most five entries. *)
Theorem recent_stars_at_most_five (E : env) (C : Github.config)
    (s : state) (result : list json) (s' : state) :
  Github.fetch_recent_stars_by_following E C s = (Ok result, s') ->
  (List.length result <= 5)%nat.
Proof.
  unfold Github.fetch_recent_stars_by_following. intros H.
  apply bind_ok_inv in H as (events & s1 & _ & H).
  apply bind_ok_inv in H as (items & s2 & _ & H).
  apply star_loop_bound in H; [apply H|cbn; lia|constructor].
Qed.

(** X2. When the feed request is answered below status 400 with a JSON
    array of events of the documented shape,
    [fetch_recent_stars_by_following] returns the entries of the first
    five star events, in feed order, after that one request. *)
Theorem recent_stars_are_first_five (E : env) (C : Github.config)
    (s : state) (r : response) (events : list json) :
  network E (List.length (requests s)) (events_request C) = Response r ->
  status_code r < 400 ->
  body r = BodyJson (JArr events) ->
  Forall (fun event => feed_shaped E event = true) events ->
  Github.fetch_recent_stars_by_following E C s
    = (Ok (firstn 5 (star_events E events)), logged s (events_request C)).
Proof.
  intros Hnet Hstatus Hbody Hshape.
  unfold Github.fetch_recent_stars_by_following.
  unfold events_request in Hnet.
  pose proof (request_passes E C _ _ s r Hnet Hstatus) as Hreq.
  unfold response_json in Hreq. rewrite Hbody in Hreq.
  rewrite (bind_ok _ _ _ _ _ Hreq).
  unfold bind, lift. cbn [py_iter].
  now rewrite (star_loop_shaped E events [] _ Hshape) by (cbn; lia).
Qed.

(** ** The monitored repositories *)

Section Monitored.
Variable E : env.
Variable C : Github.config.

(** one monitored name: the request is issued, and the entry is added
    or, on any failure, left out *)
Lemma monitored_step name result s :
  exists result',
    try_except
      (repo_data <- Github.make_github_request E C
           (Github.GITHUB_API ++ "/repos/" ++ strip name) None ;;
       name <- lift (py_getitem repo_data "name") ;;
       full_name <- lift (py_getitem repo_data "full_name") ;;
       html_url <- lift (py_getitem repo_data "html_url") ;;
       stars <- lift (py_getitem repo_data "stargazers_count") ;;
       forks <- lift (py_getitem repo_data "forks_count") ;;
       ret (result ++ [JObj [("name", name);
                             ("full_name", full_name);
                             ("url", html_url);
                             ("stars", stars);
                             ("forks", forks)]])%list)
      (fun _ => ret result) s
    = (Ok result', logged s (repo_request C name))
    /\ (result' = result
        \/ exists entry, repo_entry entry
                         /\ result' = (result ++ [entry])%list).
Proof.
  pose proof (make_github_request_logs E C
                (Github.GITHUB_API ++ "/repos/" ++ strip name) None s)
    as Hlog.
  pose proof (request_ends E C
                (Github.GITHUB_API ++ "/repos/" ++ strip name) None s)
    as Hends.
  fold (repo_request C name) in Hlog.
  unfold try_except, bind, lift, ret.
  destruct (Github.make_github_request E C _ None s)
    as [[repo_data|e|] s0]; cbn [snd fst] in Hlog, Hends; subst s0.
  - destruct repo_data as [| | | | |kvs]; cbn [py_getitem];
      repeat match goal with
             | |- context [lookup ?k kvs] => destruct (lookup k kvs)
             end;
      eexists; (split; [reflexivity|]);
      first [now left
            | right; eexists; split; [|reflexivity];
              now eexists _, _, _, _, _].
  - eexists. split; [reflexivity|now left].
  - now destruct Hends.
Qed.

Lemma monitored_loop_runs names :
  forall result s,
    exists added,
      Github.monitored_loop E C names result s
        = (Ok (result ++ added)%list,
           logged_all s (map (repo_request C) (filter nonblank names)))
      /\ (List.length added <= List.length (filter nonblank names))%nat
      /\ Forall repo_entry added.
Proof.
  induction names as [|name rest IH]; intros result s;
    cbn [Github.monitored_loop filter].
  - exists []. split; [|split; [cbn; lia|constructor]].
    unfold ret, logged_all. cbn. rewrite !app_nil_r. now destruct s.
  - fold (nonblank name). destruct (nonblank name); cbn [negb map].
    + destruct (monitored_step name result s) as (result' & Hstep & Hres).
      rewrite (bind_ok _ _ _ _ _ Hstep).
      destruct (IH result' (logged s (repo_request C name)))
        as (added & Hrun & Hlen & Hall).
      rewrite Hrun, logged_all_cons.
      destruct Hres as [->|(entry & Hentry & ->)].
      * exists added. split; [reflexivity|split; [cbn; lia|exact Hall]].
      * exists (entry :: added).
        split; [|split; [cbn; lia|now constructor]].
        now rewrite <- app_assoc.
    + apply IH.
Qed.
End Monitored.

Section MonitoredEntries.
Variable E : env.
Variable C : Github.config.

(** what a request returns, read off the response *)
Lemma request_outcome url params s r :
  network E (List.length (requests s)) (github_request C url params)
    = Response r ->
  match passed_body r with
  | Some j =>
      Github.make_github_request E C url params s
        = (Ok j, logged s (github_request C url params))
  | None =>
      exists e,
        Github.make_github_request E C url params s
          = (Raise e, logged s (github_request C url params))
  end.
Proof.
  intros Hnet.
  rewrite (make_github_request_answered E C url params s r Hnet).
  unfold passed_body, raise_for_status, response_json.
  destruct (Z.eqb_spec (status_code r) 403) as [H403|Hother].
  - replace ((400 <=? status_code r) && (status_code r <? 600))%bool
      with true by (symmetry; rewrite H403; reflexivity).
    cbn [rbind].
    repeat match goal with
           | |- context [match ?x with _ => _ end] => destruct x
           | |- context [if ?b then _ else _] => destruct b
           end; eexists; reflexivity.
  - destruct ((400 <=? status_code r) && (status_code r <? 600))%bool;
      cbn [rbind]; [eexists; reflexivity|].
    destruct (body r); [reflexivity|eexists; reflexivity].
Qed.

(** one monitored name: its request is issued, and its entry, if the
    outcome gives one, is added *)
Lemma monitored_step_exact name result s :
  try_except
    (repo_data <- Github.make_github_request E C
         (Github.GITHUB_API ++ "/repos/" ++ strip name) None ;;
     name <- lift (py_getitem repo_data "name") ;;
     full_name <- lift (py_getitem repo_data "full_name") ;;
     html_url <- lift (py_getitem repo_data "html_url") ;;
     stars <- lift (py_getitem repo_data "stargazers_count") ;;
     forks <- lift (py_getitem repo_data "forks_count") ;;
     ret (result ++ [JObj [("name", name);
                           ("full_name", full_name);
                           ("url", html_url);
                           ("stars", stars);
                           ("forks", forks)]])%list)
    (fun _ => ret result) s
  = (Ok (result
         ++ match answered_entry
                    (network E (List.length (requests s))
                       (repo_request C name)) with
            | Some entry => [entry]
            | None => []
            end)%list,
     logged s (repo_request C name)).
Proof.
  unfold answered_entry, repo_request.
  destruct (network E (List.length (requests s))
              (github_request C
                 (Github.GITHUB_API ++ "/repos/" ++ strip name) None))
    as [why|r] eqn:Hnet.
  - rewrite (try_raise _ _ _ _ _
               (bind_raise _ _ _ _ _
                  (make_github_request_offline E C _ _ _ _ Hnet))).
    unfold ret. now rewrite app_nil_r.
  - pose proof (request_outcome _ _ _ _ Hnet) as Hreq.
    destruct (passed_body r) as [repo_data|].
    + unfold try_except. rewrite (bind_ok _ _ _ _ _ Hreq).
      unfold bind, lift, ret, monitored_entry. cbn [follow].
      destruct repo_data as [| | | | |kvs]; cbn [py_getitem];
        try (now rewrite app_nil_r).
      repeat match goal with
             | |- context [lookup ?k kvs] => destruct (lookup k kvs)
             end;
        try reflexivity; now rewrite app_nil_r.
    + destruct Hreq as (e & Hreq).
      rewrite (try_raise _ _ _ _ _ (bind_raise _ _ _ _ _ Hreq)).
      unfold ret. now rewrite app_nil_r.
Qed.

Lemma logged_length s r :
  List.length (requests (logged s r)) = S (List.length (requests s)).
Proof. unfold logged. cbn. rewrite length_app. cbn. lia. Qed.

Lemma monitored_loop_exact names :
  forall result s,
    Github.monitored_loop E C names result s
      = (Ok (result
             ++ monitored_entries E C (List.length (requests s)) names)%list,
         logged_all s (map (repo_request C) (filter nonblank names))).
Proof.
  induction names as [|name rest IH]; intros result s;
    cbn [Github.monitored_loop filter monitored_entries].
  - unfold ret, logged_all. cbn. rewrite !app_nil_r. now destruct s.
  - fold (nonblank name). destruct (nonblank name); cbn [negb map].
    + rewrite (bind_ok _ _ _ _ _ (monitored_step_exact name result s)).
      rewrite IH, logged_length, logged_all_cons, <- app_assoc.
      now destruct (answered_entry _).
    + apply IH.
Qed.

Lemma monitored_entries_bound names :
  forall i,
    (List.length (monitored_entries E C i names)
     <= List.length (filter nonblank names))%nat.
Proof.
  induction names as [|name rest IH]; intros i;
    cbn [monitored_entries filter]; [cbn; lia|].
  destruct (nonblank name); [|apply IH].
  specialize (IH (S i)).
  destruct (answered_entry _); cbn [List.length]; lia.
Qed.
End MonitoredEntries.

(** X3. [fetch_monitored_repos_data] never fails.  Blank names are
    skipped without a request; every other name costs exactly one
    request, in the order of the list.  The result holds, in that order,
    the entry of each name whose request was answered outside status
    400..599 with a JSON object carrying the five members; a name whose
    request or answer fails is left out and the others are kept. *)
Theorem monitored_repos_never_fail (E : env) (C : Github.config)
    (s : state) :
  Github.fetch_monitored_repos_data E C s
    = (Ok (monitored_entries E C (List.length (requests s))
             (Github.MONITORED_REPOS C)),
       logged_all s
         (map (repo_request C)
            (filter nonblank (Github.MONITORED_REPOS C))))
  /\ (List.length (monitored_entries E C (List.length (requests s))
                     (Github.MONITORED_REPOS C))
      <= List.length (filter nonblank (Github.MONITORED_REPOS C)))%nat.
Proof.
  unfold Github.fetch_monitored_repos_data. split.
  - now rewrite monitored_loop_exact.
  - apply monitored_entries_bound.
Qed.

(** ** The stars received *)

Section StarsReceived.
Variable E : env.
Variable C : Github.config.

Lemma sum_stars_counted repos :
  forall acc,
    Forall (fun repo => star_count repo <> None) repos ->
    Github.sum_stars acc repos = Ok (JNum (acc + total_stars repos)).
Proof.
  induction repos as [|repo rest IH]; intros acc Hall;
    cbn [Github.sum_stars total_stars].
  - now rewrite Z.add_0_r.
  - inversion Hall as [|? ? Hrepo Hrest]; subst.
    unfold star_count in Hrepo |- *. cbn [follow] in Hrepo |- *.
    destruct repo as [| | | | |kvs]; try (now destruct Hrepo).
    cbn [py_getitem].
    destruct (lookup "stargazers_count" kvs) as [v|];
      [|now destruct Hrepo].
    destruct (num_of v) as [n|]; [|now destruct Hrepo].
    rewrite IH by assumption. now rewrite Z.add_assoc.
Qed.

Lemma sum_stars_uncounted counted repo rest :
  forall acc,
    Forall (fun repo => star_count repo <> None) counted ->
    star_count repo = None ->
    Github.sum_stars acc (counted ++ repo :: rest)
      = Raise (if lacks_member "stargazers_count" repo
               then KeyError "stargazers_count" else TypeError).
Proof.
  induction counted as [|first more IH]; intros acc Hall Hrepo;
    cbn [app Github.sum_stars].
  - unfold star_count in Hrepo. cbn [follow] in Hrepo.
    destruct repo as [| | | | |kvs]; cbn [py_getitem lacks_member];
      try reflexivity.
    destruct (lookup "stargazers_count" kvs) as [v|]; [|reflexivity].
    now rewrite Hrepo.
  - inversion Hall as [|? ? Hfirst Hmore]; subst.
    unfold star_count in Hfirst. cbn [follow] in Hfirst.
    destruct first as [| | | | |kvs]; try (now destruct Hfirst).
    cbn [py_getitem].
    destruct (lookup "stargazers_count" kvs) as [v|];
      [|now destruct Hfirst].
    destruct (num_of v) as [n|]; [|now destruct Hfirst].
    now apply IH.
Qed.
End StarsReceived.

(** X4. When the repository list is served in pages of 100 and every
    repository carries a numeric "stargazers_count",
    [fetch_stars_received] returns the sum of the counts over all the
    pages. *)
Theorem stars_received_is_total (E : env) (C : Github.config)
    (l : list json) (fuel : nat) (s : state) :
  serves_pages E C l ->
  (full_pages (List.length l) < fuel)%nat ->
  Forall (fun repo => star_count repo <> None) l ->
  fst (Github.fetch_stars_received E C fuel s) = Ok (JNum (total_stars l)).
Proof.
  intros Hserved Hfuel Hall.
  unfold Github.fetch_stars_received, Github.fetch_repos_data.
  pose proof (fetch_repos_loop_pages E C l Hserved fuel l [] 1 s
                (le_n 1) eq_refl Hfuel) as Hrun.
  cbn [app Z.of_nat Pos.of_succ_nat] in Hrun.
  rewrite (bind_ok _ _ _ _ _ Hrun). unfold lift. cbn [fst].
  now rewrite (sum_stars_counted l 0 Hall).
Qed.

(** X5. One repository without a numeric "stargazers_count" makes
    [fetch_stars_received] fail: with [KeyError] when it is an object
    that lacks the member, with [TypeError] otherwise (it is not an
    object, or the member is not a number).  No partial sum is
    returned. *)
Theorem stars_received_needs_every_count (E : env) (C : Github.config)
    (counted : list json) (repo : json) (rest : list json)
    (fuel : nat) (s : state) :
  serves_pages E C (counted ++ repo :: rest) ->
  (full_pages (List.length (counted ++ repo :: rest)) < fuel)%nat ->
  Forall (fun repo => star_count repo <> None) counted ->
  star_count repo = None ->
  fst (Github.fetch_stars_received E C fuel s)
    = Raise (if lacks_member "stargazers_count" repo
             then KeyError "stargazers_count" else TypeError).
Proof.
  intros Hserved Hfuel Hall Hrepo.
  unfold Github.fetch_stars_received, Github.fetch_repos_data.
  pose proof (fetch_repos_loop_pages E C _ Hserved fuel _ [] 1 s
                (le_n 1) eq_refl Hfuel) as Hrun.
  cbn [app Z.of_nat Pos.of_succ_nat] in Hrun.
  rewrite (bind_ok _ _ _ _ _ Hrun). unfold lift. cbn [fst].
  exact (sum_stars_uncounted counted repo rest 0 Hall Hrepo).
Qed.

(** ** A listing that never ends *)

(** X6. The pagination loop has no bound of its own: when every page
    request is answered below status 400 with the same non-empty page,
    [fetch_repos_data] never returns; it has issued as many requests as
    it was given turns. *)
Theorem pagination_without_end (E : env) (C : Github.config)
    (r : response) (repo : json) (page : list json) :
  (forall i p, network E i (page_request C p) = Response r) ->
  status_code r < 400 ->
  body r = BodyJson (JArr (repo :: page)) ->
  forall fuel s,
    Github.fetch_repos_data E C fuel s
      = (Diverge, logged_all s (map (page_request C) (seq 1 fuel))).
Proof.
  intros Hnet Hstatus Hbody fuel s.
  unfold Github.fetch_repos_data.
  change 1 with (Z.of_nat 1) at 1.
  generalize (@nil json) as acc. generalize 1%nat as p. revert s.
  induction fuel as [|fuel IH]; intros s p acc; cbn [Github.fetch_repos_loop].
  - unfold lift, logged_all. cbn. rewrite app_nil_r. now destruct s.
  - pose proof (request_passes E C (Github.REPOS_ENDPOINT C)
                  (Some [("page", JNum (Z.of_nat p)); ("per_page", JNum 100)])
                  s r (Hnet _ p) Hstatus) as Hreq.
    unfold response_json in Hreq. rewrite Hbody in Hreq.
    rewrite (bind_ok _ _ _ _ _ Hreq). cbn [truthy negb].
    unfold bind, lift. cbn [py_iter].
    replace (Z.of_nat p + 1) with (Z.of_nat (S p)) by lia.
    fold (page_request C p). rewrite IH, logged_all_cons. reflexivity.
Qed.

(** ** A request that is answered *)

(** X7. A request is sent with the "Authorization" header exactly when
    [GITHUB_TOKEN] is not empty.  A response below status 400 (the
    informational and redirection statuses included) is not an error:
    the request returns its JSON body, and raises a decoding error when
    the body is not JSON; either way exactly that one request has been
    issued. *)
Theorem request_returns_body (E : env) (C : Github.config)
    (url : string) (params : option (list (string * json)))
    (s : state) (r : response) :
  network E (List.length (requests s)) (github_request C url params)
    = Response r ->
  status_code r < 400 ->
  (In ("Authorization", "token " ++ Github.GITHUB_TOKEN C)
      (req_headers (github_request C url params))
   <-> Github.GITHUB_TOKEN C <> "")
  /\ (forall j, body r = BodyJson j ->
        Github.make_github_request E C url params s
          = (Ok j, logged s (github_request C url params)))
  /\ (forall t, body r = BodyText t ->
        Github.make_github_request E C url params s
          = (Raise JSONDecodeError, logged s (github_request C url params))).
Proof.
  intros Hnet Hstatus. split; [|split].
  - unfold github_request. cbn [req_headers truthy].
    destruct (String.eqb_spec (Github.GITHUB_TOKEN C) "") as [Hempty|Hfull];
      cbn [negb]; split.
    + intros [H|[]]. discriminate H.
    + intros H. now destruct H.
    + intros _. exact Hfull.
    + intros _. right. now left.
  - intros j Hbody. rewrite (request_passes E C url params s r Hnet Hstatus).
    unfold response_json. now rewrite Hbody.
  - intros t Hbody. rewrite (request_passes E C url params s r Hnet Hstatus).
    unfold response_json. now rewrite Hbody.
Qed.

(** X8. When the request for the user's profile fails, the live fetch
    stops there: the failure comes out as it is and no other request has
    been issued. *)
Theorem profile_failure_stops_fetch (E : env) (C : Github.config)
    (fuel : nat) (s : state) (e : exn) (s1 : state) :
  Github.fetch_user_data E C s = (Raise e, s1) ->
  Github.fetch_from_api E C fuel s = (Raise e, logged s (user_request C)).
Proof.
  intros H.
  pose proof (make_github_request_logs E C (Github.USER_ENDPOINT C) None s)
    as Hlog.
  unfold Github.fetch_user_data in H. rewrite H in Hlog. cbn [snd] in Hlog.
  subst s1. unfold Github.fetch_from_api, Github.fetch_user_data.
  now apply bind_raise.
Qed.

(** ** The age of a star *)

(** X9. The age shown for a star: whole days from one day on, whole
    hours from one hour on, whole minutes below (always under 60).  A
    date up to one day in the future is shown as the age of the same
    moment one day earlier, so a star dated one minute ahead reads as 23
    hours old. *)
Theorem time_str_buckets (E : env) (d : Z) :
  (86400 <= d ->
   Github.time_str E d = str_int E (d / 86400) ++ "d ago" /\ 1 <= d / 86400)
  /\ (3600 <= d < 86400 ->
      Github.time_str E d = str_int E (d / 3600) ++ "h ago"
      /\ 1 <= d / 3600 < 24)
  /\ (0 <= d < 3600 ->
      Github.time_str E d = str_int E (d / 60) ++ "m ago"
      /\ 0 <= d / 60 < 60)
  /\ (-86400 <= d < 0 ->
      Github.time_str E d = Github.time_str E (d + 86400)).
Proof.
  unfold Github.time_str. repeat split.
  - destruct (Z.gtb_spec (d / 86400) 0) as [|Hdays]; [reflexivity|].
    assert (1 <= d / 86400) by (apply Z.div_le_lower_bound; lia). lia.
  - apply Z.div_le_lower_bound; lia.
  - assert (d / 86400 = 0) as -> by (apply Z.div_small; lia).
    rewrite (Z.mod_small d 86400) by lia. cbn [Z.gtb Z.compare].
    destruct (Z.gtb_spec (d / 3600) 0) as [|Hhours]; [reflexivity|].
    assert (1 <= d / 3600) by (apply Z.div_le_lower_bound; lia). lia.
  - apply Z.div_le_lower_bound; lia.
  - apply Z.div_lt_upper_bound; lia.
  - assert (d / 86400 = 0) as -> by (apply Z.div_small; lia).
    rewrite (Z.mod_small d 86400) by lia. cbn [Z.gtb Z.compare].
    assert (d / 3600 = 0) as -> by (apply Z.div_small; lia).
    reflexivity.
  - apply Z.div_le_lower_bound; lia.
  - apply Z.div_lt_upper_bound; lia.
  - intros Hd.
    assert (d / 86400 = -1) as Hdiv.
    { symmetry. apply (Z.div_unique d 86400 (-1) (d + 86400)); lia. }
    assert (d mod 86400 = d + 86400) as Hmod.
    { symmetry. apply (Z.mod_unique d 86400 (-1) (d + 86400)); lia. }
    assert ((d + 86400) / 86400 = 0) as Hdiv' by (apply Z.div_small; lia).
    rewrite Hdiv, Hmod, Hdiv', (Z.mod_small (d + 86400) 86400) by lia.
    reflexivity.
Qed.

(** ** Writes that fail *)

(** X10. [save_cache] swallows a failed write.  When the file cannot be
    opened it is left as it was; when the dump fails after the file was
    opened the file is left torn, and the next [load_cache] treats it as
    no cache at all. *)
Theorem failed_write_is_swallowed (E : env) (W : Z) (d : json)
    (s : state) :
  (disk E = OpenFails -> save_cache E d s = (Ok tt, tick s))
  /\ (disk E = DumpFails ->
      exists s1, save_cache E d s = (Ok tt, s1)
                 /\ file s1 = Garbage
                 /\ load_cache E W s1 = (Ok JNull, s1)).
Proof.
  split; intros Hdisk.
  - destruct s as [f t rq out].
    unfold save_cache, try_except, bind, time_time, write_json_file, ret,
      tick.
    cbn. now rewrite Hdisk.
  - destruct s as [f t rq out]. eexists. split; [|split].
    + unfold save_cache, try_except, bind, time_time, write_json_file, ret.
      cbn. rewrite Hdisk. reflexivity.
    + reflexivity.
    + now apply load_cache_garbage.
Qed.

(** * Further properties of the citation script *)

Section ScholarRuns.
Variable E : env.
Variable C : Scholar.config.

(** the shape of every record that the live fetch returns *)
Lemma scholar_fetch_result s r s' :
  Scholar.fetch_from_api E C s = (Ok r, s') ->
  (exists name citations h_index i10_index this_year,
      r = JObj [("name", name);
                ("citations", citations);
                ("h_index", h_index);
                ("i10_index", i10_index);
                ("current_year_citations", this_year);
                ("last_updated", JStr (strftime E (clock E (ticks s))))])
  /\ s' = tick (tick (logged s (Scholar.scholar_request C))).
Proof.
  unfold Scholar.fetch_from_api. intros H.
  apply bind_ok_inv in H as (response & s1 & Hget & H).
  assert (s1 = logged s (Scholar.scholar_request C)) as ->.
  { pose proof (scholar_request_logs E C s) as Hlog.
    now rewrite Hget in Hlog. }
  apply bind_ok_inv in H as (data & s2 & Hdata & H).
  apply lift_ok_inv in Hdata as [_ ->].
  apply bind_ok_inv in H as (has_error & s2 & Herr & H).
  apply lift_ok_inv in Herr as [_ ->].
  apply bind_ok_inv in H as ([] & s2 & Hcheck & H).
  assert (s2 = logged s (Scholar.scholar_request C)) as ->.
  { destruct has_error; [|now injection Hcheck as ->].
    apply bind_ok_inv in Hcheck as (err & s3 & _ & Hraise).
    discriminate Hraise. }
  apply bind_ok_inv in H as (now & s2 & Hnow & H).
  injection Hnow as <- <-.
  apply bind_ok_inv in H as (name & s2 & Hname & H).
  apply lift_ok_inv in Hname as [_ ->].
  apply bind_ok_inv in H as ([[citations h_index] i10_index] & s2 & Hstats & H).
  apply lift_ok_inv in Hstats as [_ ->].
  apply bind_ok_inv in H as (now' & s2 & Hnow' & H).
  injection Hnow' as <- <-.
  apply bind_ok_inv in H as (this_year & s2 & Hyear & H).
  apply lift_ok_inv in Hyear as [_ ->].
  injection H as <- <-.
  split; [|reflexivity].
  now exists name, citations, h_index, i10_index, this_year.
Qed.

(** the live fetch returns or raises: it holds no loop *)
Lemma scholar_fetch_ends s :
  fst (Scholar.fetch_from_api E C s) <> Diverge.
Proof.
  assert (forall A (r : res A) (P : Prop),
             (forall a, r = Ok a -> P) -> (forall e, r = Raise e -> P) ->
             r <> Diverge -> P) as Hcases.
  { intros A r P Hok Hraise Hdiv.
    destruct r; [now eapply Hok|now eapply Hraise|now destruct Hdiv]. }
  assert (forall k v, py_in k v <> Diverge) as Hin
      by (intros k v; destruct v; discriminate).
  assert (forall d k, py_getitem d k <> Diverge) as Hitem
      by (intros d k; destruct d; cbn; try discriminate;
          destruct (lookup k kvs); discriminate).
  assert (forall d k v, py_get d k v <> Diverge) as Hget
      by (intros d k v; destruct d; discriminate).
  assert (forall v, py_len v <> Diverge) as Hlen
      by (intros v; destruct v; discriminate).
  assert (forall v, py_iter v <> Diverge) as Hiter
      by (intros v; destruct v; discriminate).
  assert (forall v i, py_index v i <> Diverge) as Hindex.
  { intros v i. destruct v; cbn; try discriminate.
    - destruct (String.get i s0); discriminate.
    - destruct (nth_error l i); discriminate. }
  assert (forall A B (r : res A) (k : A -> res B),
             r <> Diverge -> (forall a, k a <> Diverge) ->
             rbind r k <> Diverge) as Hbind.
  { intros A B r k Hr Hk. destruct r; cbn; [apply Hk|discriminate|].
    now destruct Hr. }
  assert (forall data, Scholar.author_name data <> Diverge) as Hauthor.
  { intros data. unfold Scholar.author_name.
    repeat first [ apply Hbind; [|intros ?] | apply Hin | apply Hitem
                 | discriminate
                 | match goal with
                   | |- (if ?b then _ else _) <> _ => destruct b
                   end ]. }
  assert (forall t i k, Scholar.table_stat t i k <> Diverge) as Hstat.
  { intros t i k. unfold Scholar.table_stat.
    repeat first [ apply Hbind; [|intros ?] | apply Hin | apply Hitem
                 | apply Hlen | apply Hindex | discriminate
                 | match goal with
                   | |- (if ?b then _ else _) <> _ => destruct b
                   end ]. }
  assert (forall data, Scholar.table_stats data <> Diverge) as Hstats.
  { intros data. unfold Scholar.table_stats.
    repeat first [ apply Hstat | apply Hbind; [|intros ?] | apply Hin
                 | apply Hitem | discriminate
                 | match goal with
                   | |- (if ?b then _ else _) <> _ => destruct b
                   end ]. }
  assert (forall y graph, Scholar.graph_loop y graph <> Diverge) as Hloop.
  { intros y graph. induction graph as [|year_data rest IH]; cbn;
      [discriminate|].
    apply Hbind; [apply Hget|]. intros v.
    destruct (py_eq_int v y); [apply Hget|exact IH]. }
  assert (forall y data, Scholar.current_year_citations y data <> Diverge)
    as Hyear.
  { intros y data. unfold Scholar.current_year_citations.
    repeat first [ apply Hloop | apply Hbind; [|intros ?] | apply Hin
                 | apply Hitem | apply Hiter | discriminate
                 | match goal with
                   | |- (if ?b then _ else _) <> _ => destruct b
                   end ]. }
  unfold Scholar.fetch_from_api, bind, requests_get, lift, datetime_now,
    time_time, ret, raise.
  destruct (network E _ _) as [why|response]; cbn; [discriminate|].
  destruct (response_json response) as [data| |] eqn:Hjson; cbn;
    try discriminate.
  2:{ unfold response_json in Hjson. destruct (body response); discriminate. }
  apply (Hcases _ (py_in "error" data)); [| |apply Hin].
  2:{ intros e ->. discriminate. }
  intros has_error ->. cbn.
  destruct has_error.
  { apply (Hcases _ (py_getitem data "error")); [| |apply Hitem];
      intros ? ->; cbn; discriminate. }
  cbn.
  apply (Hcases _ (Scholar.author_name data)); [| |apply Hauthor].
  2:{ intros e ->. discriminate. }
  intros name ->. cbn.
  apply (Hcases _ (Scholar.table_stats data)); [| |apply Hstats].
  2:{ intros e ->. discriminate. }
  intros [[c h] i] ->. cbn.
  match goal with
  | |- context [Scholar.current_year_citations ?y data] =>
      apply (Hcases _ (Scholar.current_year_citations y data));
        [| |apply Hyear]
  end; intros ? ->; cbn; discriminate.
Qed.
End ScholarRuns.

Section ScholarRender.
Variable E : env.
Variable C : Scholar.config.

(** the renderer on an object: the first missing field, or a menu *)
Lemma scholar_render_cases kvs s :
  match first_missing scholar_fields kvs with
  | Some k =>
      Scholar.format_xbar_output E C (JObj kvs) s = (Raise (KeyError k), s)
  | None =>
      exists out,
        Scholar.format_xbar_output E C (JObj kvs) s = (Ok out, s)
  end.
Proof.
  unfold Scholar.format_xbar_output, bind, lift, ret, scholar_fields.
  cbn [py_getitem py_get first_missing].
  destruct (lookup "name" kvs); [|reflexivity].
  destruct (lookup "citations" kvs); [|reflexivity].
  destruct (lookup "h_index" kvs); [|reflexivity].
  destruct (lookup "i10_index" kvs); [|reflexivity].
  destruct (lookup "current_year_citations" kvs); [|reflexivity].
  eexists. reflexivity.
Qed.

(** a failed run of the orchestrator was a miss followed by a failed
    live fetch, which left the cache file and the output alone *)
Lemma scholar_failed_fetch_was_miss s e s1 :
  Scholar.fetch_scholar_data E C s = (Raise e, s1) ->
  exists d s0,
    Scholar.load_cache E s = (Ok d, s0) /\ truthy d = false
    /\ file s1 = file s /\ stdout s1 = stdout s
    /\ (ticks s <= ticks s1)%nat.
Proof.
  intros Hfetch.
  destruct (load_cache_returns E Scholar.CACHE_EXPIRATION s)
    as (d & s0 & Hload & Hs0).
  exists d, s0. split; [exact Hload|].
  destruct (truthy d) eqn:Hd.
  - rewrite (scholar_hit E C s d s0 Hload Hd) in Hfetch.
    discriminate Hfetch.
  - split; [reflexivity|].
    rewrite (scholar_miss E C s d s0 Hload Hd) in Hfetch.
    destruct (live_outcome E (Scholar.fetch_from_api E C) s0)
      as (Hraise & Hdiv & Hok).
    destruct (scholar_fetch_one_request E C s0) as (Hf & Ho & Ht & _).
    unfold scholar_live, Scholar.save_cache in Hfetch.
    destruct (Scholar.fetch_from_api E C s0) as [[r|e'|] s2] eqn:Hapi;
      cbn [snd] in *.
    + rewrite (Hok r s2 eq_refl) in Hfetch. discriminate Hfetch.
    + rewrite (Hraise e' s2 eq_refl) in Hfetch.
      injection Hfetch as _ Hs. subst s2.
      destruct Hs0 as [Hs0|Hs0]; subst s0; cbn in *;
        repeat split; auto; lia.
    + rewrite (Hdiv eq_refl) in Hfetch. discriminate Hfetch.
Qed.

(** on a miss the orchestrator returns what the live fetch returns *)
Lemma scholar_miss_result s d s0 r s1 :
  Scholar.load_cache E s = (Ok d, s0) -> truthy d = false ->
  Scholar.fetch_scholar_data E C s = (Ok r, s1) ->
  exists s2, Scholar.fetch_from_api E C s0 = (Ok r, s2)
             /\ s1 = snd (save_cache E r s2).
Proof.
  intros Hload Hd Hfetch.
  rewrite (scholar_miss E C s d s0 Hload Hd) in Hfetch.
  destruct (live_outcome E (Scholar.fetch_from_api E C) s0)
    as (Hraise & Hdiv & Hok).
  unfold scholar_live, Scholar.save_cache in Hfetch.
  destruct (Scholar.fetch_from_api E C s0) as [[r'|e'|] s2] eqn:Hapi;
    cbn [snd] in *.
  - rewrite (Hok r' s2 eq_refl) in Hfetch. injection Hfetch as -> <-.
    now exists s2.
  - rewrite (Hraise e' s2 eq_refl) in Hfetch. discriminate Hfetch.
  - rewrite (Hdiv eq_refl) in Hfetch. discriminate Hfetch.
Qed.

(** every fetched record is rendered *)
Lemma scholar_fetched_renders s r s' s2 :
  Scholar.fetch_from_api E C s = (Ok r, s') ->
  truthy r = true
  /\ exists out, Scholar.format_xbar_output E C r s2 = (Ok out, s2).
Proof.
  intros H.
  destruct (scholar_fetch_result E C s r s' H)
    as ((name & citations & h_index & i10_index & this_year & ->) & _).
  split; [reflexivity|]. eexists. reflexivity.
Qed.
End ScholarRender.

(** a cache entry within the window is what [load_cache] returns *)
Lemma written_entry_is_loaded (E : env) (W : Z) (s : state) (t : Z)
    (r : json) :
  file s = written_entry t r ->
  clock E (ticks s) - t <= W ->
  load_cache E W s = (Ok r, tick s).
Proof.
  intros Hfile Hfresh. unfold written_entry in Hfile.
  rewrite (load_cache_object E W s _ Hfile). cbn.
  destruct (Z.gtb_spec (clock E (ticks s) - t) W); [lia|reflexivity].
Qed.

(** X11. The renderer of the citation script needs the five fields it
    indexes: on an object it raises [KeyError] naming the first of name,
    citations, h_index, i10_index, current_year_citations that is
    missing, and returns a menu when none is ("last_updated" is
    optional); on a payload that is not an object it raises
    [TypeError].  It never touches the state. *)
Theorem scholar_render_needs_fields (E : env) (C : Scholar.config)
    (data : json) (s : state) :
  (forall kvs k, data = JObj kvs ->
     first_missing scholar_fields kvs = Some k ->
     Scholar.format_xbar_output E C data s = (Raise (KeyError k), s))
  /\ (forall kvs, data = JObj kvs ->
        first_missing scholar_fields kvs = None ->
        exists out, Scholar.format_xbar_output E C data s = (Ok out, s))
  /\ ((forall kvs, data <> JObj kvs) ->
      Scholar.format_xbar_output E C data s = (Raise TypeError, s)).
Proof.
  repeat split.
  - intros kvs k -> Hmissing.
    pose proof (scholar_render_cases E C kvs s) as H.
    now rewrite Hmissing in H.
  - intros kvs -> Hnone.
    pose proof (scholar_render_cases E C kvs s) as H.
    now rewrite Hnone in H.
  - intros Hdata. destruct data; try reflexivity. now destruct (Hdata kvs).
Qed.

(** X12. Every record that the live fetch of the citation script returns
    has the six fields name, citations, h_index, i10_index,
    current_year_citations and last_updated, in that order, whatever
    the body of the response was; it is truthy, and the renderer accepts
    it in every state. *)
Theorem scholar_record_is_complete (E : env) (C : Scholar.config)
    (s : state) (r : json) (s' : state) :
  Scholar.fetch_from_api E C s = (Ok r, s') ->
  (exists kvs, r = JObj kvs
               /\ map fst kvs = ["name"; "citations"; "h_index"; "i10_index";
                                 "current_year_citations"; "last_updated"]
               /\ lookup "last_updated" kvs
                  = Some (JStr (strftime E (clock E (ticks s)))))
  /\ truthy r = true
  /\ forall s2,
       exists out, Scholar.format_xbar_output E C r s2 = (Ok out, s2).
Proof.
  intros H. split; [|split].
  - destruct (scholar_fetch_result E C s r s' H)
      as ((name & citations & h_index & i10_index & this_year & ->) & _).
    eexists. split; [reflexivity|]. split; reflexivity.
  - apply (scholar_fetched_renders E C s r s' s H).
  - intros s2. apply (scholar_fetched_renders E C s r s' s2 H).
Qed.

(** X13. On a clock that does not run backwards, a run of the citation
    script that finds no cached payload always ends with exit status 0:
    when the orchestrator returns a record, the menu of that record is
    the one thing printed; when it fails, the error menu is printed and
    the cache file is as it was. *)
Theorem scholar_miss_ends_well (E : env) (C : Scholar.config)
    (s : state) (d : json) (s0 : state) :
  monotone (clock E) ->
  Scholar.load_cache E s = (Ok d, s0) ->
  truthy d = false ->
  exit_code (fst (Scholar.main E C s)) = Some 0
  /\ (forall r s1,
        Scholar.fetch_scholar_data E C s = (Ok r, s1) ->
        exists out,
          Scholar.format_xbar_output E C r s1 = (Ok out, s1)
          /\ Scholar.main E C s = (Ok tt, printed s1 [out]))
  /\ (forall e s1,
        Scholar.fetch_scholar_data E C s = (Raise e, s1) ->
        exists s2,
          Scholar.main E C s
            = (Ok tt, printed s2 (scholar_error_view E e))
          /\ file s2 = file s /\ stdout s2 = stdout s).
Proof.
  intros Hclock Hload Hd.
  assert (forall r s1,
             Scholar.fetch_scholar_data E C s = (Ok r, s1) ->
             exists out,
               Scholar.format_xbar_output E C r s1 = (Ok out, s1)
               /\ Scholar.main E C s = (Ok tt, printed s1 [out])) as Hok.
  { intros r s1 Hfetch.
    destruct (scholar_miss_result E C s d s0 r s1 Hload Hd Hfetch)
      as (s2 & Hapi & _).
    destruct (scholar_fetched_renders E C s0 r s2 s1 Hapi)
      as (_ & out & Hout).
    exists out. split; [exact Hout|].
    unfold Scholar.main, try_except.
    rewrite (bind_ok _ _ _ _ _ Hfetch), (bind_ok _ _ _ _ _ Hout).
    reflexivity. }
  assert (forall e s1,
             Scholar.fetch_scholar_data E C s = (Raise e, s1) ->
             exists s2,
               Scholar.main E C s
                 = (Ok tt, printed s2 (scholar_error_view E e))
               /\ file s2 = file s /\ stdout s2 = stdout s) as Hraise.
  { intros e s1 Hfetch.
    destruct (scholar_failed_fetch_was_miss E C s e s1 Hfetch)
      as (d' & s0' & Hload' & Hd' & Hfile & Hout & Hticks).
    destruct (load_cache_still_falsy E Hclock Scholar.CACHE_EXPIRATION
                s s1 d' s0' Hload' Hd' Hfile Hticks) as (d2 & Hload2 & Hd2).
    exists (snd (load_cache E Scholar.CACHE_EXPIRATION s1)).
    destruct (load_cache_keeps_requests E Scholar.CACHE_EXPIRATION s1)
      as [_ Hfile2].
    split; [|split].
    - unfold Scholar.main.
      rewrite (try_raise _ _ _ _ _ (bind_raise _ _ _ _ _ Hfetch)).
      unfold Scholar.load_cache.
      rewrite (bind_ok _ _ _ _ _ Hload2), Hd2.
      unfold bind, print, printed, scholar_error_view. cbn.
      repeat rewrite <- app_assoc. reflexivity.
    - congruence.
    - destruct (load_cache_returns E Scholar.CACHE_EXPIRATION s1)
        as (v & s' & H & [Hs|Hs]); rewrite H; subst s'; cbn; exact Hout. }
  split; [|split; assumption].
  destruct (Scholar.fetch_scholar_data E C s) as [[r|e|] s1] eqn:Hfetch.
  - destruct (Hok r s1 eq_refl) as (out & _ & Hmain). now rewrite Hmain.
  - destruct (Hraise e s1 eq_refl) as (s2 & Hmain & _). now rewrite Hmain.
  - exfalso.
    rewrite (scholar_miss E C s d s0 Hload Hd) in Hfetch.
    destruct (live_outcome E (Scholar.fetch_from_api E C) s0)
      as (Hr & _ & Hk).
    pose proof (scholar_fetch_ends E C s0) as Hends.
    unfold scholar_live, Scholar.save_cache in Hfetch.
    destruct (Scholar.fetch_from_api E C s0) as [[r|e|] s2];
      cbn [fst] in Hends.
    + rewrite (Hk r s2 eq_refl) in Hfetch. discriminate Hfetch.
    + rewrite (Hr e s2 eq_refl) in Hfetch. discriminate Hfetch.
    + now destruct Hends.
Qed.

(** X14. With a fresh cache entry whose timestamp is a number in the
    range of a float and whose payload is an object holding the five
    rendered fields, the citation script prints the menu of the cached
    record and nothing else, issues no request, leaves the cache file
    alone and ends with exit status 0. *)
Theorem scholar_hit_renders_cache (E : env) (C : Scholar.config)
    (s : state) (t : Z) (kvs : list (string * json)) :
  well_formed_entry (file s) t (JObj kvs) ->
  float_range t ->
  clock E (ticks s) - t <= Scholar.CACHE_EXPIRATION ->
  first_missing scholar_fields kvs = None ->
  exists out,
    Scholar.format_xbar_output E C (JObj kvs) (tick s) = (Ok out, tick s)
    /\ Scholar.main E C s = (Ok tt, printed (tick s) [out])
    /\ requests (printed (tick s) [out]) = requests s
    /\ file (printed (tick s) [out]) = file s
    /\ exit_code (fst (Scholar.main E C s)) = Some 0.
Proof.
  intros (ekvs & Hfile & (v & Hts & Hnum) & Hdata) _ Hfresh Hfields.
  assert (Scholar.load_cache E s = (Ok (JObj kvs), tick s)) as Hload.
  { unfold Scholar.load_cache.
    rewrite (load_cache_object E _ s ekvs Hfile).
    unfold entry_timestamp, entry_data. rewrite Hts, Hnum, Hdata.
    destruct (Z.gtb_spec (clock E (ticks s) - t) Scholar.CACHE_EXPIRATION);
      [lia|reflexivity]. }
  assert (truthy (JObj kvs) = true) as Htruthy.
  { destruct kvs; [discriminate Hfields|reflexivity]. }
  pose proof (scholar_render_cases E C kvs (tick s)) as Hrender.
  rewrite Hfields in Hrender. destruct Hrender as (out & Hout).
  assert (Scholar.main E C s = (Ok tt, printed (tick s) [out])) as Hmain.
  { unfold Scholar.main, try_except.
    rewrite (bind_ok _ _ _ _ _
               (scholar_hit E C s _ _ Hload Htruthy)),
      (bind_ok _ _ _ _ _ Hout).
    reflexivity. }
  exists out. split; [exact Hout|]. split; [exact Hmain|].
  split; [reflexivity|]. split; [reflexivity|].
  now rewrite Hmain.
Qed.

(** X15. After a live fetch of the citation script whose write went
    through, the cache file holds the returned record, and any later
    run that starts from that file within the window returns the same
    record from the cache, with no request. *)
Theorem scholar_next_run_hits (E : env) (C : Scholar.config)
    (s : state) (d : json) (s0 : state) (r : json) (s1 : state) :
  disk E = WriteOk ->
  Scholar.load_cache E s = (Ok d, s0) ->
  truthy d = false ->
  Scholar.fetch_scholar_data E C s = (Ok r, s1) ->
  exists t,
    file s1 = written_entry t r
    /\ forall E' C' s',
         file s' = file s1 ->
         clock E' (ticks s') - t <= Scholar.CACHE_EXPIRATION ->
         Scholar.fetch_scholar_data E' C' s' = (Ok r, tick s')
         /\ requests (tick s') = requests s'.
Proof.
  intros Hdisk Hload Hd Hfetch.
  destruct (scholar_miss_result E C s d s0 r s1 Hload Hd Hfetch)
    as (s2 & Hapi & ->).
  destruct (scholar_fetched_renders E C s0 r s2 s2 Hapi) as (Htruthy & _).
  exists (clock E (ticks s2)). split; [now apply written_through|].
  intros E' C' s' Hfile Hfresh. split; [|reflexivity].
  apply scholar_hit; [|exact Htruthy].
  unfold Scholar.load_cache. apply written_entry_is_loaded with (t := clock E (ticks s2));
    [|exact Hfresh].
  rewrite Hfile. now apply written_through.
Qed.

(** * The menu of the code-hosting script *)

Section GithubRender.
Variable E : env.
Variable C : Github.config.

Lemma ticked_tick n s : ticked n (tick s) = ticked (S n) s.
Proof. unfold ticked, tick. cbn. f_equal. lia. Qed.

Lemma ticked_zero s : ticked 0 s = s.
Proof. now destruct s. Qed.

(** one line per monitored repository *)
Lemma monitored_lines_entries repos :
  Forall repo_entry repos ->
  forall dropdown s,
    exists lines,
      Github.monitored_lines E repos dropdown s
        = (Ok (dropdown ++ lines)%list, s)
      /\ List.length lines = List.length repos.
Proof.
  induction 1 as [|repo rest Hrepo _ IH]; intros dropdown s;
    cbn [Github.monitored_lines].
  - exists []. now rewrite app_nil_r.
  - destruct Hrepo as (name & full_name & url & stars & forks & ->).
    unfold bind, lift. cbn [py_getitem lookup String.eqb Ascii.eqb Bool.eqb].
    match goal with
    | |- context [Github.monitored_lines E rest (?d ++ [?l])%list s] =>
        destruct (IH (d ++ [l])%list s) as (lines & Hrun & Hlen);
          exists (l :: lines)
    end.
    rewrite Hrun, <- app_assoc. split; [reflexivity|cbn; lia].
Qed.

(** one line and one reading of the clock per recent star *)
Lemma star_lines_entries stars :
  Forall star_entry stars ->
  Forall (dated E) stars ->
  forall dropdown s,
    exists lines,
      Github.star_lines E stars dropdown s
        = (Ok (dropdown ++ lines)%list, ticked (List.length stars) s)
      /\ List.length lines = List.length stars.
Proof.
  induction 1 as [|star rest Hstar _ IH]; intros Hdated dropdown s;
    cbn [Github.star_lines].
  - exists []. now rewrite app_nil_r, ticked_zero.
  - inversion Hdated as [|? ? (t & d & Htime & Hparse) Hrest]; subst.
    destruct Hstar as (actor & repo_name & repo_url & time & ->).
    cbn in Htime. injection Htime as ->.
    unfold bind, lift, datetime_now, time_time, Github.parse_time.
    cbn [py_getitem lookup String.eqb Ascii.eqb Bool.eqb].
    rewrite Hparse.
    match goal with
    | |- context [Github.star_lines E rest (?d ++ [?l])%list ?s1] =>
        destruct (IH Hrest (d ++ [l])%list s1) as (lines & Hrun & Hlen);
          exists (l :: lines)
    end.
    rewrite Hrun, <- app_assoc. fold (tick s). rewrite ticked_tick.
    split; [reflexivity|cbn; lia].
Qed.

(** the renderer stops at the first field that the record lacks *)
Lemma github_render_missing kvs k s :
  first_missing github_fields kvs = Some k ->
  Github.format_xbar_output E (JObj kvs) s = (Raise (KeyError k), s).
Proof.
  unfold Github.format_xbar_output, bind, lift, github_fields.
  cbn [py_getitem py_get first_missing].
  destruct (lookup "username" kvs); [|now intros [= <-]].
  destruct (lookup "name" kvs); [|now intros [= <-]].
  destruct (lookup "stars_received" kvs); [|now intros [= <-]].
  destruct (lookup "followers" kvs); [|now intros [= <-]].
  destruct (lookup "monitored_repos" kvs); [|now intros [= <-]].
  destruct (lookup "recent_stars" kvs); [|now intros [= <-]].
  destruct (lookup "public_repos" kvs); [|now intros [= <-]].
  discriminate.
Qed.

(** the menu of a record whose lists hold entries as the fetch builds
    them *)
Lemma github_render_entries kvs repos stars s :
  first_missing github_fields kvs = None ->
  lookup "monitored_repos" kvs = Some (JArr repos) ->
  lookup "recent_stars" kvs = Some (JArr stars) ->
  Forall repo_entry repos ->
  Forall star_entry stars ->
  Forall (dated E) stars ->
  exists lines,
    Github.format_xbar_output E (JObj kvs) s
      = (Ok (join nl lines), ticked (List.length stars) s)
    /\ List.length lines
       = menu_lines (List.length repos) (List.length stars).
Proof.
  intros Hfields Hrepos Hstars Hrepo Hstar Hdated.
  unfold github_fields in Hfields. cbn [first_missing] in Hfields.
  rewrite Hrepos, Hstars in Hfields.
  unfold Github.format_xbar_output, bind, lift.
  cbn [py_getitem py_get]. rewrite Hrepos, Hstars.
  destruct (lookup "username" kvs) as [username|]; [|discriminate].
  destruct (lookup "name" kvs) as [name|]; [|discriminate].
  destruct (lookup "stars_received" kvs) as [received|]; [|discriminate].
  destruct (lookup "followers" kvs) as [followers|]; [|discriminate].
  destruct (lookup "public_repos" kvs) as [public|]; [|discriminate].
  cbn [py_iter].
  match goal with
  | |- context [Github.monitored_lines E repos ?d s] =>
      destruct (monitored_lines_entries repos Hrepo d s)
        as (rlines & Hrun & Hrlen)
  end.
  rewrite Hrun.
  destruct stars as [|star stars'].
  - cbn [truthy ret List.length]. rewrite ticked_zero.
    eexists. split; [reflexivity|].
    cbn [List.length]. rewrite !length_app, Hrlen. cbn. unfold menu_lines. lia.
  - cbn [truthy py_iter].
    match goal with
    | |- context [Github.star_lines E (star :: stars') ?d s] =>
        destruct (star_lines_entries (star :: stars') Hstar Hdated d s)
          as (slines & Hsrun & Hslen)
    end.
    rewrite Hsrun. unfold ret.
    eexists. split; [reflexivity|].
    cbn [List.length] in *. rewrite !length_app, Hrlen, Hslen. cbn.
    unfold menu_lines. lia.
Qed.
End GithubRender.

Section GithubRecord.
Variable E : env.
Variable C : Github.config.

(** the shape of every record that the live fetch returns *)
Lemma github_fetch_result fuel s r s' :
  Github.fetch_from_api E C fuel s = (Ok r, s') ->
  exists kvs repos stars,
    r = JObj kvs
    /\ map fst kvs = github_record_fields
    /\ lookup "monitored_repos" kvs = Some (JArr repos)
    /\ lookup "recent_stars" kvs = Some (JArr stars)
    /\ first_missing github_fields kvs = None
    /\ Forall repo_entry repos
    /\ (List.length repos
        <= List.length (filter nonblank (Github.MONITORED_REPOS C)))%nat
    /\ Forall star_entry stars
    /\ (List.length stars <= 5)%nat.
Proof.
  unfold Github.fetch_from_api. intros H.
  apply bind_ok_inv in H as (user_data & s1 & _ & H).
  apply bind_ok_inv in H as (received & s2 & _ & H).
  apply bind_ok_inv in H as (repos & s3 & Hrepos & H).
  apply bind_ok_inv in H as (stars & s4 & Hstars & H).
  apply bind_ok_inv in H as (login & s5 & _ & H).
  apply bind_ok_inv in H as (login' & s6 & _ & H).
  apply bind_ok_inv in H as (name & s7 & _ & H).
  apply bind_ok_inv in H as (avatar & s8 & _ & H).
  apply bind_ok_inv in H as (followers & s9 & _ & H).
  apply bind_ok_inv in H as (following & s10 & _ & H).
  apply bind_ok_inv in H as (public & s11 & _ & H).
  apply bind_ok_inv in H as (now & s12 & _ & H).
  injection H as <- <-.
  unfold Github.fetch_monitored_repos_data in Hrepos.
  destruct (monitored_loop_runs E C (Github.MONITORED_REPOS C) [] s2)
    as (added & Hrun & Hlen & Hall).
  rewrite Hrun in Hrepos. injection Hrepos as <- _.
  unfold Github.fetch_recent_stars_by_following in Hstars.
  apply bind_ok_inv in Hstars as (events & s13 & _ & Hstars).
  apply bind_ok_inv in Hstars as (items & s14 & _ & Hstars).
  apply (star_loop_bound E) in Hstars as (Hfive & _ & Hentries);
    [|cbn; lia|constructor].
  eexists _, added, stars.
  split; [reflexivity|]. repeat split; assumption.
Qed.

(** on a miss the orchestrator returns what the live fetch returns *)
Lemma github_miss_result fuel s d s0 r s1 :
  Github.load_cache E s = (Ok d, s0) -> truthy d = false ->
  Github.fetch_github_data E C fuel s = (Ok r, s1) ->
  exists s2, Github.fetch_from_api E C fuel s0 = (Ok r, s2)
             /\ s1 = snd (save_cache E r s2).
Proof.
  intros Hload Hd Hfetch.
  rewrite (github_miss E C fuel s d s0 Hload Hd) in Hfetch.
  destruct (live_outcome E (Github.fetch_from_api E C fuel) s0)
    as (Hraise & Hdiv & Hok).
  unfold github_live, Github.save_cache in Hfetch.
  destruct (Github.fetch_from_api E C fuel s0) as [[r'|e'|] s2] eqn:Hapi;
    cbn [snd] in *.
  - rewrite (Hok r' s2 eq_refl) in Hfetch. injection Hfetch as -> <-.
    now exists s2.
  - rewrite (Hraise e' s2 eq_refl) in Hfetch. discriminate Hfetch.
  - rewrite (Hdiv eq_refl) in Hfetch. discriminate Hfetch.
Qed.
End GithubRecord.

(** X16. The renderer of the code-hosting script raises [KeyError]
    naming the first field it indexes that the record lacks.  On a
    record whose lists hold entries as the fetch builds them, with star
    dates that [strptime] parses, it returns a menu of 16 lines plus one
    per monitored repository plus, when there are recent stars, a
    two-line heading and one line per star; it reads the clock once per
    star and touches nothing else. *)
Theorem github_render_lines (E : env) (kvs : list (string * json))
    (s : state) :
  (forall k, first_missing github_fields kvs = Some k ->
     Github.format_xbar_output E (JObj kvs) s = (Raise (KeyError k), s))
  /\ (forall repos stars,
        first_missing github_fields kvs = None ->
        lookup "monitored_repos" kvs = Some (JArr repos) ->
        lookup "recent_stars" kvs = Some (JArr stars) ->
        Forall repo_entry repos ->
        Forall star_entry stars ->
        Forall (dated E) stars ->
        exists lines,
          Github.format_xbar_output E (JObj kvs) s
            = (Ok (join nl lines), ticked (List.length stars) s)
          /\ List.length lines
             = menu_lines (List.length repos) (List.length stars)).
Proof.
  split.
  - intros k. apply github_render_missing.
  - intros repos stars. apply github_render_entries.
Qed.

(** X17. Every record that the live fetch of the code-hosting script
    returns has the ten fields username, name, avatar_url, followers,
    following, public_repos, stars_received, monitored_repos,
    recent_stars and last_updated, in that order; its monitored
    repositories are entries of five members, at most one per non-blank
    monitored name, and its recent stars are entries of four members,
    at most five. *)
Theorem github_record_is_complete (E : env) (C : Github.config)
    (fuel : nat) (s : state) (r : json) (s' : state) :
  Github.fetch_from_api E C fuel s = (Ok r, s') ->
  exists kvs repos stars,
    r = JObj kvs
    /\ map fst kvs = github_record_fields
    /\ lookup "monitored_repos" kvs = Some (JArr repos)
    /\ lookup "recent_stars" kvs = Some (JArr stars)
    /\ Forall repo_entry repos
    /\ (List.length repos
        <= List.length (filter nonblank (Github.MONITORED_REPOS C)))%nat
    /\ Forall star_entry stars
    /\ (List.length stars <= 5)%nat.
Proof.
  intros H.
  destruct (github_fetch_result E C fuel s r s' H)
    as (kvs & repos & stars & Hr & Hkeys & Hrepos & Hstars & _
        & Hrepo & Hcount & Hstar & Hfive).
  exists kvs, repos, stars. repeat split; assumption.
Qed.

(** X18. After a live fetch of the code-hosting script whose write went
    through, the cache file holds the returned record, and any later
    run that starts from that file within the window returns the same
    record from the cache, with no request. *)
Theorem github_next_run_hits (E : env) (C : Github.config) (fuel : nat)
    (s : state) (d : json) (s0 : state) (r : json) (s1 : state) :
  disk E = WriteOk ->
  Github.load_cache E s = (Ok d, s0) ->
  truthy d = false ->
  Github.fetch_github_data E C fuel s = (Ok r, s1) ->
  exists t,
    file s1 = written_entry t r
    /\ forall E' C' fuel' s',
         file s' = file s1 ->
         clock E' (ticks s') - t <= Github.CACHE_EXPIRATION ->
         Github.fetch_github_data E' C' fuel' s' = (Ok r, tick s')
         /\ requests (tick s') = requests s'.
Proof.
  intros Hdisk Hload Hd Hfetch.
  destruct (github_miss_result E C fuel s d s0 r s1 Hload Hd Hfetch)
    as (s2 & Hapi & ->).
  assert (truthy r = true) as Htruthy.
  { destruct (github_fetch_result E C fuel s0 r s2 Hapi)
      as (kvs & _ & _ & -> & Hkeys & _).
    destruct kvs; [discriminate Hkeys|reflexivity]. }
  exists (clock E (ticks s2)). split; [now apply written_through|].
  intros E' C' fuel' s' Hfile Hfresh. split; [|reflexivity].
  apply github_hit; [|exact Htruthy].
  unfold Github.load_cache.
  apply written_entry_is_loaded with (t := clock E (ticks s2));
    [|exact Hfresh].
  rewrite Hfile. now apply written_through.
Qed.

(** X19. With a fresh cache entry whose timestamp is a number in the
    range of a float and whose payload is a record that the renderer
    accepts, the code-hosting script prints exactly what
    [format_xbar_output] returns on the cached record, a menu of
    [menu_lines] lines, and nothing else; it issues no request, leaves
    the cache file alone and ends with exit status 0. *)
Theorem github_hit_renders_cache (E : env) (C : Github.config)
    (fuel : nat) (s : state) (t : Z) (kvs : list (string * json))
    (repos stars : list json) :
  well_formed_entry (file s) t (JObj kvs) ->
  float_range t ->
  clock E (ticks s) - t <= Github.CACHE_EXPIRATION ->
  first_missing github_fields kvs = None ->
  lookup "monitored_repos" kvs = Some (JArr repos) ->
  lookup "recent_stars" kvs = Some (JArr stars) ->
  Forall repo_entry repos ->
  Forall star_entry stars ->
  Forall (dated E) stars ->
  exists out s',
    Github.format_xbar_output E (JObj kvs) (tick s) = (Ok out, s')
    /\ Github.main E C fuel s = (Ok tt, printed s' [out])
    /\ (exists lines,
          out = join nl lines
          /\ List.length lines
             = menu_lines (List.length repos) (List.length stars))
    /\ requests s' = requests s
    /\ file s' = file s
    /\ stdout s' = stdout s
    /\ exit_code (fst (Github.main E C fuel s)) = Some 0.
Proof.
  intros (ekvs & Hfile & (v & Hts & Hnum) & Hdata) _ Hfresh Hfields
         Hrepos Hstars Hrepo Hstar Hdated.
  assert (Github.load_cache E s = (Ok (JObj kvs), tick s)) as Hload.
  { unfold Github.load_cache.
    rewrite (load_cache_object E _ s ekvs Hfile).
    unfold entry_timestamp, entry_data. rewrite Hts, Hnum, Hdata.
    destruct (Z.gtb_spec (clock E (ticks s) - t) Github.CACHE_EXPIRATION);
      [lia|reflexivity]. }
  assert (truthy (JObj kvs) = true) as Htruthy.
  { destruct kvs; [discriminate Hfields|reflexivity]. }
  destruct (github_render_entries E kvs repos stars (tick s)
              Hfields Hrepos Hstars Hrepo Hstar Hdated)
    as (lines & Hout & Hlen).
  assert (Github.main E C fuel s
          = (Ok tt, printed (ticked (List.length stars) (tick s))
                      [join nl lines])) as Hmain.
  { unfold Github.main, try_except.
    rewrite (bind_ok _ _ _ _ _
               (github_hit E C fuel s _ _ Hload Htruthy)),
      (bind_ok _ _ _ _ _ Hout).
    reflexivity. }
  exists (join nl lines), (ticked (List.length stars) (tick s)).
  split; [exact Hout|]. split; [exact Hmain|].
  split; [exists lines; split; [reflexivity|exact Hlen]|].
  split; [reflexivity|]. split; [reflexivity|]. split; [reflexivity|].
  now rewrite Hmain.
Qed.

(** X20. When the orchestrator of the code-hosting script returns a
    freshly fetched record whose star dates [strptime] parses, the
    script prints exactly what [format_xbar_output] returns on that
    record and nothing else; rendering issues no request and leaves the
    cache file alone, and the script ends with exit status 0. *)
Theorem github_fetched_record_is_rendered (E : env) (C : Github.config)
    (fuel : nat) (s : state) (d : json) (s0 : state) (r : json)
    (s1 : state) :
  Github.load_cache E s = (Ok d, s0) ->
  truthy d = false ->
  Github.fetch_github_data E C fuel s = (Ok r, s1) ->
  (forall star, In star (match follow [Key "recent_stars"] r with
                         | Some (JArr stars) => stars
                         | _ => []
                         end) -> dated E star) ->
  exists out s',
    Github.format_xbar_output E r s1 = (Ok out, s')
    /\ Github.main E C fuel s = (Ok tt, printed s' [out])
    /\ requests s' = requests s1
    /\ stdout s' = stdout s1
    /\ file s' = file s1
    /\ exit_code (fst (Github.main E C fuel s)) = Some 0.
Proof.
  intros Hload Hd Hfetch Hdates.
  destruct (github_miss_result E C fuel s d s0 r s1 Hload Hd Hfetch)
    as (s2 & Hapi & Hs1).
  destruct (github_fetch_result E C fuel s0 r s2 Hapi)
    as (kvs & repos & stars & -> & _ & Hrepos & Hstars & Hfields
        & Hrepo & _ & Hstar & _).
  cbn [follow] in Hdates. rewrite Hstars in Hdates.
  assert (Forall (dated E) stars) as Hdated
      by (apply Forall_forall; exact Hdates).
  destruct (github_render_entries E kvs repos stars s1
              Hfields Hrepos Hstars Hrepo Hstar Hdated)
    as (lines & Hout & _).
  assert (Github.main E C fuel s
          = (Ok tt, printed (ticked (List.length stars) s1) [join nl lines]))
    as Hmain.
  { unfold Github.main, try_except.
    rewrite (bind_ok _ _ _ _ _ Hfetch), (bind_ok _ _ _ _ _ Hout).
    reflexivity. }
  exists (join nl lines), (ticked (List.length stars) s1).
  split; [exact Hout|]. split; [exact Hmain|].
  split; [reflexivity|]. split; [reflexivity|]. split; [reflexivity|].
  now rewrite Hmain.
Qed.


(** * Concrete runs of the further properties *)

Lemma recent_stars_at_most_five_witness :
  let E := github_env 1700003600 in
  let s := Sample.start Absent in
  Github.fetch_recent_stars_by_following E Sample.github_config s
    = (Ok first_feed_stars, snd first_feed_run)
  /\ (List.length first_feed_stars <= 5)%nat.
Proof.
  intros E s.
  assert (Github.fetch_recent_stars_by_following E Sample.github_config s
          = (Ok first_feed_stars, snd first_feed_run)) as Hrun
      by (vm_compute; reflexivity).
  split; [exact Hrun|].
  exact (recent_stars_at_most_five E Sample.github_config s
           first_feed_stars (snd first_feed_run) Hrun).
Defined.

Lemma recent_stars_are_first_five_witness :
  let E := github_env 1700003600 in
  let C := Sample.github_config in
  let s := Sample.start Absent in
  network E (List.length (requests s)) (events_request C)
    = Response (ok_response (JArr sample_feed))
  /\ status_code (ok_response (JArr sample_feed)) < 400
  /\ Forall (fun event => feed_shaped E event = true) sample_feed
  /\ Github.fetch_recent_stars_by_following E C s
     = (Ok (firstn 5 (star_events E sample_feed)),
        logged s (events_request C)).
Proof.
  intros E C s.
  assert (Forall (fun event => feed_shaped E event = true) sample_feed)
    as Hshape by (repeat constructor).
  split; [reflexivity|]. split; [reflexivity|]. split; [exact Hshape|].
  exact (recent_stars_are_first_five E C s (ok_response (JArr sample_feed))
           sample_feed eq_refl eq_refl eq_refl Hshape).
Defined.

Lemma stars_received_is_total_witness :
  let E := Sample.mk_env (Sample.ticking 5000) (paged_network repos_250)
             WriteOk in
  let C := Sample.github_config in
  let s := Sample.start Absent in
  serves_pages E C repos_250
  /\ (full_pages (List.length repos_250) < 10)%nat
  /\ Forall (fun repo => star_count repo <> None) repos_250
  /\ fst (Github.fetch_stars_received E C 10 s)
     = Ok (JNum (total_stars repos_250))
  /\ total_stars repos_250 = 250.
Proof.
  intros E C s.
  assert (full_pages (List.length repos_250) < 10)%nat as Hfuel
      by (vm_compute; lia).
  pose proof (paged_network_serves (Sample.ticking 5000) WriteOk C repos_250)
    as Hserved.
  assert (Forall (fun repo => star_count repo <> None) repos_250) as Hall.
  { apply Forall_forall. intros repo Hin.
    apply repeat_spec in Hin. subst repo. discriminate. }
  split; [exact Hserved|]. split; [exact Hfuel|]. split; [exact Hall|].
  split; [|vm_compute; reflexivity].
  exact (stars_received_is_total E C repos_250 10 s Hserved Hfuel Hall).
Defined.

Lemma stars_received_needs_every_count_witness :
  let l := [repo_with_stars 3; JObj [("name", JStr "bare")];
            repo_with_stars 4] in
  let E := Sample.mk_env (Sample.ticking 5000) (paged_network l) WriteOk in
  let C := Sample.github_config in
  let s := Sample.start Absent in
  serves_pages E C l
  /\ (full_pages (List.length l) < 10)%nat
  /\ Forall (fun repo => star_count repo <> None) [repo_with_stars 3]
  /\ star_count (JObj [("name", JStr "bare")]) = None
  /\ fst (Github.fetch_stars_received E C 10 s)
     = Raise (KeyError "stargazers_count").
Proof.
  intros l E C s.
  assert (full_pages (List.length l) < 10)%nat as Hfuel
      by (vm_compute; lia).
  pose proof (paged_network_serves (Sample.ticking 5000) WriteOk C l)
    as Hserved.
  assert (Forall (fun repo => star_count repo <> None) [repo_with_stars 3])
    as Hall by (repeat constructor; discriminate).
  split; [exact Hserved|]. split; [exact Hfuel|]. split; [exact Hall|].
  split; [reflexivity|].
  exact (stars_received_needs_every_count E C [repo_with_stars 3]
           (JObj [("name", JStr "bare")]) [repo_with_stars 4] 10 s
           Hserved Hfuel Hall eq_refl).
Defined.

Lemma pagination_without_end_witness :
  let E := Sample.mk_env (Sample.ticking 5000) same_page_network WriteOk in
  let C := Sample.github_config in
  let r := ok_response (JArr [repo_with_stars 1]) in
  (forall i p, network E i (page_request C p) = Response r)
  /\ status_code r < 400
  /\ Github.fetch_repos_data E C 7 (Sample.start Absent)
     = (Diverge,
        logged_all (Sample.start Absent)
          (map (page_request C) (seq 1 7))).
Proof.
  intros E C r.
  assert (forall i p, network E i (page_request C p) = Response r) as Hnet
      by reflexivity.
  split; [exact Hnet|]. split; [reflexivity|].
  exact (pagination_without_end E C r (repo_with_stars 1) [] Hnet
           eq_refl eq_refl 7%nat (Sample.start Absent)).
Defined.

Lemma request_returns_body_witness :
  let E := github_env 1700003600 in
  let C := Sample.github_config in
  let s := Sample.start Absent in
  let r := ok_response sample_user in
  network E (List.length (requests s))
    (github_request C (Github.USER_ENDPOINT C) None) = Response r
  /\ status_code r < 400
  /\ Github.GITHUB_TOKEN C <> ""
  /\ In ("Authorization", "token " ++ Github.GITHUB_TOKEN C)
       (req_headers (github_request C (Github.USER_ENDPOINT C) None))
  /\ Github.make_github_request E C (Github.USER_ENDPOINT C) None s
     = (Ok sample_user, logged s (user_request C)).
Proof.
  intros E C s r.
  destruct (request_returns_body E C (Github.USER_ENDPOINT C) None s r
              eq_refl eq_refl) as (Hauth & Hjson & _).
  assert (Github.GITHUB_TOKEN C <> "") as Htoken by discriminate.
  split; [reflexivity|]. split; [reflexivity|]. split; [exact Htoken|].
  split; [now apply Hauth|]. exact (Hjson sample_user eq_refl).
Defined.

Lemma profile_failure_stops_fetch_witness :
  let E := offline_env 5000 in
  let C := Sample.github_config in
  let s := Sample.start Absent in
  let e := RequestException "Connection refused" in
  Github.fetch_user_data E C s = (Raise e, logged s (user_request C))
  /\ Github.fetch_from_api E C 5 s = (Raise e, logged s (user_request C)).
Proof.
  intros E C s e. split; [reflexivity|].
  exact (profile_failure_stops_fetch E C 5 s e (logged s (user_request C))
           eq_refl).
Defined.

Lemma time_str_buckets_witness :
  let E := offline_env 0 in
  (86400 <= 200000 /\ Github.time_str E 200000 = "2d ago")
  /\ (3600 <= 7300 < 86400 /\ Github.time_str E 7300 = "2h ago")
  /\ (0 <= 125 < 3600 /\ Github.time_str E 125 = "2m ago")
  /\ (-86400 <= -60 < 0
      /\ Github.time_str E (-60) = Github.time_str E (-60 + 86400)).
Proof.
  intros E.
  destruct (time_str_buckets E 200000) as (Hd & _).
  destruct (time_str_buckets E 7300) as (_ & Hh & _).
  destruct (time_str_buckets E 125) as (_ & _ & Hm & _).
  destruct (time_str_buckets E (-60)) as (_ & _ & _ & Hf).
  assert (86400 <= 200000) as H1 by lia.
  assert (3600 <= 7300 < 86400) as H2 by lia.
  assert (0 <= 125 < 3600) as H3 by lia.
  assert (-86400 <= -60 < 0) as H4 by lia.
  split; [split; [exact H1|exact (proj1 (Hd H1))]|].
  split; [split; [exact H2|exact (proj1 (Hh H2))]|].
  split; [split; [exact H3|exact (proj1 (Hm H3))]|].
  split; [exact H4|exact (Hf H4)].
Defined.

Lemma failed_write_is_swallowed_witness :
  let s := Sample.start (Sample.entry 0 Sample.scholar_record) in
  (disk (readonly_env 5000) = OpenFails
   /\ save_cache (readonly_env 5000) Sample.github_record s = (Ok tt, tick s))
  /\ (disk (full_disk_env 5000) = DumpFails
      /\ exists s1,
           save_cache (full_disk_env 5000) Sample.github_record s
             = (Ok tt, s1)
           /\ file s1 = Garbage
           /\ load_cache (full_disk_env 5000) Github.CACHE_EXPIRATION s1
              = (Ok JNull, s1)).
Proof.
  intros s. split.
  - split; [reflexivity|].
    exact (proj1 (failed_write_is_swallowed (readonly_env 5000)
                    Github.CACHE_EXPIRATION Sample.github_record s) eq_refl).
  - split; [reflexivity|].
    exact (proj2 (failed_write_is_swallowed (full_disk_env 5000)
                    Github.CACHE_EXPIRATION Sample.github_record s) eq_refl).
Defined.

Lemma scholar_render_needs_fields_witness :
  let E := offline_env 5000 in
  let C := Sample.scholar_config in
  let s := Sample.start Absent in
  let partial := [("name", JStr "A. Author"); ("citations", JNum 120)] in
  first_missing scholar_fields partial = Some "h_index"
  /\ Scholar.format_xbar_output E C (JObj partial) s
     = (Raise (KeyError "h_index"), s)
  /\ Scholar.format_xbar_output E C (JArr []) s = (Raise TypeError, s).
Proof.
  intros E C s partial.
  destruct (scholar_render_needs_fields E C (JObj partial) s) as (Hk & _).
  destruct (scholar_render_needs_fields E C (JArr []) s) as (_ & _ & Ht).
  split; [reflexivity|].
  split; [exact (Hk partial "h_index" eq_refl eq_refl)|].
  apply Ht. intros kvs H. discriminate H.
Defined.

Lemma scholar_record_is_complete_witness :
  let E := answering_env 1000 server_error_response in
  let C := Sample.scholar_config in
  let s := Sample.start Absent in
  Scholar.fetch_from_api E C s = (Ok defaults_record, snd defaults_run)
  /\ truthy defaults_record = true
  /\ exists out,
       Scholar.format_xbar_output E C defaults_record s = (Ok out, s).
Proof.
  intros E C s.
  assert (Scholar.fetch_from_api E C s
          = (Ok defaults_record, snd defaults_run)) as Hrun
      by (vm_compute; reflexivity).
  destruct (scholar_record_is_complete E C s defaults_record
              (snd defaults_run) Hrun) as (_ & Htruthy & Hrender).
  split; [exact Hrun|]. split; [exact Htruthy|apply Hrender].
Defined.

Lemma scholar_miss_ends_well_witness :
  let E := offline_env 100000 in
  let C := Sample.scholar_config in
  let s := Sample.start (Sample.entry 0 Sample.scholar_record) in
  monotone (clock E)
  /\ Scholar.load_cache E s = (Ok JNull, tick s)
  /\ truthy JNull = false
  /\ exit_code (fst (Scholar.main E C s)) = Some 0.
Proof.
  intros E C s.
  split; [apply ticking_monotone|]. split; [reflexivity|].
  split; [reflexivity|].
  exact (proj1 (scholar_miss_ends_well E C s JNull (tick s)
                  (ticking_monotone 100000) eq_refl eq_refl)).
Defined.

Lemma scholar_hit_renders_cache_witness :
  let E := offline_env 5000 in
  let C := Sample.scholar_config in
  let kvs := match Sample.scholar_record with JObj kvs => kvs | _ => [] end in
  let s := Sample.start (Sample.entry 4000 (JObj kvs)) in
  well_formed_entry (file s) 4000 (JObj kvs)
  /\ float_range 4000
  /\ clock E (ticks s) - 4000 <= Scholar.CACHE_EXPIRATION
  /\ first_missing scholar_fields kvs = None
  /\ exists out,
       Scholar.format_xbar_output E C (JObj kvs) (tick s) = (Ok out, tick s)
       /\ Scholar.main E C s = (Ok tt, printed (tick s) [out])
       /\ requests (printed (tick s) [out]) = requests s.
Proof.
  intros E C kvs s.
  assert (well_formed_entry (file s) 4000 (JObj kvs)) as Hwf.
  { eexists. split; [reflexivity|]. split; [|reflexivity].
    exists (JNum 4000). split; reflexivity. }
  assert (float_range 4000) as Hrange by (split; vm_compute; reflexivity).
  assert (clock E (ticks s) - 4000 <= Scholar.CACHE_EXPIRATION) as Hfresh
      by (vm_compute; discriminate).
  destruct (scholar_hit_renders_cache E C s 4000 kvs Hwf Hrange Hfresh
              eq_refl)
    as (out & Hout & Hmain & Hreq & _).
  split; [exact Hwf|]. split; [exact Hrange|]. split; [exact Hfresh|].
  split; [reflexivity|].
  exists out. split; [exact Hout|]. split; [exact Hmain|exact Hreq].
Defined.

Lemma scholar_next_run_hits_witness :
  let E := answering_env 1000 (ok_response author_body) in
  let C := Sample.scholar_config in
  let s := Sample.start Absent in
  disk E = WriteOk
  /\ Scholar.load_cache E s = (Ok JNull, s)
  /\ Scholar.fetch_scholar_data E C s
     = (Ok first_scholar_record, snd first_scholar_run)
  /\ (let E' := offline_env 2000 in
      let s' := Sample.start (file (snd first_scholar_run)) in
      Scholar.fetch_scholar_data E' C s' = (Ok first_scholar_record, tick s')).
Proof.
  intros E C s.
  assert (Scholar.fetch_scholar_data E C s
          = (Ok first_scholar_record, snd first_scholar_run)) as Hrun
      by (vm_compute; reflexivity).
  destruct (scholar_next_run_hits E C s JNull s first_scholar_record
              (snd first_scholar_run) eq_refl eq_refl eq_refl Hrun)
    as (t & Hfile & Hnext).
  split; [reflexivity|]. split; [reflexivity|]. split; [exact Hrun|].
  intros E' s'.
  assert (t = 1002) as ->.
  { unfold written_entry in Hfile. vm_compute in Hfile.
    now injection Hfile as <-. }
  apply (Hnext E' C s'); [reflexivity|vm_compute; discriminate].
Defined.

Lemma github_render_lines_witness :
  let E := offline_env 1700003600 in
  let s := Sample.start Absent in
  let kvs := match github_record_with [sample_repo_entry]
                     [sample_star_entry; sample_star_entry] with
             | JObj kvs => kvs
             | _ => []
             end in
  first_missing github_fields [("username", JStr "octocat")] = Some "name"
  /\ Github.format_xbar_output E (JObj [("username", JStr "octocat")]) s
     = (Raise (KeyError "name"), s)
  /\ first_missing github_fields kvs = None
  /\ Forall repo_entry [sample_repo_entry]
  /\ Forall star_entry [sample_star_entry; sample_star_entry]
  /\ Forall (dated E) [sample_star_entry; sample_star_entry]
  /\ exists lines,
       Github.format_xbar_output E (JObj kvs) s
         = (Ok (join nl lines), ticked 2 s)
       /\ List.length lines = 21%nat.
Proof.
  intros E s kvs.
  assert (Forall repo_entry [sample_repo_entry]) as Hrepo
      by (repeat constructor; now eexists _, _, _, _, _).
  assert (Forall star_entry [sample_star_entry; sample_star_entry]) as Hstar
      by (repeat constructor; now eexists _, _, _, _).
  assert (Forall (dated E) [sample_star_entry; sample_star_entry]) as Hdated
      by (repeat constructor; eexists _, _; split; reflexivity).
  destruct (github_render_lines E [("username", JStr "octocat")] s)
    as (Hmissing & _).
  destruct (github_render_lines E kvs s) as (_ & Hlines).
  split; [reflexivity|]. split; [exact (Hmissing "name" eq_refl)|].
  split; [reflexivity|]. split; [exact Hrepo|]. split; [exact Hstar|].
  split; [exact Hdated|].
  exact (Hlines [sample_repo_entry] [sample_star_entry; sample_star_entry]
           eq_refl eq_refl eq_refl Hrepo Hstar Hdated).
Defined.

Lemma github_record_is_complete_witness :
  let E := github_env 1700003600 in
  let C := Sample.github_config in
  Github.fetch_from_api E C 5 (Sample.start Absent)
    = (Ok first_github_record, first_api_state)
  /\ exists kvs repos stars,
       first_github_record = JObj kvs
       /\ map fst kvs = github_record_fields
       /\ lookup "monitored_repos" kvs = Some (JArr repos)
       /\ lookup "recent_stars" kvs = Some (JArr stars)
       /\ Forall repo_entry repos
       /\ (List.length repos
           <= List.length (filter nonblank (Github.MONITORED_REPOS C)))%nat
       /\ Forall star_entry stars
       /\ (List.length stars <= 5)%nat.
Proof.
  intros E C.
  assert (Github.fetch_from_api E C 5 (Sample.start Absent)
          = (Ok first_github_record, first_api_state)) as Hrun
      by (vm_compute; reflexivity).
  split; [exact Hrun|].
  exact (github_record_is_complete E C 5 (Sample.start Absent)
           first_github_record first_api_state Hrun).
Defined.

Lemma github_next_run_hits_witness :
  let E := github_env 1700003600 in
  let C := Sample.github_config in
  let s := Sample.start Absent in
  disk E = WriteOk
  /\ Github.load_cache E s = (Ok JNull, s)
  /\ Github.fetch_github_data E C 5 s
     = (Ok first_github_record, snd first_github_run)
  /\ (let E' := offline_env 1700005000 in
      let s' := Sample.start (file (snd first_github_run)) in
      Github.fetch_github_data E' C 0 s' = (Ok first_github_record, tick s')).
Proof.
  intros E C s.
  assert (Github.fetch_github_data E C 5 s
          = (Ok first_github_record, snd first_github_run)) as Hrun
      by (vm_compute; reflexivity).
  destruct (github_next_run_hits E C 5 s JNull s first_github_record
              (snd first_github_run) eq_refl eq_refl eq_refl Hrun)
    as (t & Hfile & Hnext).
  split; [reflexivity|]. split; [reflexivity|]. split; [exact Hrun|].
  intros E' s'.
  assert (t = 1700003601) as ->.
  { unfold written_entry in Hfile. vm_compute in Hfile.
    now injection Hfile as <-. }
  apply (Hnext E' C 0%nat s'); [reflexivity|vm_compute; discriminate].
Defined.

Lemma github_hit_renders_cache_witness :
  let E := offline_env 1700003600 in
  let C := Sample.github_config in
  let kvs := match github_record_with [sample_repo_entry]
                     [sample_star_entry] with
             | JObj kvs => kvs
             | _ => []
             end in
  let s := Sample.start (Sample.entry 1700003000 (JObj kvs)) in
  well_formed_entry (file s) 1700003000 (JObj kvs)
  /\ float_range 1700003000
  /\ clock E (ticks s) - 1700003000 <= Github.CACHE_EXPIRATION
  /\ first_missing github_fields kvs = None
  /\ Forall (dated E) [sample_star_entry]
  /\ exists out s',
       Github.format_xbar_output E (JObj kvs) (tick s) = (Ok out, s')
       /\ Github.main E C 0 s = (Ok tt, printed s' [out])
       /\ (exists lines, out = join nl lines /\ List.length lines = 20%nat)
       /\ requests s' = requests s.
Proof.
  intros E C kvs s.
  assert (well_formed_entry (file s) 1700003000 (JObj kvs)) as Hwf.
  { eexists. split; [reflexivity|]. split; [|reflexivity].
    exists (JNum 1700003000). split; reflexivity. }
  assert (clock E (ticks s) - 1700003000 <= Github.CACHE_EXPIRATION)
    as Hfresh by (vm_compute; discriminate).
  assert (Forall repo_entry [sample_repo_entry]) as Hrepo
      by (repeat constructor; now eexists _, _, _, _, _).
  assert (Forall star_entry [sample_star_entry]) as Hstar
      by (repeat constructor; now eexists _, _, _, _).
  assert (Forall (dated E) [sample_star_entry]) as Hdated
      by (repeat constructor; eexists _, _; split; reflexivity).
  assert (float_range 1700003000) as Hrange
      by (split; vm_compute; reflexivity).
  destruct (github_hit_renders_cache E C 0 s 1700003000 kvs
              [sample_repo_entry] [sample_star_entry]
              Hwf Hrange Hfresh eq_refl eq_refl eq_refl Hrepo Hstar Hdated)
    as (out & s' & Hout & Hmain & Hlines & Hreq & _).
  split; [exact Hwf|]. split; [exact Hrange|]. split; [exact Hfresh|].
  split; [reflexivity|]. split; [exact Hdated|].
  exists out, s'. split; [exact Hout|]. split; [exact Hmain|].
  split; [exact Hlines|exact Hreq].
Defined.

Lemma github_fetched_record_is_rendered_witness :
  let E := github_env 1700003600 in
  let C := Sample.github_config in
  let s := Sample.start Absent in
  Github.load_cache E s = (Ok JNull, s)
  /\ Github.fetch_github_data E C 5 s
     = (Ok first_github_record, snd first_github_run)
  /\ exists out s',
       Github.format_xbar_output E first_github_record
         (snd first_github_run) = (Ok out, s')
       /\ Github.main E C 5 s = (Ok tt, printed s' [out])
       /\ requests s' = requests (snd first_github_run)
       /\ exit_code (fst (Github.main E C 5 s)) = Some 0.
Proof.
  intros E C s.
  assert (Github.fetch_github_data E C 5 s
          = (Ok first_github_record, snd first_github_run)) as Hrun
      by (vm_compute; reflexivity).
  assert (forall star,
             In star (match follow [Key "recent_stars"] first_github_record
                      with
                      | Some (JArr stars) => stars
                      | _ => []
                      end) -> dated E star) as Hdates.
  { intros star Hin. cbn in Hin.
    repeat (destruct Hin as [<-|Hin];
            [eexists _, _; split; reflexivity|]).
    destruct Hin. }
  destruct (github_fetched_record_is_rendered E C 5 s JNull s
              first_github_record (snd first_github_run)
              eq_refl eq_refl Hrun Hdates)
    as (out & s' & Hout & Hmain & Hreq & _ & _ & Hexit).
  split; [reflexivity|]. split; [exact Hrun|].
  exists out, s'. split; [exact Hout|]. split; [exact Hmain|].
  split; [exact Hreq|exact Hexit].
Defined.

Lemma monitored_repos_never_fail_witness :
  let E := Sample.mk_env (Sample.ticking 5000) one_repo_server WriteOk in
  let C := mixed_names_config in
  let s := Sample.start Absent in
  Github.fetch_monitored_repos_data E C s
    = (Ok [sample_repo_entry],
       logged_all s [repo_request C "ghost/none";
                     repo_request C " octocat/Hello-World "]).
Proof.
  intros E C s.
  destruct (monitored_repos_never_fail E C s) as [Hrun _].
  rewrite Hrun. vm_compute. reflexivity.
Defined.
